(** * BAGEL environment setup: a shallow embedding of [Setup.py]

    The development models the command-execution layer
    ([BAGELSetup.run_command]), the installer command builder
    ([_get_pip_executable_cmd_list], [_install_package_with_pip]), the Conda
    environment provisioner, the dependency installation pipeline
    ([install_requirements], [install_critical_packages_fallback],
    [install_gradio]) and the exit-status mapping of [main].

    Python text is modelled by [string]; its characters are 8-bit code
    points.  External processes, the operator's answers and the file system
    are oracles of a [World]; everything these functions print is recorded
    as an event of the run.

    The steps around the pipeline are modelled as well: the probes of the
    network and of the system, the offer to install Conda, the check of
    [pip], the repository fetcher and the [venv] provisioner.  What they
    ask of the machine beyond a [World] is a [Machine]; the lines they print
    are enumerated by [note] and leave no event. *)

From Stdlib Require Import String Ascii List Bool Arith ZArith Lia.
From Stdlib Require Import Sorting.Permutation.
From Stdlib Require Import DecimalString.
Import ListNotations.

Local Open Scope string_scope.
Local Open Scope list_scope.
Local Open Scope nat_scope.

(** Python's [+] on text; [++] stays the append of lists. *)
Infix "+++" := String.append (right associativity, at level 60).

(* ================================================================== *)
(** ** Characters and the Python string operations the script uses     *)
(* ================================================================== *)

Module Py.

Definition backslash : ascii := "092"%char.
Definition dquote : ascii := "034"%char.
Definition squote : ascii := "039"%char.
Definition space : ascii := " "%char.
Definition tab : ascii := "009"%char.
Definition lf : ascii := "010"%char.
Definition cr : ascii := "013"%char.

(** One-character string. *)
Definition chr (c : ascii) : string := String c EmptyString.

(** [c in s] for a single character [c]. *)
Fixpoint char_in (c : ascii) (s : string) : bool :=
  match s with
  | EmptyString => false
  | String d s' => Ascii.eqb c d || char_in c s'
  end.

(** [needle in hay]: substring test. *)
Fixpoint str_in (needle hay : string) : bool :=
  String.prefix needle hay ||
  match hay with
  | EmptyString => false
  | String _ hay' => str_in needle hay'
  end.

(** Truthiness of a string: [bool(s)]. *)
Definition nonempty (s : string) : bool :=
  match s with EmptyString => false | _ => true end.

(** [s.startswith(p)]. *)
Definition startswith (s p : string) : bool := String.prefix p s.

(** [sep.join(parts)]. *)
Definition join (sep : string) (parts : list string) : string :=
  String.concat sep parts.

(** [c * n] for a character. *)
Fixpoint repeat_char (c : ascii) (n : nat) : string :=
  match n with O => EmptyString | S n' => String c (repeat_char c n') end.

(** [str.lower] on 8-bit code points: A-Z and the Latin-1 capitals
    (0xC0-0xDE except the multiplication sign 0xD7) move up by 32. *)
Definition lower_char (c : ascii) : ascii :=
  let n := nat_of_ascii c in
  if ((65 <=? n) && (n <=? 90)) ||
     ((192 <=? n) && (n <=? 222) && negb (n =? 215))
  then ascii_of_nat (n + 32) else c.

Fixpoint lower (s : string) : string :=
  match s with
  | EmptyString => EmptyString
  | String c s' => String (lower_char c) (lower s')
  end.

(** [str.isspace] for one code point below 256. *)
Definition isspace (c : ascii) : bool :=
  let n := nat_of_ascii c in
  ((9 <=? n) && (n <=? 13)) || ((28 <=? n) && (n <=? 32)) ||
  (n =? 133) || (n =? 160).

Fixpoint lstrip (s : string) : string :=
  match s with
  | EmptyString => EmptyString
  | String c s' => if isspace c then lstrip s' else s
  end.

(** Drops trailing white space: the right half of [str.strip]. *)
Fixpoint rstrip (s : string) : string :=
  match s with
  | EmptyString => EmptyString
  | String c s' =>
      match rstrip s' with
      | EmptyString => if isspace c then EmptyString else chr c
      | r => String c r
      end
  end.

Definition strip (s : string) : string := rstrip (lstrip s).

(** Line boundaries of [str.splitlines] below code point 256. *)
Definition is_linebreak (c : ascii) : bool :=
  let n := nat_of_ascii c in
  ((10 <=? n) && (n <=? 13)) || ((28 <=? n) && (n <=? 30)) || (n =? 133).

(** [str.splitlines()]: [cur] is the line being read, kept reversed; a
    carriage return directly followed by a line feed is one boundary, and
    a final boundary opens no further line. *)
Fixpoint splitlines_aux (s : string) (cur : list ascii) : list string :=
  match s with
  | EmptyString =>
      match cur with
      | [] => []
      | _ => [string_of_list_ascii (rev cur)]
      end
  | String c s' =>
      if is_linebreak c then
        string_of_list_ascii (rev cur) ::
        (if Ascii.eqb c cr then
           match s' with
           | String d s'' =>
               if Ascii.eqb d lf then splitlines_aux s'' []
               else splitlines_aux s' []
           | EmptyString => splitlines_aux s' []
           end
         else splitlines_aux s' [])
      else splitlines_aux s' (c :: cur)
  end.

Definition splitlines (s : string) : list string := splitlines_aux s [].

(** [s.replace(old, new)] for a one-character [old]. *)
Fixpoint replace_char (old : ascii) (new : string) (s : string) : string :=
  match s with
  | EmptyString => EmptyString
  | String c s' =>
      (if Ascii.eqb c old then new else chr c) +++ replace_char old new s'
  end.

(** Decimal rendering of a natural number, as an f-string does. *)
Definition str_of_nat (n : nat) : string :=
  NilEmpty.string_of_uint (Nat.to_uint n).

End Py.

(* ================================================================== *)
(** ** [subprocess.list2cmdline]                                        *)
(* ================================================================== *)

Module Subprocess.
Import Py.

(** The inner [for c in arg] loop.  [result] is the text accumulated so
    far (the joined list of the library code) and [bs_buf] the pending run
    of backslashes. *)
Fixpoint l2c_chars (arg : string) (result bs_buf : string) : string * string :=
  match arg with
  | EmptyString => (result, bs_buf)
  | String c arg' =>
      if Ascii.eqb c backslash then
        l2c_chars arg' result (bs_buf +++ chr c)
      else if Ascii.eqb c dquote then
        l2c_chars arg'
          (result +++ repeat_char backslash (String.length bs_buf * 2)
                  +++ String backslash (chr dquote))
          EmptyString
      else
        l2c_chars arg' (result +++ bs_buf +++ chr c) EmptyString
  end.

(** [needquote = (" " in arg) or ("\t" in arg) or not arg]. *)
Definition needquote (arg : string) : bool :=
  char_in space arg || char_in tab arg || negb (nonempty arg).

(** One iteration of the outer loop over the arguments. *)
Definition l2c_arg (result arg : string) : string :=
  let result := if nonempty result then result +++ chr space else result in
  let result := if needquote arg then result +++ chr dquote else result in
  let '(result, bs_buf) := l2c_chars arg result EmptyString in
  let result := if nonempty bs_buf then result +++ bs_buf else result in
  if needquote arg then result +++ bs_buf +++ chr dquote else result.

Definition list2cmdline (seq : list string) : string :=
  fold_left l2c_arg seq EmptyString.

End Subprocess.

(* ================================================================== *)
(** ** [shlex.split] and [shlex.quote]                                  *)
(* ================================================================== *)

Module Shlex.
Import Py.

(** Lexer states of [shlex.read_token] in POSIX mode: [' '], ['a'], an
    open quote, and the escape state together with the state it returns
    to ([escapedstate]). *)
Inductive esc_return := EscWord | EscQuote (q : ascii).

Inductive lex_state :=
| StWhite
| StWord
| StQuote (q : ascii)
| StEscape (back : esc_return).

(** [self.whitespace], [self.quotes], [self.escape], [self.escapedquotes]. *)
Definition is_whitespace (c : ascii) : bool :=
  Ascii.eqb c space || Ascii.eqb c tab || Ascii.eqb c cr || Ascii.eqb c lf.
Definition is_quote (c : ascii) : bool :=
  Ascii.eqb c squote || Ascii.eqb c dquote.
Definition is_escape (c : ascii) : bool := Ascii.eqb c backslash.
Definition is_escapedquote (c : ascii) : bool := Ascii.eqb c dquote.

(** The end of [read_token]: an empty unquoted result is the end-of-file
    token, at which the iteration of [split] stops; otherwise the token is
    produced and [rest] gives the tokens read after it. *)
Definition emit (token : string) (quoted : bool)
    (rest : option (list string)) : option (list string) :=
  if negb quoted && negb (nonempty token) then Some []
  else option_map (cons token) rest.

(** [list(lex)] for [lex = shlex(s, posix=True)] with [whitespace_split]
    set and no comment characters: the loop of [read_token], restarted
    after each token, as one pass over the input.  [None] is the
    [ValueError] of an unterminated quote or escape. *)
Fixpoint lex (st : lex_state) (token : string) (quoted : bool)
    (s : string) : option (list string) :=
  match s with
  | EmptyString =>
      match st with
      | StWhite | StWord => emit token quoted (Some [])
      | StQuote _ => None
      | StEscape _ => None
      end
  | String c s' =>
      match st with
      | StWhite =>
          if is_whitespace c then
            if nonempty token || quoted
            then emit token quoted (lex StWhite EmptyString false s')
            else lex StWhite token quoted s'
          else if is_escape c then lex (StEscape EscWord) token quoted s'
          else if is_quote c then lex (StQuote c) token quoted s'
          else lex StWord (chr c) quoted s'
      | StQuote q =>
          if Ascii.eqb c q then lex StWord token true s'
          else if is_escape c && is_escapedquote q
          then lex (StEscape (EscQuote q)) token true s'
          else lex (StQuote q) (token +++ chr c) true s'
      | StEscape back =>
          match back with
          | EscQuote q =>
              let token :=
                if negb (Ascii.eqb c backslash) && negb (Ascii.eqb c q)
                then token +++ chr backslash else token in
              lex (StQuote q) (token +++ chr c) quoted s'
          | EscWord => lex StWord (token +++ chr c) quoted s'
          end
      | StWord =>
          if is_whitespace c then
            if nonempty token || quoted
            then emit token quoted (lex StWhite EmptyString false s')
            else lex StWhite token quoted s'
          else if is_quote c then lex (StQuote c) token quoted s'
          else if is_escape c then lex (StEscape EscWord) token quoted s'
          else lex StWord (token +++ chr c) quoted s'
      end
  end.

Definition split (s : string) : option (list string) :=
  lex StWhite EmptyString false s.

(** Characters [shlex.quote] leaves alone: [[A-Za-z0-9_@%+=:,./-]]. *)
Definition is_safe (c : ascii) : bool :=
  let n := nat_of_ascii c in
  ((48 <=? n) && (n <=? 57)) || ((65 <=? n) && (n <=? 90)) ||
  ((97 <=? n) && (n <=? 122)) || char_in c "_@%+=:,./-".

Fixpoint all_safe (s : string) : bool :=
  match s with
  | EmptyString => true
  | String c s' => is_safe c && all_safe s'
  end.

Definition quote (s : string) : string :=
  if negb (nonempty s) then String squote (chr squote)
  else if all_safe s then s
  else String squote
         (replace_char squote
            (String squote (String dquote (String squote
               (String dquote (chr squote))))) s
          +++ chr squote).

End Shlex.

(* ================================================================== *)
(** ** Commands, process outcomes, printed messages and events          *)
(* ================================================================== *)

(** [Union[str, List[str]]], and any other value a caller may pass. *)
Inductive command :=
| CmdList (args : list string)
| CmdStr (text : string)
| CmdOther.

(** The arguments [run_command] gives to [subprocess.Popen]. *)
Record popen_call := {
  pc_args : command;
  pc_shell : bool;
  pc_cwd : string;
  pc_capture : bool
}.

(** What [Popen(...)] followed by [communicate()] does: the process ends
    with a return code and the captured streams ([None] when a stream is
    not captured), or the launch raises [FileNotFoundError] (with
    [e.filename] and [str(e)]), another [Exception] (with [str(e)]), or the
    operator's [KeyboardInterrupt]. *)
Inductive proc_outcome :=
| Exited (returncode : Z) (stdout stderr : option string)
| NotFound (filename : option string) (text : string)
| LaunchError (text : string)
| Interrupted.

(** Answer of [input(prompt)]. *)
Inductive input_outcome :=
| Answer (text : string)
| InputInterrupted
| InputEOF.

(** Python exceptions that can leave the modelled functions. *)
Inductive exn :=
| KeyboardInterrupt
| SystemExit (code : Z)
| EOFError
| ValueError (text : string)
| IndexError (text : string)
| AttributeError (text : string)
| TypeError (text : string)
| UnboundLocalError (variable : string)
| OtherException (text : string).

(** [isinstance(e, Exception)]: all but the two [BaseException]s. *)
Definition is_Exception (e : exn) : bool :=
  match e with
  | KeyboardInterrupt | SystemExit _ => false
  | _ => true
  end.

(** The lines the script prints, one constructor per [print] call of the
    modelled functions, with the values interpolated into the text. *)
Inductive message :=
(* run_command *)
| MInvalidCommandType
| MExecuting (command_to_log : string) (cwd : option string)
| MCommandFailed (returncode : Z)
| MStdout (text : string)
| MStderr (text : string)
| MNotFound (file : string)
| MErrorExecuting (command_to_log details : string)
(* check_conda_installation *)
| MCondaAvailable (version : string)
| MCondaMissing
(* create_conda_environment *)
| MCondaEnvCheck (env : string)
| MCondaEnvExists (env : string)
| MCondaEnvReuse (env : string)
| MCondaEnvSkip
| MCondaEnvRemoving (env : string)
| MCondaEnvRemoveFailed (stderr : string)
| MCreateAttempt (env py_ver : string)
| MCreateOk (env py_ver : string)
| MCreateFailed (py_ver stderr : string)
| MUnsatisfiable
| MCreateExhausted (env : string) (py_vers : string)
(* _update_python_executable_for_conda_env *)
| MCondaPython (env path : string)
| MCondaJsonUnparsable
| MCondaPythonUndetermined (env : string)
(* _install_package_with_pip *)
| MInstalling (package_spec : string) (shell : bool)
| MInstalled (package_spec : string)
| MInstallFailed (package_spec : string)
| MHintFlashAttnTools
| MHintTorchMissing
(* install_requirements *)
| MReqsMissing (requirements_file : string)
| MInstallingDeps
| MUpgradeHeader
| MUpgrading (pkg : string) (shell : bool)
| MUpgradeFailed (pkg : string)
| MUpgradeDone
| MUpgradeIncomplete
| MStep1Header
| MPytorchPip
| MPytorchNewPython (minor : nat)
| MPytorchPy312
| MPytorchFailed (minor : nat)
| MVerifying
| MPytorchVerified (stdout : string)
| MVerifyFailed
| MNumpyHeader
| MNumpyFailed (spec : string)
| MNumpyOk (spec : string)
| MStep2Header
| MStep3Header (name : string)
| MReqsProcessed (name : string)
| MReqsFailed (name : string)
| MHintImpImporter
| MHintImpImporterAdvice
| MHintFlashAttnBuild
| MHintSentencepiece
| MFallbackAttempt
| MFallbackDone
| MFallbackFailed
(* install_critical_packages_fallback *)
| MFallbackStart
| MFallbackPkgFailed (pkg : string)
| MFallbackCount (ok_count : nat)
| MFallbackNone
(* install_gradio *)
| MEnsuringGradio
| MGradioInstalled
| MGradioNotFound
| MGradioFailed
(* run_setup *)
| MSysReqsFailed
| MCondaSetupFailed
| MUsingVenv
| MBasePipFailed
| MCloneFailed
| MNoCloneUsingExisting
| MNoCloneCwd (cwd : string)
| MNoCloneSubdir (sub : string)
| MNoCloneInvalid
| MSettingUpEnv (env : string)
| MDepIssues
| MNoDeps
| MHelpers (dir : string)
| MNoDownloadScript
(* main *)
| MUseVenvFlag
| MUseCondaFlag
| MCondaDetected
| MCondaNotDetected
| MSetupDone
| MSetupFailed
| MSetupInterrupted
| MCriticalError (e : exn).

(** What a run does to the outside, in order. *)
Inductive event :=
| Popen (call : popen_call)
| Asked (prompt : string) (answer : input_outcome)
| Print (m : message).

(** Values of [json.loads]. *)
#[local] Unset Elimination Schemes.
Inductive json :=
| JNull
| JBool (b : bool)
| JNumber (literal : string)
| JString (s : string)
| JArray (items : list json)
| JObject (members : list (string * json)).
#[local] Set Elimination Schemes.

(** The object [self]: the fields of [BAGELSetup.__init__].  Paths are
    kept as their text. *)
Record BAGELSetup := {
  env_name : string;
  use_conda : bool;
  system : string;
  python_executable : string;
  repo_url : string;
  model_repo_id : string;
  original_dir : string;
  bagel_repo_dir : string
}.

(** The interpreter running the script and the pure library functions the
    model does not define: [sys.executable], [sys.version_info.minor],
    [platform.system().lower()], [str(Path(a) / b)], [Path(a).name],
    [str(Path.cwd())] and [json.loads] ([None] for [JSONDecodeError]). *)
Record Host := {
  sys_executable : string;
  sys_version_minor : nat;
  platform_system : string;
  path_join : string -> string -> string;
  path_name : string -> string;
  path_cwd : string;
  json_loads : string -> option json
}.

(** The outside of the script, which may answer differently as the run
    goes on: every oracle sees the events so far, the most recent first. *)
Record World := {
  popen : list event -> popen_call -> proc_outcome;
  user_input : list event -> string -> input_outcome;
  fs_exists : list event -> string -> bool;
  fs_is_file : list event -> string -> bool
}.

(* ================================================================== *)
(** ** The monad of the script: state, events, exceptions               *)
(* ================================================================== *)

Inductive result (A : Type) :=
| Ok (a : A)
| Raised (e : exn).
Arguments Ok {A} a.
Arguments Raised {A} e.

(** The outcome of running a piece of the script: its result, the object
    [self] afterwards and the events it produced, oldest first. *)
#[projections(primitive)]
Record run (A : Type) := Run {
  res : result A;
  self_after : BAGELSetup;
  emitted : list event
}.
Arguments Run {A} _ _ _.
Arguments res {A} _.
Arguments self_after {A} _.
Arguments emitted {A} _.

(** A computation reads [self] and the events that came before it, the
    most recent first. *)
Definition M (A : Type) : Type := BAGELSetup -> list event -> run A.

Definition ret {A} (a : A) : M A := fun self _ => Run (Ok a) self [].

Definition raise {A} (e : exn) : M A := fun self _ => Run (Raised e) self [].

Definition bind {A B} (m : M A) (f : A -> M B) : M B :=
  fun self h =>
    let r := m self h in
    match res r with
    | Ok a =>
        let r' := f a (self_after r) (rev_append (emitted r) h) in
        Run (res r') (self_after r') (emitted r ++ emitted r')
    | Raised e => Run (Raised e) (self_after r) (emitted r)
    end.

Notation "x <- m ;; k" := (bind m (fun x => k))
  (at level 61, m at next level, right associativity).
Notation "m ;;; k" := (bind m (fun _ => k))
  (at level 61, right associativity).

Definition of_result {A} (r : result A) : M A := fun self _ => Run r self [].

Definition print (m : message) : M unit :=
  fun self _ => Run (Ok tt) self [Print m].

Definition get_self : M BAGELSetup := fun self _ => Run (Ok self) self [].

Definition set_python_executable (p : string) : M unit :=
  fun self _ =>
    Run (Ok tt)
        {| env_name := env_name self; use_conda := use_conda self;
           system := system self; python_executable := p;
           repo_url := repo_url self; model_repo_id := model_repo_id self;
           original_dir := original_dir self;
           bagel_repo_dir := bagel_repo_dir self |}
        [].

Definition set_bagel_repo_dir (p : string) : M unit :=
  fun self _ =>
    Run (Ok tt)
        {| env_name := env_name self; use_conda := use_conda self;
           system := system self;
           python_executable := python_executable self;
           repo_url := repo_url self; model_repo_id := model_repo_id self;
           original_dir := original_dir self;
           bagel_repo_dir := p |}
        [].

(** [try: body] with its [except] clauses: [handler e] is the clause that
    matches [e], if one does. *)
Definition try_except {A} (body : M A) (handler : exn -> option (M A)) : M A :=
  fun self h =>
    let r := body self h in
    match res r with
    | Ok _ => r
    | Raised e =>
        match handler e with
        | Some k =>
            let r' := k (self_after r) (rev_append (emitted r) h) in
            Run (res r') (self_after r') (emitted r ++ emitted r')
        | None => r
        end
    end.

(** [when b m]: an [if] without [else]. *)
Definition when (b : bool) (m : M unit) : M unit :=
  if b then m else ret tt.

Section Script.

Variable H : Host.
Variable W : World.

(** [subprocess.Popen(...)] and [communicate()]: the launch is recorded
    and the world says how it went. *)
Definition launch (call : popen_call) : M proc_outcome :=
  fun self h => Run (Ok (popen W h call)) self [Popen call].

(** [input(prompt)]. *)
Definition input (prompt : string) : M string :=
  fun self h =>
    let a := user_input W h prompt in
    Run (match a with
         | Answer t => Ok t
         | InputInterrupted => Raised KeyboardInterrupt
         | InputEOF => Raised EOFError
         end) self [Asked prompt a].

(** [Path(p).exists()] and [Path(p).is_file()]. *)
Definition path_exists (p : string) : M bool :=
  fun self h => Run (Ok (fs_exists W h p)) self [].

Definition path_is_file (p : string) : M bool :=
  fun self h => Run (Ok (fs_is_file W h p)) self [].

(* ---------------------------------------------------------------- *)
(** *** [run_command] (Setup.py, lines 64-112)                        *)
(* ---------------------------------------------------------------- *)

(** [f'"{arg}"' if " " in arg else arg]. *)
Definition log_quote (arg : string) : string :=
  if Py.char_in Py.space arg
  then String Py.dquote (arg +++ Py.chr Py.dquote) else arg.

(** [s.split()[0]]: the first run of characters that are not white
    space, when there is one. *)
Fixpoint take_word (s : string) : string :=
  match s with
  | EmptyString => EmptyString
  | String c s' => if Py.isspace c then EmptyString else String c (take_word s')
  end.

Definition first_word (s : string) : option string :=
  match Py.lstrip s with
  | EmptyString => None
  | w => Some (take_word w)
  end.

(** The name printed by the [FileNotFoundError] handler; [None] when
    [command_to_log.split()[0]] raises [IndexError]. *)
Definition failed_file_reported (filename : option string)
    (actual : command) (command_to_log : string) : option string :=
  let named := match filename with
               | Some f => Py.nonempty f
               | None => false
               end in
  if named then filename
  else match actual with
       | CmdList (a0 :: _) => Some a0
       | _ => if Py.nonempty command_to_log then first_word command_to_log
              else Some "Unknown command"
       end.

Definition or_empty (s : option string) : string :=
  match s with Some t => t | None => EmptyString end.

(** [cwd] is truthy. *)
Definition cwd_given (cwd : option string) : bool :=
  match cwd with Some c => Py.nonempty c | None => false end.

(** Lines 69-81: what is given to [Popen] and what is logged; [Ok None]
    for a command that is neither a list nor a string, and the
    [ValueError] of [shlex.split], which is raised outside the [try]. *)
Definition prepare_command (cmd : command) (shell : bool)
  : result (option (command * string)) :=
  match cmd with
  | CmdList args =>
      let command_to_log := Py.join " " (map log_quote args) in
      if shell
      then let line := Subprocess.list2cmdline args in
           Ok (Some (CmdStr line, line))
      else Ok (Some (CmdList args, command_to_log))
  | CmdStr text =>
      if shell then Ok (Some (CmdStr text, text))
      else match Shlex.split text with
           | Some args => Ok (Some (CmdList args, text))
           | None => Raised (ValueError "shlex.split")
           end
  | CmdOther => Ok None
  end.

Definition run_command (cmd : command)
    (capture_output check shell : bool) (cwd : option string)
  : M (bool * string * string) :=
  self <- get_self ;;
  let effective_cwd :=
    if cwd_given cwd then or_empty cwd else original_dir self in
  prepared <- of_result (prepare_command cmd shell) ;;
  match prepared with
  | None =>
      print MInvalidCommandType ;;;
      ret (false, EmptyString, "Invalid command type")
  | Some (actual_command_arg_for_popen, command_to_log) =>
      print (MExecuting command_to_log
               (if cwd_given cwd then Some effective_cwd else None)) ;;;
      outcome <- launch {| pc_args := actual_command_arg_for_popen;
                           pc_shell := shell;
                           pc_cwd := effective_cwd;
                           pc_capture := capture_output |} ;;
      match outcome with
      | Exited returncode out err =>
          let stdout := or_empty out in
          let stderr := or_empty err in
          if check && negb (returncode =? 0)%Z then
            print (MCommandFailed returncode) ;;;
            when (Py.nonempty (Py.strip stdout))
                 (print (MStdout (Py.strip stdout))) ;;;
            when (Py.nonempty (Py.strip stderr))
                 (print (MStderr (Py.strip stderr))) ;;;
            ret (false, stdout, stderr)
          else ret (true, stdout, stderr)
      | NotFound filename text =>
          match failed_file_reported filename actual_command_arg_for_popen
                  command_to_log with
          | Some f =>
              print (MNotFound f) ;;;
              ret (false, EmptyString, text)
          | None => raise (IndexError "list index out of range")
          end
      | LaunchError text =>
          print (MErrorExecuting command_to_log text) ;;;
          ret (false, EmptyString, text)
      | Interrupted => raise KeyboardInterrupt
      end
  end.

(* ---------------------------------------------------------------- *)
(** *** The installer command builder (lines 364-417)                 *)
(* ---------------------------------------------------------------- *)

(** The test of lines 371-373: a Windows host whose environment
    interpreter path mentions [msys] or [mingw], whatever the case. *)
Definition is_msys_python_base (self : BAGELSetup) : bool :=
  String.eqb (system self) "windows" &&
  Py.nonempty (python_executable self) &&
  (Py.str_in "msys" (Py.lower (python_executable self)) ||
   Py.str_in "mingw" (Py.lower (python_executable self))).

Definition _get_pip_executable_cmd_list (self : BAGELSetup) : command :=
  if use_conda self then
    CmdList ["conda"; "run"; "-n"; env_name self; "python"; "-m"; "pip"]
  else if String.eqb (system self) "windows" && is_msys_python_base self then
    let quoted_python_exe :=
      String Py.dquote (python_executable self +++ Py.chr Py.dquote) in
    CmdStr (quoted_python_exe +++ " -m pip")
  else CmdList [python_executable self; "-m"; "pip"].

(** [l[i]]. *)
Definition item (l : list string) (i : nat) : M string :=
  match nth_error l i with
  | Some a => ret a
  | None => raise (IndexError "list index out of range")
  end.

(** [any(flag.startswith("--upgrade") for flag in cmd_flags)]. *)
Definition any_upgrade_flag (cmd_flags : list string) : bool :=
  existsb (fun flag => Py.startswith flag "--upgrade") cmd_flags.

(** The flags of one installation (lines 387-390).  No caller passes
    [extra_flags], so the list the source extends in place is never
    shared. *)
Definition install_flags (extra_flags : option (list string)) : list string :=
  let cmd_flags := match extra_flags with
                   | Some (f :: fs) => f :: fs
                   | _ => []
                   end in
  if negb (any_upgrade_flag cmd_flags)
  then cmd_flags ++ ["--no-cache-dir"; "--disable-pip-version-check"]
  else cmd_flags.

(** Lines 393-405: the command handed to [run_command] and whether it is
    shell-interpreted. *)
Definition pip_install_command (pip_base_command : command)
    (cmd_flags : list string) (package_spec : string)
  : M (command * bool) :=
  match pip_base_command with
  | CmdStr base =>
      let flags_str := Py.join " " (map Shlex.quote cmd_flags) in
      ret (CmdStr (base +++ " install " +++ flags_str +++ " "
                        +++ Shlex.quote package_spec), true)
  | CmdList base =>
      first <- item base 0 ;;
      let use_shell := String.eqb first "conda" in
      let install_command_parts :=
        base ++ ["install"] ++ cmd_flags ++ [package_spec] in
      if use_shell
      then ret (CmdStr (Subprocess.list2cmdline install_command_parts), true)
      else ret (CmdList install_command_parts, false)
  | CmdOther => raise (TypeError "pip_base_command")
  end.

Definition _install_package_with_pip (package_spec : string)
    (cwd_for_install : option string) (extra_flags : option (list string))
  : M bool :=
  self <- get_self ;;
  let pip_base_command := _get_pip_executable_cmd_list self in
  let cmd_flags := install_flags extra_flags in
  cu <- pip_install_command pip_base_command cmd_flags package_spec ;;
  let final_command_for_run_command := fst cu in
  let use_shell_for_this_pip_command := snd cu in
  let effective_cwd := match cwd_for_install with
                       | Some p => p
                       | None => bagel_repo_dir self
                       end in
  print (MInstalling package_spec use_shell_for_this_pip_command) ;;;
  r <- run_command final_command_for_run_command true true
         use_shell_for_this_pip_command (Some effective_cwd) ;;
  let '(success, _, stderr) := r in
  if success then print (MInstalled package_spec) ;;; ret true
  else
    print (MInstallFailed package_spec) ;;;
    when (Py.nonempty stderr)
      (if Py.str_in "Could not build wheels for" stderr &&
          Py.str_in "flash-attn" package_spec
       then print MHintFlashAttnTools
       else when (Py.str_in "No module named 'torch'" stderr)
                 (print MHintTorchMissing)) ;;;
    ret false.

(* ---------------------------------------------------------------- *)
(** *** [install_gradio] (lines 530-541)                              *)
(* ---------------------------------------------------------------- *)

Definition install_gradio : M bool :=
  print MEnsuringGradio ;;;
  self <- get_self ;;
  let pip_base := _get_pip_executable_cmd_list self in
  (* [check_cmd_list_parts] is bound on the list branch only *)
  sp <- match pip_base with
        | CmdStr _ => ret (true, None)
        | CmdList base =>
            first <- item base 0 ;;
            ret (String.eqb first "conda", Some (base ++ ["show"; "gradio"]))
        | CmdOther => raise (TypeError "pip_base")
        end ;;
  let use_shell_for_check := fst sp in
  final_check_cmd <-
    match snd sp with
    | None => raise (UnboundLocalError "check_cmd_list_parts")
    | Some check_cmd_list_parts =>
        if use_shell_for_check
        then ret (CmdStr (Subprocess.list2cmdline check_cmd_list_parts))
        else ret (CmdList check_cmd_list_parts)
    end ;;
  r <- run_command final_check_cmd true false use_shell_for_check None ;;
  if fst (fst r) then print MGradioInstalled ;;; ret true
  else
    print MGradioNotFound ;;;
    ok <- _install_package_with_pip "gradio" (Some (bagel_repo_dir self)) None ;;
    if ok then print MGradioInstalled ;;; ret true
    else print MGradioFailed ;;; ret false.

(* ---------------------------------------------------------------- *)
(** *** [install_critical_packages_fallback] (lines 520-528)          *)
(* ---------------------------------------------------------------- *)

Definition critical_pkgs : list string :=
  ["transformers>=4.30.0"; "accelerate"; "diffusers"; "huggingface_hub";
   "safetensors"; "Pillow"; "opencv-python"; "gradio"; "einops";
   "sentencepiece"; "tokenizers"; "scikit-image"; "jupyterlab"; "notebook"].

(** The [for pkg in critical_pkgs] loop, from a given [ok_count]. *)
Fixpoint fallback_loop (pkgs : list string) (ok_count : nat) : M nat :=
  match pkgs with
  | [] => ret ok_count
  | pkg :: pkgs' =>
      self <- get_self ;;
      ok <- _install_package_with_pip pkg (Some (bagel_repo_dir self)) None ;;
      if ok then fallback_loop pkgs' (ok_count + 1)
      else print (MFallbackPkgFailed pkg) ;;; fallback_loop pkgs' ok_count
  end.

Definition install_critical_packages_fallback : M bool :=
  print MFallbackStart ;;;
  ok_count <- fallback_loop critical_pkgs 0 ;;
  if 0 <? ok_count then print (MFallbackCount ok_count) ;;; ret true
  else print MFallbackNone ;;; ret false.

(* ---------------------------------------------------------------- *)
(** *** [install_requirements] (lines 419-518)                        *)
(* ---------------------------------------------------------------- *)

(** Lines 430-436: the upgrade command for one build tool. *)
Definition upgrade_command (pip_base_cmd_for_upgrade : command)
    (pkg_to_upgrade : string) : M (command * bool) :=
  match pip_base_cmd_for_upgrade with
  | CmdStr base =>
      ret (CmdStr (base +++ " install --upgrade "
                        +++ Shlex.quote pkg_to_upgrade), true)
  | CmdList base =>
      first <- item base 0 ;;
      let use_shell_upgrade := String.eqb first "conda" in
      let cmd_parts := base ++ ["install"; "--upgrade"; pkg_to_upgrade] in
      ret (if use_shell_upgrade
           then CmdStr (Subprocess.list2cmdline cmd_parts)
           else CmdList cmd_parts, use_shell_upgrade)
  | CmdOther => raise (TypeError "pip_base_cmd_for_upgrade")
  end.

(** The loop of lines 427-441 over the build tools. *)
Fixpoint upgrade_loop (pip_base_cmd_for_upgrade : command)
    (pkgs : list string) (all_upgraded_successfully : bool) : M bool :=
  match pkgs with
  | [] => ret all_upgraded_successfully
  | pkg_to_upgrade :: pkgs' =>
      cu <- upgrade_command pip_base_cmd_for_upgrade pkg_to_upgrade ;;
      print (MUpgrading pkg_to_upgrade (snd cu)) ;;;
      r <- run_command (fst cu) true true (snd cu) None ;;
      if negb (fst (fst r)) then
        print (MUpgradeFailed pkg_to_upgrade) ;;;
        upgrade_loop pip_base_cmd_for_upgrade pkgs' false
      else upgrade_loop pip_base_cmd_for_upgrade pkgs'
             all_upgraded_successfully
  end.

(** Stage ToolingUpgrade (lines 424-443). *)
Definition upgrade_tooling : M unit :=
  print MUpgradeHeader ;;;
  self <- get_self ;;
  all_upgraded_successfully <-
    upgrade_loop (_get_pip_executable_cmd_list self)
      ["pip"; "setuptools"; "wheel"] true ;;
  if all_upgraded_successfully then print MUpgradeDone
  else print MUpgradeIncomplete.

(** The loop of lines 462-463: install in order, stop at the first
    failure. *)
Fixpoint install_each_until_failure (specs : list string) : M bool :=
  match specs with
  | [] => ret true
  | spec :: specs' =>
      self <- get_self ;;
      ok <- _install_package_with_pip spec (Some (bagel_repo_dir self)) None ;;
      if negb ok then ret false else install_each_until_failure specs'
  end.

(** Stage FrameworkInstall (lines 445-464); the result is
    [pytorch_fully_installed]. *)
Definition install_pytorch_family : M bool :=
  print MStep1Header ;;;
  print MPytorchPip ;;;
  let venv_py_minor := sys_version_minor H in
  pt_pip_specs <-
    (if 13 <=? venv_py_minor then
       print (MPytorchNewPython venv_py_minor) ;;;
       ret ["torch"; "torchvision"; "torchaudio"]
     else if venv_py_minor =? 12 then
       print MPytorchPy312 ;;;
       ret ["torch>=2.1"; "torchvision>=0.16"; "torchaudio>=2.1"]
     else ret ["torch>=2.0.0"; "torchvision"; "torchaudio"]) ;;
  install_each_until_failure pt_pip_specs.

Definition verify_py_code : string :=
  "import torch; pv=torch.__version__; ca=torch.cuda.is_available(); print(f'PyTorch {{pv}}\nCUDA available: {{ca}}')".

(** Lines 468-477: the verification command. *)
Definition verify_command (verify_cmd_base : command) : M (command * bool) :=
  match verify_cmd_base with
  | CmdStr base =>
      ret (CmdStr (base +++ " -c " +++ Shlex.quote verify_py_code), true)
  | CmdList base =>
      first <- item base 0 ;;
      let use_shell_for_verify := String.eqb first "conda" in
      python_exe_for_verify <-
        (if use_shell_for_verify then item base 4 else ret first) ;;
      let verify_cmd_list_parts :=
        [python_exe_for_verify; "-c"; verify_py_code] in
      ret (if use_shell_for_verify
           then CmdStr (Subprocess.list2cmdline
                          (firstn 4 base ++ verify_cmd_list_parts))
           else CmdList verify_cmd_list_parts, use_shell_for_verify)
  | CmdOther => raise (TypeError "verify_cmd_base")
  end.

(** Stage Verification (lines 466-481); the result says whether the
    check passed.  The verified text is printed stripped. *)
Definition verify_pytorch : M bool :=
  print MVerifying ;;;
  self <- get_self ;;
  cu <- verify_command (_get_pip_executable_cmd_list self) ;;
  r <- run_command (fst cu) true true (snd cu) None ;;
  let '(success_torch_check, stdout_torch_check, _) := r in
  if success_torch_check && Py.nonempty stdout_torch_check
  then print (MPytorchVerified (Py.strip stdout_torch_check)) ;;; ret true
  else print MVerifyFailed ;;; ret false.

(** Stage ArrayLibraryPin (lines 483-488). *)
Definition numpy_spec_to_try : string :=
  if 12 <=? sys_version_minor H then "numpy>=1.26.0"
  else if sys_version_minor H =? 11 then "numpy>=1.23.2"
  else "numpy>=1.21.2".

Definition pin_numpy : M unit :=
  print MNumpyHeader ;;;
  self <- get_self ;;
  ok <- _install_package_with_pip numpy_spec_to_try
          (Some (bagel_repo_dir self)) None ;;
  if negb ok then print (MNumpyFailed numpy_spec_to_try)
  else print (MNumpyOk numpy_spec_to_try).

(** Lines 496-504: the bulk installation command. *)
Definition requirements_command (pip_req_base_cmd : command)
    (requirements_file : string) : M (command * bool) :=
  match pip_req_base_cmd with
  | CmdStr base =>
      ret (CmdStr (base +++ " install -r " +++ Shlex.quote requirements_file),
           true)
  | CmdList base =>
      first <- item base 0 ;;
      let use_shell_for_req := String.eqb first "conda" in
      let req_cmd_list_parts := base ++ ["install"; "-r"; requirements_file] in
      ret (if use_shell_for_req
           then CmdStr (Subprocess.list2cmdline req_cmd_list_parts)
           else CmdList req_cmd_list_parts, use_shell_for_req)
  | CmdOther => raise (TypeError "pip_req_base_cmd")
  end.

(** Lines 509-514: the remediation hints for known error texts. *)
Definition requirements_hints (stderr_req : string) : M unit :=
  if Py.nonempty stderr_req &&
     Py.str_in
       "AttributeError: module 'pkgutil' has no attribute 'ImpImporter'"
       stderr_req
  then print MHintImpImporter ;;; print MHintImpImporterAdvice
  else if Py.nonempty stderr_req && Py.str_in "flash-attn" stderr_req &&
          Py.str_in "Could not build wheels" stderr_req
  then print MHintFlashAttnBuild
  else when (Py.nonempty stderr_req && Py.str_in "sentencepiece" stderr_req &&
             Py.str_in "FileNotFoundError" stderr_req)
         (print MHintSentencepiece).

(** Stages BulkRequirements and FallbackCriticalSet (lines 495-518). *)
Definition install_from_requirements (requirements_file : string) : M bool :=
  print (MStep3Header (path_name H requirements_file)) ;;;
  self <- get_self ;;
  cu <- requirements_command (_get_pip_executable_cmd_list self)
          requirements_file ;;
  r <- run_command (fst cu) true true (snd cu)
         (Some (bagel_repo_dir self)) ;;
  let '(success_req, _, stderr_req) := r in
  if success_req then
    print (MReqsProcessed (path_name H requirements_file)) ;;;
    install_gradio ;;;
    ret true
  else
    print (MReqsFailed (path_name H requirements_file)) ;;;
    requirements_hints stderr_req ;;;
    print MFallbackAttempt ;;;
    ok <- install_critical_packages_fallback ;;
    if ok then print MFallbackDone ;;; ret true
    else print MFallbackFailed ;;; ret false.

Definition install_requirements : M bool :=
  self <- get_self ;;
  let requirements_file := path_join H (bagel_repo_dir self) "requirements.txt" in
  is_file <- path_is_file requirements_file ;;
  if negb is_file then print (MReqsMissing requirements_file) ;;; ret false
  else
    print MInstallingDeps ;;;
    upgrade_tooling ;;;
    pytorch_fully_installed <- install_pytorch_family ;;
    if negb pytorch_fully_installed then
      print (MPytorchFailed (sys_version_minor H)) ;;; ret false
    else
      verified <- verify_pytorch ;;
      if negb verified then ret false
      else
        pin_numpy ;;;
        self <- get_self ;;
        when (use_conda self) (print MStep2Header) ;;;
        install_from_requirements requirements_file.

(* ---------------------------------------------------------------- *)
(** *** The Conda environment provisioner (lines 213-222, 293-334)    *)
(* ---------------------------------------------------------------- *)

Definition check_conda_installation (silent_if_found : bool) : M bool :=
  r <- run_command (CmdList ["conda"; "--version"]) true false false None ;;
  let '(success, stdout, stderr) := r in
  if success && Py.str_in "conda" stdout then
    when (negb silent_if_found)
         (print (MCondaAvailable (Py.strip stdout))) ;;;
    ret true
  else
    when (negb silent_if_found)
         (print MCondaMissing ;;;
          when (Py.nonempty (Py.strip stderr) &&
                negb (Py.str_in "Traceback" stderr))
               (print (MStderr (Py.strip stderr)))) ;;;
    ret false.

(** [d.get(key, default)] on the items of a dict. *)
Fixpoint dict_get (members : list (string * json)) (key : string)
    (default : json) : json :=
  match members with
  | [] => default
  | (k, v) :: members' =>
      if String.eqb k key then v else dict_get members' key default
  end.

Fixpoint chars_of (s : string) : list json :=
  match s with
  | EmptyString => []
  | String c s' => JString (Py.chr c) :: chars_of s'
  end.

(** What a [for] loop over a JSON value visits: the items of a list, the
    characters of a text, the keys of a dict; [None] for the values that
    are not iterable.  A [JObject] holds the items of the dict that
    [json.loads] builds, so its keys are distinct. *)
Definition iterate (v : json) : option (list json) :=
  match v with
  | JArray items => Some items
  | JString s => Some (chars_of s)
  | JObject members => Some (map (fun kv => JString (fst kv)) members)
  | _ => None
  end.

(** The loop of lines 328-332; [true] when the interpreter was found and
    the function returned from inside the loop. *)
Fixpoint scan_envs (envs : list json) : M bool :=
  match envs with
  | [] => ret false
  | JString env_path_str :: envs' =>
      self <- get_self ;;
      if String.eqb (path_name H env_path_str) (env_name self) then
        let py_exe :=
          path_join H env_path_str
            (if String.eqb (system self) "windows"
             then "python.exe" else "bin/python") in
        present <- path_exists py_exe ;;
        if present then
          set_python_executable py_exe ;;;
          print (MCondaPython (env_name self) py_exe) ;;;
          ret true
        else scan_envs envs'
      else scan_envs envs'
  | _ :: _ => raise (TypeError "expected str, bytes or os.PathLike object")
  end.

Definition _update_python_executable_for_conda_env : M unit :=
  r <- run_command (CmdList ["conda"; "env"; "list"; "--json"])
         true false false None ;;
  let '(success_info, stdout_info, _) := r in
  found <-
    (if success_info then
       match json_loads H stdout_info with
       | None => print MCondaJsonUnparsable ;;; ret false
       | Some (JObject members) =>
           match iterate (dict_get members "envs" (JArray [])) with
           | Some envs => scan_envs envs
           | None => raise (TypeError "object is not iterable")
           end
       | Some _ => raise (AttributeError "object has no attribute 'get'")
       end
     else ret false) ;;
  if found then ret tt
  else self <- get_self ;;
       print (MCondaPythonUndetermined (env_name self)).

(** Interpreter versions are written [3.<minor>]; the candidates are kept
    as their minor numbers.  The sort key of line 310 is
    [(minor < 13, -minor)], compared as a tuple. *)
Definition version_key_le (a b : nat) : bool :=
  if Bool.eqb (a <? 13) (b <? 13) then b <=? a else negb (a <? 13).

Fixpoint insert_version (v : nat) (sorted : list nat) : list nat :=
  match sorted with
  | [] => [v]
  | w :: sorted' =>
      if version_key_le v w then v :: w :: sorted'
      else w :: insert_version v sorted'
  end.

(** [sorted(l, key=...)]: a stable sort. *)
Fixpoint sorted_versions (l : list nat) : list nat :=
  match l with
  | [] => []
  | v :: l' => insert_version v (sorted_versions l')
  end.

(** [list(set(l))] in one of its orders; [sorted_versions] gives the
    same list for every order (lemma [sorted_versions_order]). *)
Definition distinct_versions (l : list nat) : list nat := nodup Nat.eq_dec l.

(** Lines 308-310. *)
Definition py_versions_to_try : list nat :=
  let current_py_ver_minor := sys_version_minor H in
  let appended :=
    if current_py_ver_minor <=? 11 then [current_py_ver_minor] else [] in
  sorted_versions (distinct_versions (appended ++ [11; 10; 12])).

Definition py_version_text (minor : nat) : string := "3." +++ Py.str_of_nat minor.

Definition create_cmd_list (env py_ver : string) : list string :=
  ["conda"; "create"; "-n"; env; "python=" +++ py_ver;
   "-c"; "pytorch"; "-c"; "nvidia"; "-c"; "conda-forge"; "-y"].

(** The loop of lines 312-319; the result is [env_created]. *)
Fixpoint create_loop (candidates : list nat) : M bool :=
  match candidates with
  | [] => ret false
  | minor :: candidates' =>
      self <- get_self ;;
      let py_ver := py_version_text minor in
      print (MCreateAttempt (env_name self) py_ver) ;;;
      r <- run_command (CmdList (create_cmd_list (env_name self) py_ver))
             true true false None ;;
      let '(success_create, _, stderr_create) := r in
      if success_create then
        print (MCreateOk (env_name self) py_ver) ;;;
        _update_python_executable_for_conda_env ;;;
        ret true
      else
        print (MCreateFailed py_ver (Py.strip stderr_create)) ;;;
        when (Py.str_in "UnsatisfiableError" stderr_create)
             (print MUnsatisfiable) ;;;
        create_loop candidates'
  end.

(** Lines 297-299. *)
Definition env_listed (env stdout_list : string) : bool :=
  existsb (fun line => Py.startswith (Py.strip line) env)
          (Py.splitlines stdout_list).

Definition conda_env_prompt : string :=
  "[u]se, [r]ecreate, or [s]kip? (u/R/s, default: R): ".

(** Lines 308-321: creation, once no environment of that name is left. *)
Definition create_new_conda_environment : M bool :=
  self <- get_self ;;
  env_created <- create_loop py_versions_to_try ;;
  if negb env_created then
    print (MCreateExhausted (env_name self)
             (Py.join ", " (map py_version_text py_versions_to_try))) ;;;
    ret false
  else ret true.

Definition create_conda_environment : M bool :=
  self <- get_self ;;
  print (MCondaEnvCheck (env_name self)) ;;;
  r <- run_command (CmdList ["conda"; "env"; "list"]) true false false None ;;
  let '(success_list, stdout_list, _) := r in
  let env_exists := success_list && env_listed (env_name self) stdout_list in
  if env_exists then
    print (MCondaEnvExists (env_name self)) ;;;
    answer <- input conda_env_prompt ;;
    let choice := Py.lower answer in
    if String.eqb choice "u" then
      print (MCondaEnvReuse (env_name self)) ;;;
      _update_python_executable_for_conda_env ;;;
      ret true
    else if String.eqb choice "s" then
      print MCondaEnvSkip ;;; ret false
    else
      print (MCondaEnvRemoving (env_name self)) ;;;
      rr <- run_command
              (CmdList ["conda"; "env"; "remove"; "-n"; env_name self; "-y"])
              true true false None ;;
      let '(success_remove, _, stderr_remove) := rr in
      if negb success_remove then
        print (MCondaEnvRemoveFailed (Py.strip stderr_remove)) ;;;
        ret false
      else create_new_conda_environment
  else create_new_conda_environment.

(* ---------------------------------------------------------------- *)
(** *** [run_setup] (lines 594-624)                                   *)
(* ---------------------------------------------------------------- *)

Section Orchestrator.

(** The steps of [run_setup] the development leaves open: any behaviour
    of theirs is allowed. *)
Variable print_banner : M unit.
Variable check_internet_connection : M bool.
Variable check_system_requirements : M bool.
Variable ensure_conda_installed : M bool.
Variable check_pip_installation : M bool.
Variable clone_repository : string -> M bool.
Variable create_venv_environment : M bool.
Variable create_model_download_script : M bool.
Variable create_usage_guide : M unit.
Variable print_next_steps : M unit.

Definition offline_prompt : string :=
  "Internet unavailable. Key steps may fail. Continue offline? (y/N):".

(** Lines 604-612: where the repository is. *)
Definition locate_repository (clone_repo : bool) : M bool :=
  let repo_name := "BAGEL" in
  if clone_repo then
    ok <- clone_repository repo_name ;;
    if negb ok then print MCloneFailed ;;; ret false else ret true
  else
    print MNoCloneUsingExisting ;;;
    self <- get_self ;;
    let cwd := path_cwd H in
    let sub := path_join H (original_dir self) repo_name in
    in_cwd <- path_is_file (path_join H cwd "requirements.txt") ;;
    if in_cwd then
      set_bagel_repo_dir cwd ;;; print (MNoCloneCwd cwd) ;;; ret true
    else
      in_sub <- path_is_file (path_join H sub "requirements.txt") ;;
      if in_sub then
        set_bagel_repo_dir sub ;;; print (MNoCloneSubdir sub) ;;; ret true
      else print MNoCloneInvalid ;;; ret false.

(** Lines 613-624: the environment, the dependencies and the helpers. *)
Definition provision_and_install (install_deps create_download_script : bool)
  : M bool :=
  self <- get_self ;;
  print (MSettingUpEnv (env_name self)) ;;;
  env_ok <- (if use_conda self then create_conda_environment
             else create_venv_environment) ;;
  if negb env_ok then ret false
  else
    (if install_deps then
       ok <- install_requirements ;;
       when (negb ok) (print MDepIssues)
     else print MNoDeps) ;;;
    self <- get_self ;;
    print (MHelpers (bagel_repo_dir self)) ;;;
    (if create_download_script
     then create_model_download_script ;;; ret tt
     else print MNoDownloadScript) ;;;
    create_usage_guide ;;;
    print_next_steps ;;;
    ret true.

Definition run_setup (clone_repo install_deps create_download_script : bool)
  : M bool :=
  print_banner ;;;
  online <- check_internet_connection ;;
  go_on <-
    (if negb online && (clone_repo || install_deps || create_download_script)
     then answer <- input offline_prompt ;;
          ret (String.eqb (Py.lower answer) "y")
     else ret true) ;;
  if negb go_on then ret false
  else
    reqs <- check_system_requirements ;;
    if negb reqs then print MSysReqsFailed ;;; ret false
    else
      self <- get_self ;;
      conda_ok <- (if use_conda self then ensure_conda_installed
                   else ret true) ;;
      self <- get_self ;;
      if negb conda_ok && use_conda self
      then print MCondaSetupFailed ;;; ret false
      else
        pip_ok <-
          (if negb (use_conda self) then
             print MUsingVenv ;;;
             ok <- check_pip_installation ;;
             if negb ok then print MBasePipFailed ;;; ret false
             else ret true
           else ret true) ;;
        if negb pip_ok then ret false
        else
          located <- locate_repository clone_repo ;;
          if negb located then ret false
          else provision_and_install install_deps create_download_script.

(* ---------------------------------------------------------------- *)
(** *** [main] (lines 626-645)                                        *)
(* ---------------------------------------------------------------- *)

(** The parsed command line. *)
Record Args := {
  args_env_name : string;
  args_use_conda : bool;
  args_use_venv : bool;
  args_no_clone : bool;
  args_no_deps : bool;
  args_no_download_script : bool
}.

(** [BAGELSetup(env_name, use_conda)]. *)
Definition new_setup (env : string) (conda : bool) : BAGELSetup :=
  {| env_name := env;
     use_conda := conda;
     system := platform_system H;
     python_executable := sys_executable H;
     repo_url := "https://github.com/ByteDance-Seed/Bagel.git";
     model_repo_id := "ByteDance-Seed/BAGEL-7B-MoT";
     original_dir := path_cwd H;
     bagel_repo_dir := path_join H (path_cwd H) "BAGEL" |}.

(** Lines 635-639, run on the object [BAGELSetup()]. *)
Definition select_backend (args : Args) : M bool :=
  if args_use_venv args then print MUseVenvFlag ;;; ret false
  else if args_use_conda args then print MUseCondaFlag ;;; ret true
  else
    found <- check_conda_installation true ;;
    if found then print MCondaDetected ;;; ret true
    else print MCondaNotDetected ;;; ret false.

(** Lines 641-645; [sys.exit(n)] raises [SystemExit(n)], which no clause
    of this [try] catches. *)
Definition main_try (args : Args) : M unit :=
  try_except
    (ok <- run_setup (negb (args_no_clone args)) (negb (args_no_deps args))
             (negb (args_no_download_script args)) ;;
     if ok then print MSetupDone
     else print MSetupFailed ;;; raise (SystemExit 1))
    (fun e =>
       match e with
       | KeyboardInterrupt =>
           Some (print MSetupInterrupted ;;; raise (SystemExit 130))
       | _ =>
           if is_Exception e
           then Some (print (MCriticalError e) ;;; raise (SystemExit 2))
           else None
       end).

Definition main (args : Args) : run unit :=
  let detection := select_backend args (new_setup "bagel_env" false) [] in
  match res detection with
  | Raised e => Run (Raised e) (self_after detection) (emitted detection)
  | Ok conda =>
      let setup := new_setup (args_env_name args) conda in
      let r := main_try args setup (rev (emitted detection)) in
      Run (res r) (self_after r) (emitted detection ++ emitted r)
  end.

End Orchestrator.

End Script.

(** How the interpreter ends: the status of [SystemExit], status 0 when
    [main] returns, or an exception nobody caught. *)
Inductive termination :=
| Exit (status : Z)
| Uncaught (e : exn).

Definition exit_status (r : result unit) : termination :=
  match r with
  | Ok _ => Exit 0
  | Raised (SystemExit code) => Exit code
  | Raised e => Uncaught e
  end.

(** The steps of [run_setup] that are left open, as one value. *)
Record Steps := {
  step_print_banner : M unit;
  step_check_internet_connection : M bool;
  step_check_system_requirements : M bool;
  step_ensure_conda_installed : M bool;
  step_check_pip_installation : M bool;
  step_clone_repository : string -> M bool;
  step_create_venv_environment : M bool;
  step_create_model_download_script : M bool;
  step_create_usage_guide : M unit;
  step_print_next_steps : M unit
}.

Definition run_setup_with (H : Host) (W : World) (st : Steps)
    (clone_repo install_deps create_download_script : bool) : M bool :=
  run_setup H W (step_print_banner st) (step_check_internet_connection st)
    (step_check_system_requirements st) (step_ensure_conda_installed st)
    (step_check_pip_installation st) (step_clone_repository st)
    (step_create_venv_environment st) (step_create_model_download_script st)
    (step_create_usage_guide st) (step_print_next_steps st)
    clone_repo install_deps create_download_script.

Definition main_with (H : Host) (W : World) (st : Steps) (args : Args)
  : run unit :=
  main H W (step_print_banner st) (step_check_internet_connection st)
    (step_check_system_requirements st) (step_ensure_conda_installed st)
    (step_check_pip_installation st) (step_clone_repository st)
    (step_create_venv_environment st) (step_create_model_download_script st)
    (step_create_usage_guide st) (step_print_next_steps st) args.

(* ================================================================== *)
(** ** Sample hosts and worlds                                          *)
(* ================================================================== *)

Module Sample.

(** The last component of a POSIX path text. *)
Fixpoint last_component (s acc : string) : string :=
  match s with
  | EmptyString => acc
  | String c s' =>
      if Ascii.eqb c "/" then last_component s' EmptyString
      else last_component s' (acc +++ Py.chr c)
  end.

(** [{"envs": []}]. *)
Definition no_envs_text : string :=
  "{" +++ String Py.dquote ("envs" +++ String Py.dquote ": []}").

(** A Linux host running Python 3.[minor]; [json.loads] is given on the
    one text the sample worlds produce and on the empty text. *)
Definition linux_host (minor : nat) : Host :=
  {| sys_executable := "/usr/bin/python3";
     sys_version_minor := minor;
     platform_system := "linux";
     path_join := fun a b => a +++ "/" +++ b;
     path_name := fun a => last_component a EmptyString;
     path_cwd := "/work";
     json_loads := fun text =>
       if String.eqb text no_envs_text
       then Some (JObject [("envs", JArray [])]) else None |}.

Definition mentions (word : string) (c : command) : bool :=
  match c with
  | CmdList l => existsb (String.eqb word) l
  | CmdStr s => Py.str_in word s
  | CmdOther => false
  end.

(** A world whose processes depend on the command only, with an operator
    who answers [answer]; every path exists and is a file. *)
Definition world_answering (f : command -> proc_outcome) (answer : string)
  : World :=
  {| popen := fun _ call => f (pc_args call);
     user_input := fun _ _ => Answer answer;
     fs_exists := fun _ _ => true;
     fs_is_file := fun _ _ => true |}.

(** Every process ends with the given return code and output. *)
Definition world_exiting (returncode : Z) (stdout : string) : World :=
  world_answering
    (fun _ => Exited returncode (Some stdout) (Some EmptyString)) EmptyString.

(** Every process succeeds, except the bulk installation [pip install -r]. *)
Definition world_bulk_fails : World :=
  world_answering
    (fun c => if mentions "-r" c
              then Exited 1 (Some EmptyString) (Some "ERROR: build failed")
              else Exited 0 (Some "ok") (Some EmptyString))
    EmptyString.

(** [conda create] succeeds for Python 3.11 only; every other command
    succeeds. *)
Definition world_only_311 : World :=
  world_answering
    (fun c => if mentions "create" c
              then if mentions "python=3.11" c
                   then Exited 0 (Some "done") (Some EmptyString)
                   else Exited 1 (Some EmptyString) (Some "UnsatisfiableError")
              else Exited 0 (Some no_envs_text) (Some EmptyString))
    EmptyString.

(** Every process succeeds, except the framework check [python -c ...],
    which ends with an import error. *)
Definition world_verification_fails : World :=
  world_answering
    (fun c => if mentions "-c" c
              then Exited 1 (Some EmptyString)
                     (Some "ModuleNotFoundError: No module named 'torch'")
              else Exited 0 (Some "ok") (Some EmptyString))
    EmptyString.

(** No command can be launched: the executable is missing. *)
Definition world_without_tools : World :=
  world_answering
    (fun _ => NotFound (Some "git") "[Errno 2] No such file or directory: 'git'")
    EmptyString.

(** Processes all succeed, but no path exists. *)
Definition world_without_files : World :=
  {| popen := fun _ _ => Exited 0 (Some "ok") (Some EmptyString);
     user_input := fun _ _ => Answer EmptyString;
     fs_exists := fun _ _ => false;
     fs_is_file := fun _ _ => false |}.

(** An operator who answers every question with the given outcome. *)
Definition world_with_operator (a : input_outcome) : World :=
  {| popen := fun _ _ => Exited 0 (Some "ok") (Some EmptyString);
     user_input := fun _ _ => a;
     fs_exists := fun _ _ => true;
     fs_is_file := fun _ _ => true |}.

(** [--use-venv --no-deps]. *)
Definition venv_args : Args :=
  {| args_env_name := "bagel_env";
     args_use_conda := false;
     args_use_venv := true;
     args_no_clone := false;
     args_no_deps := true;
     args_no_download_script := false |}.

(** The open steps of [run_setup]: the connectivity probe answers
    [online], the system check [reqs], and every other step succeeds
    without a trace. *)
Definition steps (online reqs : bool) : Steps :=
  {| step_print_banner := ret tt;
     step_check_internet_connection := ret online;
     step_check_system_requirements := ret reqs;
     step_ensure_conda_installed := ret true;
     step_check_pip_installation := ret true;
     step_clone_repository := fun _ => ret true;
     step_create_venv_environment := ret true;
     step_create_model_download_script := ret true;
     step_create_usage_guide := ret tt;
     step_print_next_steps := ret tt |}.

(** A virtual environment at [/work/bagel_env], Conda, and a virtual
    environment of an MSYS2 interpreter on Windows. *)
Definition venv_setup : BAGELSetup :=
  {| env_name := "bagel_env";
     use_conda := false;
     system := "linux";
     python_executable := "/work/bagel_env/bin/python";
     repo_url := "https://github.com/ByteDance-Seed/Bagel.git";
     model_repo_id := "ByteDance-Seed/BAGEL-7B-MoT";
     original_dir := "/work";
     bagel_repo_dir := "/work/BAGEL" |}.

Definition conda_setup : BAGELSetup := new_setup (linux_host 10) "bagel_env" true.

Definition msys_setup : BAGELSetup :=
  {| env_name := "bagel_env";
     use_conda := false;
     system := "windows";
     python_executable := "C:\msys64\mingw64\bin\python.exe";
     repo_url := "https://github.com/ByteDance-Seed/Bagel.git";
     model_repo_id := "ByteDance-Seed/BAGEL-7B-MoT";
     original_dir := "C:\work";
     bagel_repo_dir := "C:\work\BAGEL" |}.

End Sample.

(* ================================================================== *)
(** ** Notions used in the statements                                   *)
(* ================================================================== *)

(** The [Popen] arguments of a prepared command. *)
Definition call_of (actual : command) (capture_output shell : bool)
    (cwd : option string) (self : BAGELSetup) : popen_call :=
  {| pc_args := actual;
     pc_shell := shell;
     pc_cwd := if cwd_given cwd then or_empty cwd else original_dir self;
     pc_capture := capture_output |}.

(** What the world has seen when the process is launched. *)
Definition seen_at_launch (log : string) (cwd : option string)
    (self : BAGELSetup) (h : list event) : list event :=
  Print (MExecuting log
           (if cwd_given cwd
            then Some (if cwd_given cwd then or_empty cwd else original_dir self)
            else None)) :: h.

(** The processes launched and the lines printed, in order. *)
Definition launches (evs : list event) : list popen_call :=
  flat_map (fun e => match e with Popen c => [c] | _ => [] end) evs.

Definition printed (evs : list event) : list message :=
  flat_map (fun e => match e with Print m => [m] | _ => [] end) evs.

(** The interpreter path names a toolchain distribution: the test of
    line 372, which ignores case. *)
Definition mentions_toolchain (path : string) : bool :=
  Py.str_in "msys" (Py.lower path) || Py.str_in "mingw" (Py.lower path).

Definition conda_run_pip (env : string) : list string :=
  ["conda"; "run"; "-n"; env; "python"; "-m"; "pip"].

Definition default_install_flags : list string :=
  ["--no-cache-dir"; "--disable-pip-version-check"].

(** The rendering of one argument by [list2cmdline], and of the
    arguments after the first, each behind its separating space. *)
Definition l2c_piece (arg : string) : string :=
  Subprocess.l2c_arg EmptyString arg.

Fixpoint l2c_rest (args : list string) : string :=
  match args with
  | [] => EmptyString
  | arg :: args' => " " +++ l2c_piece arg +++ l2c_rest args'
  end.

(** The events [run_command] produces: launches and its own lines. *)
Definition executor_event (e : event) : bool :=
  match e with
  | Popen _ => true
  | Print (MExecuting _ _) | Print (MCommandFailed _) | Print (MStdout _)
  | Print (MStderr _) | Print (MNotFound _) | Print (MErrorExecuting _ _)
  | Print MInvalidCommandType => true
  | _ => false
  end.

(** The operator never interrupts a process. *)
Definition no_interrupt (W : World) : Prop :=
  forall h call, popen W h call <> Interrupted.

(** What [_install_package_with_pip] reports about a package: installed
    ([true]) or failed ([false]). *)
Definition install_report (e : event) : list (string * bool) :=
  match e with
  | Print (MInstalled p) => [(p, true)]
  | Print (MInstallFailed p) => [(p, false)]
  | _ => []
  end.

Definition install_reports (evs : list event) : list (string * bool) :=
  flat_map install_report evs.

(** The command [_install_package_with_pip] builds for a package when no
    extra flags are given, and whether it is shell-interpreted. *)
Definition install_invocation (self : BAGELSetup) (package_spec : string)
  : result (command * bool) :=
  res (pip_install_command (_get_pip_executable_cmd_list self)
         (install_flags None) package_spec self []).

(** The events [_install_package_with_pip] produces. *)
Definition installer_event (e : event) : bool :=
  executor_event e ||
  match e with
  | Print (MInstalling _ _) | Print (MInstalled _) | Print (MInstallFailed _)
  | Print MHintFlashAttnTools | Print MHintTorchMissing => true
  | _ => false
  end.

(** The process [_install_package_with_pip] launches for a package. *)
Definition install_call (self : BAGELSetup) (cwd_for_install : option string)
    (package_spec : string) : list popen_call :=
  match install_invocation self package_spec with
  | Ok (c, sh) =>
      [call_of c true sh
         (Some match cwd_for_install with
               | Some p => p
               | None => bagel_repo_dir self
               end) self]
  | Raised _ => []
  end.

(** The lines that mark which way the installation pipeline went: the
    missing manifest, the two fatal stages, the outcome of the bulk
    installation, the start of the fallback tier and of the Gradio helper. *)
Definition is_milestone (m : message) : bool :=
  match m with
  | MReqsMissing _ | MPytorchFailed _ | MVerifyFailed | MReqsProcessed _
  | MReqsFailed _ | MFallbackStart | MEnsuringGradio => true
  | _ => false
  end.

Definition milestone (e : event) : list message :=
  match e with
  | Print m => if is_milestone m then [m] else []
  | _ => []
  end.

Definition milestones (evs : list event) : list message :=
  flat_map milestone evs.

(** The ways through [install_requirements]: the milestones printed, the
    installation reports, and the result. *)
Inductive pipeline_path (requirements_file name : string) (minor : nat)
  : list message -> list (string * bool) -> result bool -> Prop :=
| PathNoManifest reports :
    pipeline_path requirements_file name minor
      [MReqsMissing requirements_file] reports (Ok false)
| PathAborted reports e :
    pipeline_path requirements_file name minor [] reports (Raised e)
| PathFrameworkFailed reports :
    pipeline_path requirements_file name minor
      [MPytorchFailed minor] reports (Ok false)
| PathVerifyFailed reports :
    pipeline_path requirements_file name minor
      [MVerifyFailed] reports (Ok false)
| PathBulkInstalled reports r :
    r <> Ok false ->
    pipeline_path requirements_file name minor
      [MReqsProcessed name; MEnsuringGradio] reports r
| PathFallback earlier outcomes :
    length outcomes = length critical_pkgs ->
    pipeline_path requirements_file name minor
      [MReqsFailed name; MFallbackStart]
      (earlier ++ combine critical_pkgs outcomes)
      (Ok (existsb (fun b => b) outcomes))
| PathFallbackAborted reports e :
    pipeline_path requirements_file name minor
      [MReqsFailed name; MFallbackStart] reports (Raised e).

(** The events of the fallback loop. *)
Definition installer_or_fallback_event (e : event) : bool :=
  installer_event e ||
  match e with
  | Print (MFallbackPkgFailed _) => true
  | _ => false
  end.

(** [install_gradio] was entered: its first line was printed. *)
Definition gradio_helper_invoked (evs : list event) : bool :=
  existsb (fun e => match e with Print MEnsuringGradio => true | _ => false end)
          evs.

(** A run of the pipeline, or of its last stages, goes one of the ways
    of [pipeline_path]. *)
Definition follows_path (requirements_file name : string) (minor : nat)
    (r : run bool) : Prop :=
  pipeline_path requirements_file name minor
    (milestones (emitted r)) (install_reports (emitted r)) (res r).

(** The order of the candidates as the specification words it: the
    host's own minor version first when it is at most 11, then the fixed
    list. *)
Definition documented_order (host_minor : nat) : list nat :=
  (if host_minor <=? 11 then [host_minor] else []) ++ [11; 10; 12].

(** What [create_conda_environment] reports about the interpreter
    versions it tried: created ([true]) or failed ([false]). *)
Definition create_report (e : event) : list (string * bool) :=
  match e with
  | Print (MCreateOk _ py_ver) => [(py_ver, true)]
  | Print (MCreateFailed py_ver _) => [(py_ver, false)]
  | _ => []
  end.

Definition create_reports (evs : list event) : list (string * bool) :=
  flat_map create_report evs.

(** The versions of the [conda create] commands that were launched. *)
Definition create_attempts (evs : list event) : list string :=
  flat_map (fun e => match e with
                     | Print (MCreateAttempt _ py_ver) => [py_ver]
                     | _ => []
                     end) evs.

Definition failed (py_ver : string) : string * bool := (py_ver, false).

(** The listing showed an environment of that name (line 301). *)
Definition env_found (evs : list event) : bool :=
  existsb (fun e => match e with
                    | Print (MCondaEnvExists _) => true
                    | _ => false
                    end) evs.

(** The interpreter of the environment could not be determined
    (line 334). *)
Definition undetermined (evs : list event) : bool :=
  existsb (fun e => match e with
                    | Print (MCondaPythonUndetermined _) => true
                    | _ => false
                    end) evs.

(** The events of [_update_python_executable_for_conda_env]. *)
Definition registry_event (e : event) : bool :=
  executor_event e ||
  match e with
  | Print (MCondaPython _ _) | Print MCondaJsonUnparsable
  | Print (MCondaPythonUndetermined _) => true
  | _ => false
  end.

(** Characters that [list2cmdline] and the POSIX lexer read alike: all
    but the backslash, the two quotes, the carriage return and the line
    feed. *)
Definition plain_char (c : ascii) : bool :=
  negb (Ascii.eqb c Py.backslash || Ascii.eqb c Py.dquote ||
        Ascii.eqb c Py.squote || Ascii.eqb c Py.cr || Ascii.eqb c Py.lf).

Fixpoint plain (s : string) : bool :=
  match s with
  | EmptyString => true
  | String c s' => plain_char c && plain s'
  end.

(** A text between double quotes. *)
Definition quoted_text (body : string) : string :=
  String Py.dquote (body +++ Py.chr Py.dquote).

(** An interpreter path of an MSYS2 installation, and an installation
    command with a package directory that contains a space. *)
Definition msys_python : string := "C:\msys64\mingw64\bin\python.exe".

Definition install_local_package : list string :=
  [msys_python; "-m"; "pip"; "install"; "my pkg"].

(* ================================================================== *)
(** ** The steps around the pipeline                                    *)
(* ================================================================== *)

(** The lines these steps print, one constructor per [print] call.  They
    go to the terminal only: the events of a run keep the lines of
    [message], and neither the world nor a later step looks at them. *)
Inductive note :=
(* check_internet_connection *)
| NCheckingInternet
| NDefaultSsl
| NInternetAvailable
| NNoInternetURLError (reason : string)
| NInternetTimedOut
| NNoInternet (e : exn)
(* check_system_requirements *)
| NCheckingSystem
| NPythonOk (version : string)
| NPythonNewer (major minor : nat)
| NPythonNotIdeal (version : string)
| NGitAvailable (version : string)
| NGitMissing
| NDiskSpace (free_bytes : N)
| NLowDiskSpace (free_bytes : N)
| NDiskUnchecked (e : exn)
| NGpuDetected
| NGpuLine (text : string)
| NNoGpu
| NGpuUnchecked
| NSysReqsNotMet
(* install_conda_alternative_windows *)
| NAlternativeHeader
| NAlternativeManual
| NAlternativeStep (number : nat)
| NAlternativeWinget
(* ensure_conda_installed *)
| NCondaNotConfigured
| NChooseMethod
| NMethod (number : nat)
| NCondaSkipped
| NInvalidChoice
(* install_conda_manual_windows *)
| NCondaStillMissing
| NManualAborted
(* check_pip_installation *)
| NPipAvailable (executable version : string)
| NPipMissing (executable : string)
| NEnsuringPip
| NPipInstalled (version : string)
| NEnsurepipFailed
(* clone_repository *)
| NDirExists (dir : string)
| NNotGitRepo (dir : string)
| NUpdatingRepo (dir : string)
| NRepoUpdated
| NRepoUpdateFailed (stderr : string)
| NSkippingUpdate
(* _perform_clone *)
| NCloning (dir : string)
| NCloned (dir : string)
| NCloneFailed (stderr : string)
(* create_venv_environment *)
| NCreatingVenv (env_path : string)
| NVenvExists (env_path : string)
| NUsingVenv (env_path : string)
| NSkippingVenv
| NRemovingVenv (env_path : string)
| NVenvRemoveFailed (e : exn)
| NVenvCreated (env_path : string)
| NVenvFailed (stderr : string)
| NVenvWinError (executable : string)
(* _update_python_executable_for_venv *)
| NVenvPython (name path : string).

Definition say (n : note) : M unit := fun self _ => Run (Ok tt) self [].

(** How [urllib.request.urlopen] ends: it returns, or raises [URLError]
    (with [e.reason]), [socket.timeout], or something else. *)
Inductive url_outcome :=
| Opened
| URLError (reason : string)
| SocketTimeout
| UrlRaised (e : exn).

(** What these steps ask of the machine besides processes, answers and
    the existence of files: [sys.version_info.major], [sys.version],
    [int(time.time())] (the clock is past the epoch),
    [Path(p).is_dir()], [shutil.rmtree(p)], [shutil.disk_usage(p).free],
    [ssl.create_default_context()] (line 118), the two assignments to the
    context that follow it (line 119), and
    [urlopen(url, timeout=10, context=...)], told whether [ssl_context] is
    a context or still [None]. *)
Record Machine := {
  sys_version_major : nat;
  sys_version : string;
  time_now : list event -> N;
  fs_is_dir : list event -> string -> bool;
  rmtree : list event -> string -> result unit;
  disk_usage_free : list event -> string -> result N;
  create_default_context : list event -> result unit;
  configure_context : list event -> result unit;
  urlopen : list event -> string -> bool -> url_outcome
}.

Definition set_use_conda (b : bool) : M unit :=
  fun self _ =>
    Run (Ok tt)
        {| env_name := env_name self; use_conda := b;
           system := system self;
           python_executable := python_executable self;
           repo_url := repo_url self; model_repo_id := model_repo_id self;
           original_dir := original_dir self;
           bagel_repo_dir := bagel_repo_dir self |}
        [].

(** A question to the machine, which sees the events so far. *)
Definition ask {A} (oracle : list event -> result A) : M A :=
  fun self h => Run (oracle h) self [].

(** [except Exception]: the clause for everything but the two
    [BaseException]s. *)
Definition except_Exception {A} (k : exn -> M A) (e : exn) : option (M A) :=
  if is_Exception e then Some (k e) else None.

(** [except AttributeError]. *)
Definition except_AttributeError {A} (k : M A) (e : exn) : option (M A) :=
  match e with
  | AttributeError _ => Some k
  | _ => None
  end.

(** [s.split(sep)] for a one-character separator; [cur] is the field
    being read. *)
Fixpoint split_on (sep : ascii) (s : string) (cur : string) : list string :=
  match s with
  | EmptyString => [cur]
  | String c s' =>
      if Ascii.eqb c sep then cur :: split_on sep s' EmptyString
      else split_on sep s' (cur +++ Py.chr c)
  end.

Definition Colors_BOLD : string := String "027" "[1m".
Definition Colors_ENDC : string := String "027" "[0m".

Section Preparation.

Variable H : Host.
Variable W : World.
Variable Mc : Machine.

(* ---------------------------------------------------------------- *)
(** *** [check_internet_connection] (lines 114-126)                   *)
(* ---------------------------------------------------------------- *)

Definition probe_url : string := "https://www.google.com".

Definition check_internet_connection : M bool :=
  say NCheckingInternet ;;;
  (* [ssl_context] is bound once line 118 has returned *)
  with_context <-
    try_except
      (ask (create_default_context Mc) ;;; ret true)
      (except_AttributeError (say NDefaultSsl ;;; ret false)) ;;
  (if with_context
   then try_except (ask (configure_context Mc))
          (except_AttributeError (say NDefaultSsl))
   else ret tt) ;;;
  outcome <- ask (fun h => Ok (urlopen Mc h probe_url with_context)) ;;
  match outcome with
  | Opened => say NInternetAvailable ;;; ret true
  | URLError reason => say (NNoInternetURLError reason) ;;; ret false
  | SocketTimeout => say NInternetTimedOut ;;; ret false
  | UrlRaised e =>
      if is_Exception e then say (NNoInternet e) ;;; ret false
      else raise e
  end.

(* ---------------------------------------------------------------- *)
(** *** [check_system_requirements] (lines 128-153)                   *)
(* ---------------------------------------------------------------- *)

(** [sys.version.split()[0]]. *)
Definition python_version_word : M string :=
  match first_word (sys_version Mc) with
  | Some w => ret w
  | None => raise (IndexError "list index out of range")
  end.

(** The test of line 148 and the text of line 149. *)
Definition is_gpu_line (line : string) : bool :=
  Py.str_in "Product Name" line ||
  (Py.str_in "CUDA Version" line && Py.char_in "|" line).

Definition gpu_line_text (line : string) : string :=
  if Py.char_in "|" line && (1 <? length (split_on "|" line EmptyString))
  then Py.strip (nth 1 (split_on "|" line EmptyString) EmptyString)
  else Py.strip line.

(** [free / (1024**3) > 20] for the integer [free]: the quotient by a
    power of two is rounded monotonically, and 20 is a float. *)
Definition enough_disk (free : N) : bool := (20 * 1024 ^ 3 <? free)%N.

Definition check_system_requirements : M bool :=
  say NCheckingSystem ;;;
  let major := sys_version_major Mc in
  let minor := sys_version_minor H in
  python_ok <-
    (if (major =? 3) && (10 <=? minor) then
       v <- python_version_word ;;
       say (NPythonOk v) ;;;
       when (12 <? minor) (say (NPythonNewer major minor)) ;;;
       ret true
     else
       v <- python_version_word ;;
       say (NPythonNotIdeal v) ;;;
       ret false) ;;
  r <- run_command W (CmdList ["git"; "--version"]) true false false None ;;
  let '(success, git_version, _) := r in
  (if success then say (NGitAvailable (Py.strip git_version))
   else say NGitMissing) ;;;
  let all_ok := python_ok && success in
  self <- get_self ;;
  try_except
    (free <- ask (fun h => disk_usage_free Mc h (original_dir self)) ;;
     if enough_disk free then say (NDiskSpace free)
     else say (NLowDiskSpace free))
    (except_Exception (fun e => say (NDiskUnchecked e))) ;;;
  try_except
    (g <- run_command W (CmdList ["nvidia-smi"]) true false false None ;;
     let '(success, smi_out, _) := g in
     if success && Py.str_in "CUDA Version" smi_out then
       say NGpuDetected ;;;
       match find is_gpu_line (Py.splitlines smi_out) with
       | Some line => say (NGpuLine (gpu_line_text line))
       | None => ret tt
       end
     else say NNoGpu)
    (except_Exception (fun _ => say NGpuUnchecked)) ;;;
  when (negb all_ok) (say NSysReqsNotMet) ;;;
  ret all_ok.

(* ---------------------------------------------------------------- *)
(** *** [ensure_conda_installed] and the manual route (lines 202-211,  *)
(**     224-247); [install_conda] is left open                         *)
(* ---------------------------------------------------------------- *)

Definition install_conda_alternative_windows : M bool :=
  say NAlternativeHeader ;;;
  say NAlternativeManual ;;;
  say (NAlternativeStep 1) ;;;
  say (NAlternativeStep 2) ;;;
  say (NAlternativeStep 3) ;;;
  say (NAlternativeStep 4) ;;;
  say (NAlternativeStep 5) ;;;
  say NAlternativeWinget ;;;
  ret false.

Definition manual_prompt : string :=
  String Py.lf
    (Colors_BOLD +++ "Installed Conda manually & restarted terminal? (y/N): "
                 +++ Colors_ENDC).

Definition install_conda_manual_windows : M bool :=
  install_conda_alternative_windows ;;;
  answer <- input W manual_prompt ;;
  if String.eqb (Py.lower answer) "y" then
    found <- check_conda_installation W false ;;
    if found then ret true
    else say NCondaStillMissing ;;; ret false
  else say NManualAborted ;;; ret false.

Definition choice_prompt : string := "Enter choice (1-3): ".

Definition attempt_prompt : string :=
  Colors_BOLD +++ "Attempt Miniconda installation? (y/N): " +++ Colors_ENDC.

Definition ensure_conda_installed (install_conda : M bool) : M bool :=
  found <- check_conda_installation W false ;;
  if found then ret true
  else
    say NCondaNotConfigured ;;;
    self <- get_self ;;
    if String.eqb (system self) "windows" then
      say NChooseMethod ;;;
      say (NMethod 1) ;;;
      say (NMethod 2) ;;;
      say (NMethod 3) ;;;
      answer <- input W choice_prompt ;;
      let choice := Py.strip answer in
      if String.eqb choice "1" then install_conda
      else if String.eqb choice "2" then
        install_conda_manual_windows ;;; ret false
      else if String.eqb choice "3" then
        say NCondaSkipped ;;; set_use_conda false ;;; ret true
      else say NInvalidChoice ;;; ret false
    else
      answer <- input W attempt_prompt ;;
      if String.eqb (Py.lower answer) "y" then install_conda
      else say NCondaSkipped ;;; set_use_conda false ;;; ret true.

(* ---------------------------------------------------------------- *)
(** *** [check_pip_installation] (lines 249-267)                      *)
(* ---------------------------------------------------------------- *)

Definition pip_check_cmd_list : list string :=
  [sys_executable H; "-m"; "pip"; "--version"].

Definition ensurepip_cmd_list : list string :=
  [sys_executable H; "-m"; "ensurepip"; "--default-pip"].

(** [stdout.strip() if stdout else "version not captured"]. *)
Definition version_or_default (stdout : string) : string :=
  if Py.nonempty stdout then Py.strip stdout else "version not captured".

Definition check_pip_installation : M bool :=
  r <- run_command W (CmdList pip_check_cmd_list) true false false None ;;
  let '(success, stdout, _) := r in
  if success then
    say (NPipAvailable (sys_executable H) (version_or_default stdout)) ;;;
    ret true
  else
    say (NPipMissing (sys_executable H)) ;;;
    say NEnsuringPip ;;;
    e <- run_command W (CmdList ensurepip_cmd_list) true true false None ;;
    rechecked <-
      (if fst (fst e) then
         r2 <- run_command W (CmdList pip_check_cmd_list) true false false
                 None ;;
         let '(success_recheck, stdout_recheck, _) := r2 in
         if success_recheck then
           say (NPipInstalled (version_or_default stdout_recheck)) ;;;
           ret true
         else ret false
       else ret false) ;;
    if rechecked then ret true
    else say NEnsurepipFailed ;;; ret false.

(* ---------------------------------------------------------------- *)
(** *** [clone_repository] and [_perform_clone] (lines 269-291)       *)
(* ---------------------------------------------------------------- *)

Definition path_is_dir (p : string) : M bool :=
  fun self h => Run (Ok (fs_is_dir Mc h p)) self [].

Definition clone_cmd_list (self : BAGELSetup) : list string :=
  ["git"; "clone"; repo_url self; bagel_repo_dir self].

Definition _perform_clone : M bool :=
  self <- get_self ;;
  say (NCloning (bagel_repo_dir self)) ;;;
  r <- run_command W (CmdList (clone_cmd_list self)) true true false None ;;
  let '(success, _, stderr) := r in
  if success then say (NCloned (bagel_repo_dir self)) ;;; ret true
  else say (NCloneFailed (Py.strip stderr)) ;;; ret false.

Definition alt_dir_name (target_dir_name : string) (now : N) : string :=
  target_dir_name +++ "_clone_" +++ NilEmpty.string_of_uint (N.to_uint now).

Definition alt_clone_prompt (alt : string) : string :=
  "Attempt clone into '" +++ alt +++ "'? (y/N):".

Definition update_prompt : string := "Update it (git pull)? (y/N): ".

Definition clone_repository (target_dir_name : string) : M bool :=
  self <- get_self ;;
  let dir := path_join H (original_dir self) target_dir_name in
  set_bagel_repo_dir dir ;;;
  present <- path_exists W dir ;;
  if present then
    say (NDirExists dir) ;;;
    is_repo <- path_is_dir (path_join H dir ".git") ;;
    if negb is_repo then
      say (NNotGitRepo dir) ;;;
      now <- ask (fun h => Ok (time_now Mc h)) ;;
      let alt := alt_dir_name target_dir_name now in
      answer <- input W (alt_clone_prompt alt) ;;
      if String.eqb (Py.lower answer) "y" then
        set_bagel_repo_dir (path_join H (original_dir self) alt) ;;;
        _perform_clone
      else ret false
    else
      answer <- input W update_prompt ;;
      if String.eqb (Py.lower answer) "y" then
        say (NUpdatingRepo dir) ;;;
        r <- run_command W (CmdList ["git"; "pull"]) true true false
               (Some dir) ;;
        let '(success, _, stderr) := r in
        if success then say NRepoUpdated ;;; ret true
        else say (NRepoUpdateFailed (Py.strip stderr)) ;;; ret false
      else say NSkippingUpdate ;;; ret true
  else _perform_clone.

(* ---------------------------------------------------------------- *)
(** *** [create_venv_environment] (lines 336-358)                     *)
(* ---------------------------------------------------------------- *)

(** [str(env_path / "Scripts" / "python.exe")] and
    [str(env_path / "bin" / "python")]. *)
Definition venv_python (system env_path : string) : string :=
  if String.eqb system "windows"
  then path_join H (path_join H env_path "Scripts") "python.exe"
  else path_join H (path_join H env_path "bin") "python".

Definition _update_python_executable_for_venv (env_path : string) : M unit :=
  self <- get_self ;;
  set_python_executable (venv_python (system self) env_path) ;;;
  self <- get_self ;;
  say (NVenvPython (path_name H env_path) (python_executable self)).

Definition venv_prompt : string :=
  "[u]se existing, [r]emove and recreate, or [s]kip? (u/R/s, default: R): ".

Definition venv_command_list (env_path : string) : list string :=
  [sys_executable H; "-m"; "venv"; env_path].

(** Lines 347-353: creation, once no directory is in the way. *)
Definition create_new_venv (env_path : string) : M bool :=
  r <- run_command W (CmdList (venv_command_list env_path)) true true false
         None ;;
  let '(success, _, stderr) := r in
  if success then
    say (NVenvCreated env_path) ;;;
    _update_python_executable_for_venv env_path ;;;
    ret true
  else
    say (NVenvFailed (if Py.nonempty stderr then Py.strip stderr
                      else "Unknown")) ;;;
    when (Py.str_in "WinError 2" stderr &&
          negb (Py.str_in "python.exe" stderr))
         (say (NVenvWinError (sys_executable H))) ;;;
    ret false.

Definition create_venv_environment : M bool :=
  self <- get_self ;;
  let env_path := path_join H (original_dir self) (env_name self) in
  say (NCreatingVenv env_path) ;;;
  present <- path_exists W env_path ;;
  if present then
    say (NVenvExists env_path) ;;;
    answer <- input W venv_prompt ;;
    let choice := Py.lower answer in
    if String.eqb choice "u" then
      say (NUsingVenv env_path) ;;;
      _update_python_executable_for_venv env_path ;;;
      ret true
    else if String.eqb choice "s" then
      say NSkippingVenv ;;; ret false
    else
      say (NRemovingVenv env_path) ;;;
      removed <-
        try_except
          (ask (fun h => rmtree Mc h env_path) ;;; ret true)
          (except_Exception
             (fun e => say (NVenvRemoveFailed e) ;;; ret false)) ;;
      if removed then create_new_venv env_path else ret false
  else create_new_venv env_path.

End Preparation.

(** A text that reads back unchanged from between double quotes under
    the POSIX rules: it holds no double quote, and each backslash is
    followed by a character other than a backslash or a double quote. *)
Fixpoint dquotable (s : string) : bool :=
  match s with
  | EmptyString => true
  | String c s' =>
      negb (Ascii.eqb c Py.dquote) &&
      (if Ascii.eqb c Py.backslash then
         match s' with
         | EmptyString => false
         | String d _ =>
             negb (Ascii.eqb d Py.backslash) && negb (Ascii.eqb d Py.dquote)
         end
       else true) &&
      dquotable s'
  end.

(** The process the tooling upgrade launches for one build tool
    (lines 430-438). *)
Definition upgrade_call (self : BAGELSetup) (pkg_to_upgrade : string)
  : list popen_call :=
  match res (upgrade_command (_get_pip_executable_cmd_list self)
               pkg_to_upgrade self []) with
  | Ok (c, sh) => [call_of c true sh None self]
  | Raised _ => []
  end.

(** The framework packages by the minor version of the running
    interpreter (lines 453-460). *)
Definition pt_pip_specs (minor : nat) : list string :=
  if 13 <=? minor then ["torch"; "torchvision"; "torchaudio"]
  else if minor =? 12
       then ["torch>=2.1"; "torchvision>=0.16"; "torchaudio>=2.1"]
       else ["torch>=2.0.0"; "torchvision"; "torchaudio"].

Definition installed (package_spec : string) : string * bool :=
  (package_spec, true).

Definition not_installed (package_spec : string) : string * bool :=
  (package_spec, false).

(** Every process that is launched starts and ends, with some return
    code. *)
Definition always_exits (W : World) : Prop :=
  forall h call, exists rc out err, popen W h call = Exited rc out err.

(** A computation changes the setup object at most as [R] allows,
    whether it returns or raises. *)
Definition preserves (R : BAGELSetup -> BAGELSetup -> Prop) {A} (m : M A)
  : Prop :=
  forall self h, R self (self_after (m self h)).

(** Setup objects that differ at most in the interpreter path, and in
    the repository directory. *)
Definition same_but_python (s s' : BAGELSetup) : Prop :=
  env_name s' = env_name s /\ use_conda s' = use_conda s /\
  system s' = system s /\ repo_url s' = repo_url s /\
  model_repo_id s' = model_repo_id s /\ original_dir s' = original_dir s /\
  bagel_repo_dir s' = bagel_repo_dir s.

Definition same_but_repo_dir (s s' : BAGELSetup) : Prop :=
  env_name s' = env_name s /\ use_conda s' = use_conda s /\
  system s' = system s /\ python_executable s' = python_executable s /\
  repo_url s' = repo_url s /\ model_repo_id s' = model_repo_id s /\
  original_dir s' = original_dir s.

(** A machine for the samples: Python 3.11, the clock at 1700000000, an
    empty disk, the probe URL reachable; [is_dir] says whether paths are
    directories and [removal] how [shutil.rmtree] ends. *)
Definition sample_machine (is_dir : bool) (removal : result unit) : Machine :=
  {| sys_version_major := 3;
     sys_version := "3.11.4 (main, Jun  7 2023, 00:00:00) [GCC 12.2.0]";
     time_now := fun _ => 1700000000%N;
     fs_is_dir := fun _ _ => is_dir;
     rmtree := fun _ _ => removal;
     disk_usage_free := fun _ _ => Ok 0%N;
     create_default_context := fun _ => Ok tt;
     configure_context := fun _ => Ok tt;
     urlopen := fun _ _ _ => Opened |}.

(** An operator who chooses the manual route at the menu and confirms
    every other question, with a machine on which [conda] is found only
    after a question was answered. *)
Definition world_installing_conda_by_hand : World :=
  {| popen := fun h _ =>
       if existsb (fun e => match e with Asked _ _ => true | _ => false end) h
       then Exited 0 (Some "conda 24.1.2") (Some EmptyString)
       else NotFound (Some "conda") "[WinError 2] The system cannot find the file specified";
     user_input := fun _ prompt =>
       if String.eqb prompt choice_prompt then Answer "2" else Answer "y";
     fs_exists := fun _ _ => true;
     fs_is_file := fun _ _ => true |}.

Definition windows_conda_setup : BAGELSetup :=
  {| env_name := "bagel_env";
     use_conda := true;
     system := "windows";
     python_executable := "C:\Python311\python.exe";
     repo_url := "https://github.com/ByteDance-Seed/Bagel.git";
     model_repo_id := "ByteDance-Seed/BAGEL-7B-MoT";
     original_dir := "C:\work";
     bagel_repo_dir := "C:\work\BAGEL" |}.

(** A step that returns normally, with the given value or with some
    value, whatever the state of the run. *)
Definition returns {A} (m : M A) (a : A) : Prop :=
  forall self h, res (m self h) = Ok a.

Definition returns_some {A} (m : M A) : Prop :=
  forall self h, exists a, res (m self h) = Ok a.

(** [{"envs": ["/opt/conda", "/opt/conda/envs/bagel_env"]}], and a Linux
    host on which [json.loads] reads this text. *)
Definition registry_text : string :=
  "{" +++ quoted_text "envs" +++ ": [" +++ quoted_text "/opt/conda" +++ ", "
      +++ quoted_text "/opt/conda/envs/bagel_env" +++ "]}".

Definition host_reading_registry : Host :=
  {| sys_executable := "/usr/bin/python3";
     sys_version_minor := 11;
     platform_system := "linux";
     path_join := fun a b => a +++ "/" +++ b;
     path_name := fun a => Sample.last_component a EmptyString;
     path_cwd := "/work";
     json_loads := fun text =>
       if String.eqb text registry_text
       then Some (JObject [("envs", JArray [JString "/opt/conda";
                                            JString "/opt/conda/envs/bagel_env"])])
       else None |}.

(** A text without white space. *)
Fixpoint spaceless (s : string) : bool :=
  match s with
  | EmptyString => true
  | String c s' => negb (Py.isspace c) && spaceless s'
  end.

(** A listing of [conda env list] that shows [base] and
    [bagel_env_old]. *)
Definition listing_with_longer_name : string :=
  "# conda environments:" +++ String Py.lf
    ("#" +++ String Py.lf
       ("base                *  /opt/conda" +++ String Py.lf
          ("bagel_env_old          /opt/conda/envs/bagel_env_old"
             +++ Py.chr Py.lf))).

(* ================================================================== *)
(** * Properties                                                        *)
(* ================================================================== *)

Lemma run_command_prepared W cmd capture_output check shell cwd self h actual log :
  prepare_command cmd shell = Ok (Some (actual, log)) ->
  res (run_command W cmd capture_output check shell cwd self h) =
  match popen W (seen_at_launch log cwd self h)
          (call_of actual capture_output shell cwd self) with
  | Exited rc out err =>
      Ok (negb (check && negb (rc =? 0)%Z), or_empty out, or_empty err)
  | NotFound filename text =>
      match failed_file_reported filename actual log with
      | Some _ => Ok (false, EmptyString, text)
      | None => Raised (IndexError "list index out of range")
      end
  | LaunchError text => Ok (false, EmptyString, text)
  | Interrupted => Raised KeyboardInterrupt
  end.
Proof.
  intros Hp. unfold run_command, seen_at_launch, call_of.
  cbn. rewrite Hp. cbn.
  destruct (popen W _ _) as [rc out err | filename text | text | ]; cbn.
  - destruct check; cbn; [ | reflexivity ].
    destruct (rc =? 0)%Z; cbn; [ reflexivity | ].
    destruct (Py.nonempty (Py.strip (or_empty out)));
      destruct (Py.nonempty (Py.strip (or_empty err))); reflexivity.
  - destruct (failed_file_reported filename actual log); reflexivity.
  - reflexivity.
  - reflexivity.
Qed.

(** C1, as the specification has it, fails: [git --version] is run without
    strict checking (line 135); when the process ends with return code 1
    the result still says that it succeeded. *)
Lemma run_command_unchecked_nonzero_exit :
  popen (Sample.world_exiting 1 "")
    (seen_at_launch "git --version" None Sample.venv_setup [])
    (call_of (CmdList ["git"; "--version"]) true false None Sample.venv_setup)
  = Exited 1 (Some "") (Some "")
  /\ res (run_command (Sample.world_exiting 1 "") (CmdList ["git"; "--version"])
            true false false None Sample.venv_setup [])
     = Ok (true, "", "").
Proof. split; reflexivity. Qed.

(** C1, amended: a command that could be handed to [Popen] never makes
    [run_command] raise for a missing executable the handler can name or for
    a launch error, both of which give [succeeded = false]; a nonzero return
    code gives [succeeded = false] when strict checking is on and
    [succeeded = true] when it is off. *)
Theorem run_command_failure_results
    W cmd capture_output check shell cwd self h actual log :
  prepare_command cmd shell = Ok (Some (actual, log)) ->
  let outcome := popen W (seen_at_launch log cwd self h)
                   (call_of actual capture_output shell cwd self) in
  let r := res (run_command W cmd capture_output check shell cwd self h) in
  (forall filename text name,
      outcome = NotFound filename text ->
      failed_file_reported filename actual log = Some name ->
      r = Ok (false, "", text)) /\
  (forall text, outcome = LaunchError text -> r = Ok (false, "", text)) /\
  (forall rc out err,
      outcome = Exited rc out err -> rc <> 0%Z -> check = true ->
      r = Ok (false, or_empty out, or_empty err)) /\
  (forall rc out err,
      outcome = Exited rc out err -> check = false ->
      r = Ok (true, or_empty out, or_empty err)).
Proof.
  intros Hp outcome r. subst outcome r.
  rewrite (run_command_prepared W cmd capture_output check shell cwd self h
             actual log Hp).
  repeat split.
  - intros filename text name -> ->. reflexivity.
  - intros text ->. reflexivity.
  - intros rc out err -> Hrc ->.
    apply Z.eqb_neq in Hrc. rewrite Hrc. reflexivity.
  - intros rc out err -> ->. reflexivity.
Qed.

Lemma run_command_failure_results_witness :
  res (run_command Sample.world_without_tools (CmdList ["git"; "--version"])
         true false false None Sample.venv_setup [])
  = Ok (false, "", "[Errno 2] No such file or directory: 'git'")
  /\ res (run_command (Sample.world_exiting 1 "boom") (CmdList ["git"; "pull"])
            true true false None Sample.venv_setup [])
     = Ok (false, "boom", "").
Proof.
  split.
  - refine (proj1 (run_command_failure_results Sample.world_without_tools
                     (CmdList ["git"; "--version"]) true false false None
                     Sample.venv_setup [] (CmdList ["git"; "--version"])
                     "git --version" eq_refl)
                  (Some "git") _ "git" eq_refl eq_refl).
  - refine (proj1 (proj2 (proj2
              (run_command_failure_results (Sample.world_exiting 1 "boom")
                 (CmdList ["git"; "pull"]) true true false None
                 Sample.venv_setup [] (CmdList ["git"; "pull"])
                 "git pull" eq_refl)))
              1%Z (Some "boom") (Some "") eq_refl _ eq_refl).
    discriminate.
Defined.

(* ------------------------------------------------------------------ *)
(** ** Text                                                             *)
(* ------------------------------------------------------------------ *)

Lemma append_nil_r s : s +++ EmptyString = s.
Proof. induction s as [ | c s IH]; cbn; [ reflexivity | now rewrite IH ]. Qed.

Lemma append_assoc a b c : (a +++ b) +++ c = a +++ b +++ c.
Proof. induction a as [ | x a IH]; cbn; [ reflexivity | now rewrite IH ]. Qed.

Lemma nonempty_append_l a b : Py.nonempty a = true -> Py.nonempty (a +++ b) = true.
Proof. destruct a; [ discriminate | reflexivity ]. Qed.

Lemma nonempty_append_r a b : Py.nonempty b = true -> Py.nonempty (a +++ b) = true.
Proof. destruct a; cbn; [ trivial | reflexivity ]. Qed.

(* ------------------------------------------------------------------ *)
(** ** The shape of [list2cmdline]                                      *)
(* ------------------------------------------------------------------ *)

Lemma l2c_chars_result arg : forall result bs_buf,
  Subprocess.l2c_chars arg result bs_buf =
  (result +++ fst (Subprocess.l2c_chars arg EmptyString bs_buf),
   snd (Subprocess.l2c_chars arg EmptyString bs_buf)).
Proof.
  induction arg as [ | c arg IH]; intros result bs_buf; cbn.
  - now rewrite append_nil_r.
  - destruct (Ascii.eqb c Py.backslash); [ apply IH | ].
    destruct (Ascii.eqb c Py.dquote).
    + rewrite IH. symmetry. rewrite IH. cbn. now rewrite !append_assoc.
    + rewrite IH. symmetry. rewrite IH. cbn. now rewrite !append_assoc.
Qed.


Lemma l2c_arg_piece result arg :
  Subprocess.l2c_arg result arg =
  result +++ (if Py.nonempty result then " " else EmptyString) +++ l2c_piece arg.
Proof.
  unfold l2c_piece, Subprocess.l2c_arg.
  change (Py.nonempty EmptyString) with false. cbv iota.
  assert (Hs : (if Py.nonempty result then result +++ Py.chr Py.space else result)
               = result +++ (if Py.nonempty result then " " else EmptyString)).
  { destruct (Py.nonempty result); [ reflexivity | now rewrite append_nil_r ]. }
  rewrite Hs. clear Hs.
  generalize (if Py.nonempty result then " " else EmptyString). intros sep.
  destruct (Subprocess.needquote arg).
  - rewrite l2c_chars_result.
    rewrite (l2c_chars_result arg (EmptyString +++ Py.chr Py.dquote)).
    destruct (Subprocess.l2c_chars arg EmptyString EmptyString) as [x bs]. cbn.
    destruct (Py.nonempty bs); cbn; now rewrite !append_assoc.
  - rewrite l2c_chars_result.
    destruct (Subprocess.l2c_chars arg EmptyString EmptyString) as [x bs]. cbn.
    destruct (Py.nonempty bs); cbn; now rewrite !append_assoc.
Qed.

Lemma l2c_chars_grows arg : forall bs_buf,
  Py.nonempty arg = true ->
  Py.nonempty (fst (Subprocess.l2c_chars arg EmptyString bs_buf)
               +++ snd (Subprocess.l2c_chars arg EmptyString bs_buf)) = true.
Proof.
  induction arg as [ | c arg IH]; intros bs_buf Hne; [ discriminate | ].
  cbn. destruct (Ascii.eqb c Py.backslash).
  - destruct arg as [ | d arg ].
    + cbn. destruct bs_buf; reflexivity.
    + apply IH. reflexivity.
  - destruct (Ascii.eqb c Py.dquote).
    + rewrite l2c_chars_result. cbn.
      apply nonempty_append_l. apply nonempty_append_l.
      apply nonempty_append_r. reflexivity.
    + rewrite l2c_chars_result. cbn.
      apply nonempty_append_l. apply nonempty_append_l.
      apply nonempty_append_r. reflexivity.
Qed.

Lemma l2c_piece_nonempty arg : Py.nonempty (l2c_piece arg) = true.
Proof.
  unfold l2c_piece, Subprocess.l2c_arg.
  change (Py.nonempty EmptyString) with false. cbv iota.
  destruct (Subprocess.needquote arg) eqn:Hq.
  - rewrite l2c_chars_result. cbn.
    destruct (Subprocess.l2c_chars arg EmptyString EmptyString) as [x bs].
    cbn. destruct (Py.nonempty bs); reflexivity.
  - assert (Hne : Py.nonempty arg = true).
    { destruct arg; [ discriminate Hq | reflexivity ]. }
    pose proof (l2c_chars_grows arg EmptyString Hne) as Hg.
    destruct (Subprocess.l2c_chars arg EmptyString EmptyString) as [x bs].
    cbn in *. destruct bs; cbn; [ now rewrite append_nil_r in Hg | exact Hg ].
Qed.

Lemma l2c_fold args : forall result,
  Py.nonempty result = true ->
  fold_left Subprocess.l2c_arg args result = result +++ l2c_rest args.
Proof.
  induction args as [ | arg args IH]; intros result Hne; cbn.
  - now rewrite append_nil_r.
  - rewrite l2c_arg_piece, Hne. rewrite IH.
    + now rewrite !append_assoc.
    + now apply nonempty_append_l.
Qed.

Lemma list2cmdline_cons arg args :
  Subprocess.list2cmdline (arg :: args) = l2c_piece arg +++ l2c_rest args.
Proof.
  unfold Subprocess.list2cmdline. cbn. fold (l2c_piece arg).
  apply l2c_fold, l2c_piece_nonempty.
Qed.


Lemma run_command_events W cmd capture_output check shell cwd self h actual log :
  prepare_command cmd shell = Ok (Some (actual, log)) ->
  let r := run_command W cmd capture_output check shell cwd self h in
  self_after r = self /\
  launches (emitted r) = [call_of actual capture_output shell cwd self] /\
  forallb executor_event (emitted r) = true.
Proof.
  intros Hp. unfold run_command, call_of.
  cbn. rewrite Hp. cbn.
  destruct (popen W _ _) as [rc out err | filename text | text | ]; cbn.
  - destruct (check && negb (rc =? 0)%Z); cbn; [ | auto ].
    destruct (Py.nonempty (Py.strip (or_empty out)));
      destruct (Py.nonempty (Py.strip (or_empty err))); cbn; auto.
  - destruct (failed_file_reported filename actual log); cbn; auto.
  - auto.
  - auto.
Qed.

Lemma first_word_some c s : Py.isspace c = false -> first_word (String c s) <> None.
Proof. intros Hc. unfold first_word. cbn. rewrite Hc. discriminate. Qed.

Lemma reported_when_word filename c s :
  Py.isspace c = false ->
  failed_file_reported filename (CmdStr (String c s)) (String c s) <> None.
Proof.
  intros Hc. unfold failed_file_reported.
  destruct filename as [f | ]; [ destruct (Py.nonempty f); [ discriminate | ] | ];
    cbn [Py.nonempty]; now apply first_word_some.
Qed.

Lemma reported_when_list filename a args log :
  failed_file_reported filename (CmdList (a :: args)) log <> None.
Proof.
  unfold failed_file_reported.
  destruct filename as [f | ]; [ destruct (Py.nonempty f) | ]; discriminate.
Qed.

Lemma install_invocation_prepared self package_spec :
  exists c sh log,
    (forall h, pip_install_command (_get_pip_executable_cmd_list self)
                 (install_flags None) package_spec self h
               = Run (Ok (c, sh)) self []) /\
    prepare_command c sh = Ok (Some (c, log)) /\
    forall filename, failed_file_reported filename c log <> None.
Proof.
  unfold _get_pip_executable_cmd_list.
  destruct (use_conda self).
  - cbn -[Subprocess.list2cmdline]. eexists _, _, _. split; [ intros h; reflexivity | ]. split; [ reflexivity | ].
    intros filename. rewrite list2cmdline_cons. 
    apply reported_when_word. reflexivity.
  - destruct (String.eqb (system self) "windows" && is_msys_python_base self).
    + cbn. eexists _, _, _. split; [ intros h; reflexivity | ]. split; [ reflexivity | ].
      intros filename. apply reported_when_word. reflexivity.
    + cbn -[Subprocess.list2cmdline].
      destruct (String.eqb (python_executable self) "conda") eqn:E.
      * eexists _, _, _. split; [ intros h; reflexivity | ]. split; [ reflexivity | ].
        intros filename. rewrite list2cmdline_cons.
        apply String.eqb_eq in E. rewrite E.
        apply reported_when_word. reflexivity.
      * eexists _, _, _. split; [ intros h; reflexivity | ]. split; [ reflexivity | ].
        intros filename. apply reported_when_list.
Qed.


(* ------------------------------------------------------------------ *)
(** ** Runs and their events                                            *)
(* ------------------------------------------------------------------ *)

Arguments launches : simpl never.
Arguments printed : simpl never.
Arguments install_reports : simpl never.
Arguments run_command : simpl never.

Lemma bind_eq {A B} (m : M A) (f : A -> M B) self h :
  bind m f self h =
  match res (m self h) with
  | Ok a =>
      let r' := f a (self_after (m self h)) (rev_append (emitted (m self h)) h) in
      Run (res r') (self_after r') (emitted (m self h) ++ emitted r')
  | Raised e => Run (Raised e) (self_after (m self h)) (emitted (m self h))
  end.
Proof. reflexivity. Qed.

Lemma launches_app a b : launches (a ++ b) = launches a ++ launches b.
Proof. apply flat_map_app. Qed.

Lemma launches_cons e l :
  launches (e :: l) = match e with Popen c => [c] | _ => [] end ++ launches l.
Proof. reflexivity. Qed.

Lemma launches_nil : launches [] = [].
Proof. reflexivity. Qed.

Lemma printed_app a b : printed (a ++ b) = printed a ++ printed b.
Proof. apply flat_map_app. Qed.

Lemma printed_cons e l :
  printed (e :: l) = match e with Print m => [m] | _ => [] end ++ printed l.
Proof. reflexivity. Qed.

Lemma printed_nil : printed [] = [].
Proof. reflexivity. Qed.

Lemma install_reports_app a b :
  install_reports (a ++ b) = install_reports a ++ install_reports b.
Proof. apply flat_map_app. Qed.

Lemma install_reports_cons e l :
  install_reports (e :: l) = install_report e ++ install_reports l.
Proof. reflexivity. Qed.

Lemma install_reports_nil : install_reports [] = [].
Proof. reflexivity. Qed.

Create Rewrite HintDb events.
#[export] Hint Rewrite launches_app launches_cons launches_nil
  printed_app printed_cons printed_nil
  install_reports_app install_reports_cons install_reports_nil
  forallb_app app_nil_r : events.

Arguments milestones : simpl never.

Lemma milestones_app a b : milestones (a ++ b) = milestones a ++ milestones b.
Proof. apply flat_map_app. Qed.

Lemma milestones_cons e l : milestones (e :: l) = milestone e ++ milestones l.
Proof. reflexivity. Qed.

Lemma milestones_nil : milestones [] = [].
Proof. reflexivity. Qed.

#[export] Hint Rewrite milestones_app milestones_cons milestones_nil : events.

Ltac events := repeat (autorewrite with events; cbn).

Lemma executor_is_installer evs :
  forallb executor_event evs = true -> forallb installer_event evs = true.
Proof.
  induction evs as [ | e evs IH]; cbn; [ trivial | ].
  intros Hx. apply andb_true_iff in Hx as [He Hx].
  unfold installer_event at 1. rewrite He. cbn. auto.
Qed.

Lemma executor_no_reports evs :
  forallb executor_event evs = true -> install_reports evs = [].
Proof.
  induction evs as [ | e evs IH]; [ trivial | ].
  cbn [forallb]. intros Hx. apply andb_true_iff in Hx as [He Hx].
  rewrite install_reports_cons, (IH Hx).
  destruct e as [ c | p a | m ]; [ | discriminate He | ];
    cbn; [ reflexivity | ].
  destruct m; try discriminate He; reflexivity.
Qed.

Lemma installer_is_fallback evs :
  forallb installer_event evs = true ->
  forallb installer_or_fallback_event evs = true.
Proof.
  induction evs as [ | e evs IH]; cbn; [ trivial | ].
  intros Hx. apply andb_true_iff in Hx as [He Hx].
  unfold installer_or_fallback_event at 1. rewrite He. cbn. auto.
Qed.

Lemma fallback_quiet evs :
  forallb installer_or_fallback_event evs = true -> milestones evs = [].
Proof.
  induction evs as [ | e evs IH]; [ trivial | ].
  cbn [forallb]. intros Hx. apply andb_true_iff in Hx as [He Hx].
  rewrite milestones_cons, (IH Hx).
  destruct e as [ c | p a | m ]; [ reflexivity | discriminate He | ].
  destruct m; try discriminate He; reflexivity.
Qed.

Lemma installer_quiet evs :
  forallb installer_event evs = true -> milestones evs = [].
Proof. intros Hx. now apply fallback_quiet, installer_is_fallback. Qed.

Lemma executor_quiet evs :
  forallb executor_event evs = true -> milestones evs = [].
Proof. intros Hx. now apply installer_quiet, executor_is_installer. Qed.

Lemma install_package_run W package_spec cwd self h :
  let r := _install_package_with_pip W package_spec cwd None self h in
  self_after r = self /\
  launches (emitted r) = install_call self cwd package_spec /\
  forallb installer_event (emitted r) = true /\
  match res r with
  | Ok b => install_reports (emitted r) = [(package_spec, b)]
  | Raised e => e = KeyboardInterrupt /\ ~ no_interrupt W
  end.
Proof.
  unfold _install_package_with_pip.
  cbn -[pip_install_command install_flags].
  destruct (install_invocation_prepared self package_spec)
    as (c & sh & log & Hc & Hp & Hrep).
  unfold install_call, install_invocation. rewrite (Hc []).
  rewrite bind_eq, (Hc h). cbn.
  set (cwd' := Some _).
  set (h' := Print (MInstalling package_spec sh) :: h).
  pose proof (run_command_events W c true true sh cwd' self h' c log Hp)
    as (Hself & Hl & Hev).
  pose proof (run_command_prepared W c true true sh cwd' self h' c log Hp) as Hres.
  pose proof (executor_no_reports _ Hev) as Hno.
  pose proof (executor_is_installer _ Hev) as Hin.
  rewrite bind_eq. rewrite Hres.
  destruct (popen W _ _) as [rc out err | filename text | text | ] eqn:Ho.
  - cbn. rewrite Hself.
    destruct (rc =? 0)%Z; cbn.
    + events. rewrite Hl, Hno, Hin. cbn. auto.
    + destruct (Py.nonempty (or_empty err)); cbn.
      * destruct (Py.str_in "Could not build wheels for" (or_empty err) &&
                  Py.str_in "flash-attn" package_spec); cbn.
        -- events. rewrite Hl, Hno, Hin. cbn. auto.
        -- destruct (Py.str_in "No module named 'torch'" (or_empty err));
             cbn; events; rewrite Hl, Hno, Hin; cbn; auto.
      * events; rewrite Hl, Hno, Hin; cbn; auto.
  - destruct (failed_file_reported filename c log) eqn:Hf;
      [ | now apply Hrep in Hf ].
    cbn. rewrite Hself.
    destruct (Py.nonempty text); cbn.
    + destruct (Py.str_in "Could not build wheels for" text &&
                Py.str_in "flash-attn" package_spec); cbn.
      * events. rewrite Hl, Hno, Hin. cbn. auto.
      * destruct (Py.str_in "No module named 'torch'" text);
          cbn; events; rewrite Hl, Hno, Hin; cbn; auto.
    + events; rewrite Hl, Hno, Hin; cbn; auto.
  - cbn. rewrite Hself.
    destruct (Py.nonempty text); cbn.
    + destruct (Py.str_in "Could not build wheels for" text &&
                Py.str_in "flash-attn" package_spec); cbn.
      * events. rewrite Hl, Hno, Hin. cbn. auto.
      * destruct (Py.str_in "No module named 'torch'" text);
          cbn; events; rewrite Hl, Hno, Hin; cbn; auto.
    + events; rewrite Hl, Hno, Hin; cbn; auto.
  - cbn. rewrite Hself. events. rewrite Hl, Hin. cbn.
    repeat split; auto. intros Hni. exact (Hni _ _ Ho).
Qed.


(* ------------------------------------------------------------------ *)
(** ** The fallback tier                                                *)
(* ------------------------------------------------------------------ *)

Arguments _install_package_with_pip : simpl never.
Arguments install_call : simpl never.
Arguments critical_pkgs : simpl never.

Lemma fallback_loop_run W pkgs : forall ok_count self h,
  let r := fallback_loop W pkgs ok_count self h in
  self_after r = self /\
  forallb installer_or_fallback_event (emitted r) = true /\
  match res r with
  | Ok n =>
      launches (emitted r)
      = flat_map (install_call self (Some (bagel_repo_dir self))) pkgs /\
      exists outcomes,
        length outcomes = length pkgs /\
        install_reports (emitted r) = combine pkgs outcomes /\
        n = ok_count + length (filter (fun b => b) outcomes)
  | Raised e => e = KeyboardInterrupt /\ ~ no_interrupt W
  end.
Proof.
  induction pkgs as [ | pkg pkgs IH]; intros ok_count self h.
  - cbn. repeat split. exists []. cbn. now rewrite Nat.add_0_r.
  - cbn [fallback_loop]. rewrite bind_eq. cbn.
    pose proof (install_package_run W pkg (Some (bagel_repo_dir self)) self h)
      as (Hself & Hl & Hev & Hres).
    apply installer_is_fallback in Hev.
    rewrite bind_eq.
    destruct (res (_install_package_with_pip W pkg _ None self h))
      as [ [ | ] | e ].
    + cbn. rewrite Hself.
      specialize (IH (ok_count + 1) self
                    (rev_append (emitted (_install_package_with_pip W pkg
                       (Some (bagel_repo_dir self)) None self h)) h)).
      cbn in IH. destruct IH as (IHs & IHe & IHr).
      rewrite IHs. events. rewrite Hev, IHe.
      destruct (res (fallback_loop W pkgs (ok_count + 1) self _)) as [ n | e ].
      * destruct IHr as (IHl & outcomes & Hlen & Hrep & Hr).
        events. rewrite Hl, IHl, Hres, Hrep.
        repeat split. exists (true :: outcomes). cbn. rewrite Hlen.
        repeat split. lia.
      * auto.
    + cbn. rewrite Hself.
      specialize (IH ok_count self
                    (Print (MFallbackPkgFailed pkg) ::
                     rev_append (emitted (_install_package_with_pip W pkg
                       (Some (bagel_repo_dir self)) None self h)) h)).
      cbn in IH. destruct IH as (IHs & IHe & IHr).
      rewrite IHs. events. rewrite Hev, IHe.
      destruct (res (fallback_loop W pkgs ok_count self _)) as [ n | e ].
      * destruct IHr as (IHl & outcomes & Hlen & Hrep & Hr).
        events. rewrite Hl, IHl, Hres, Hrep.
        repeat split. exists (false :: outcomes). cbn. rewrite Hlen.
        repeat split. exact Hr.
      * auto.
    + cbn. rewrite Hself, Hev. auto.
Qed.

Lemma fallback_run W self h :
  let r := install_critical_packages_fallback W self h in
  self_after r = self /\
  milestones (emitted r) = [MFallbackStart] /\
  match res r with
  | Ok b =>
      launches (emitted r)
      = flat_map (install_call self (Some (bagel_repo_dir self))) critical_pkgs /\
      exists outcomes,
        length outcomes = length critical_pkgs /\
        install_reports (emitted r) = combine critical_pkgs outcomes /\
        b = existsb (fun b => b) outcomes
  | Raised e => e = KeyboardInterrupt /\ ~ no_interrupt W
  end.
Proof.
  unfold install_critical_packages_fallback.
  rewrite bind_eq. cbn.
  destruct (fallback_loop_run W critical_pkgs 0 self (Print MFallbackStart :: h))
    as (Hs & Hev & Hr).
  pose proof (fallback_quiet _ Hev) as Hq.
  rewrite bind_eq.
  destruct (res (fallback_loop W critical_pkgs 0 self _)) as [ n | e ].
  - destruct Hr as (Hl & outcomes & Hlen & Hrep & Hn).
    assert (Hex : forall l : list bool,
               (0 <? length (filter (fun b => b) l)) = existsb (fun b => b) l).
    { induction l as [ | [ | ] l IHl]; cbn; auto. }
    specialize (Hex outcomes). cbn in Hn. rewrite <- Hn in Hex. cbn in Hex.
    destruct n as [ | n ]; cbn; rewrite Hs; events; rewrite Hl, Hrep, Hq;
      (repeat split); exists outcomes; auto.
  - cbn. rewrite Hs. events. rewrite Hq. auto.
Qed.




(* ------------------------------------------------------------------ *)
(** ** The installer command builder                                    *)
(* ------------------------------------------------------------------ *)

Lemma lower_prefix p s :
  String.prefix p s = true -> String.prefix (Py.lower p) (Py.lower s) = true.
Proof.
  revert s. induction p as [ | a p IH]; intros s; [ now destruct s | ].
  destruct s as [ | b s ]; cbn; [ discriminate | ].
  destruct (ascii_dec a b) as [ -> | ]; [ | discriminate ].
  intros Hp. destruct (ascii_dec (Py.lower_char b) (Py.lower_char b));
    [ now apply IH | congruence ].
Qed.

Lemma lower_str_in p s :
  Py.str_in p s = true -> Py.str_in (Py.lower p) (Py.lower s) = true.
Proof.
  induction s as [ | c s IH]; cbn [Py.str_in]; intros Hin.
  - apply orb_true_iff in Hin as [Hp | Hf]; [ | discriminate ].
    apply lower_prefix in Hp. cbn [Py.lower Py.str_in] in *. now rewrite Hp.
  - apply orb_true_iff in Hin as [Hp | Hs].
    + apply lower_prefix in Hp. cbn [Py.lower Py.str_in] in *. now rewrite Hp.
    + cbn [Py.lower Py.str_in]. rewrite (IH Hs). apply orb_true_r.
Qed.

(** A path that spells [msys] or [mingw] in small letters passes the
    test of line 372. *)
Lemma mentions_toolchain_literal path :
  Py.str_in "msys" path = true \/ Py.str_in "mingw" path = true ->
  mentions_toolchain path = true.
Proof.
  unfold mentions_toolchain. intros [Hm | Hm]; apply lower_str_in in Hm.
  - change (Py.lower "msys") with "msys" in Hm. now rewrite Hm.
  - change (Py.lower "mingw") with "mingw" in Hm. rewrite Hm. apply orb_true_r.
Qed.

Lemma mentions_toolchain_nonempty path :
  mentions_toolchain path = true -> Py.nonempty path = true.
Proof. destruct path; [ discriminate | reflexivity ]. Qed.

(** C5: under Conda the installer is [conda run -n <env> python -m pip]
    and its installations are launched through the shell; in a virtual
    environment it is the argument list of the environment's interpreter,
    except on Windows for an interpreter path that names msys or mingw,
    where it is a shell string with the path in double quotes. *)
Theorem pip_command_by_backend self :
  (use_conda self = true ->
   _get_pip_executable_cmd_list self = CmdList (conda_run_pip (env_name self)) /\
   forall W package_spec cwd h,
     launches (emitted (_install_package_with_pip W package_spec cwd None self h))
     = [call_of
          (CmdStr (Subprocess.list2cmdline
                     (conda_run_pip (env_name self) ++ ["install"]
                      ++ default_install_flags ++ [package_spec])))
          true true
          (Some match cwd with Some p => p | None => bagel_repo_dir self end)
          self]) /\
  (use_conda self = false ->
   system self = "windows" ->
   mentions_toolchain (python_executable self) = true ->
   _get_pip_executable_cmd_list self
   = CmdStr (String Py.dquote (python_executable self +++ Py.chr Py.dquote)
             +++ " -m pip")) /\
  (use_conda self = false ->
   system self <> "windows" \/ mentions_toolchain (python_executable self) = false ->
   _get_pip_executable_cmd_list self
   = CmdList [python_executable self; "-m"; "pip"]).
Proof.
  unfold _get_pip_executable_cmd_list, is_msys_python_base.
  fold (mentions_toolchain (python_executable self)).
  repeat split.
  - now rewrite H.
  - intros W package_spec cwd h.
    destruct (install_package_run W package_spec cwd self h) as (_ & Hl & _).
    rewrite Hl. unfold install_call, install_invocation,
      _get_pip_executable_cmd_list. rewrite H. reflexivity.
  - intros Hc Hw Hm. rewrite Hc, Hw, Hm.
    rewrite (mentions_toolchain_nonempty _ Hm). reflexivity.
  - intros Hc [Hw | Hm]; rewrite Hc.
    + apply String.eqb_neq in Hw. rewrite Hw. reflexivity.
    + rewrite Hm, andb_false_r, andb_false_r. reflexivity.
Qed.

(** Under Conda the other commands of the pipeline are built the same
    way: one shell string behind [conda run -n <env>]. *)
Lemma conda_commands_go_through_the_shell self h :
  use_conda self = true ->
  (forall pkg,
      res (upgrade_command (_get_pip_executable_cmd_list self) pkg self h)
      = Ok (CmdStr (Subprocess.list2cmdline
                      (conda_run_pip (env_name self)
                       ++ ["install"; "--upgrade"; pkg])), true)) /\
  res (verify_command (_get_pip_executable_cmd_list self) self h)
  = Ok (CmdStr (Subprocess.list2cmdline
                  ["conda"; "run"; "-n"; env_name self;
                   "python"; "-c"; verify_py_code]), true) /\
  (forall file,
      res (requirements_command (_get_pip_executable_cmd_list self) file self h)
      = Ok (CmdStr (Subprocess.list2cmdline
                      (conda_run_pip (env_name self)
                       ++ ["install"; "-r"; file])), true)).
Proof.
  intros Hc. unfold _get_pip_executable_cmd_list. rewrite Hc.
  repeat split.
Qed.

Lemma pip_command_by_backend_witness :
  _get_pip_executable_cmd_list Sample.conda_setup
  = CmdList ["conda"; "run"; "-n"; "bagel_env"; "python"; "-m"; "pip"]
  /\ _get_pip_executable_cmd_list Sample.msys_setup
     = CmdStr (String Py.dquote
                 ("C:\msys64\mingw64\bin\python.exe" +++ Py.chr Py.dquote)
               +++ " -m pip")
  /\ _get_pip_executable_cmd_list Sample.venv_setup
     = CmdList ["/work/bagel_env/bin/python"; "-m"; "pip"].
Proof.
  split; [ | split ].
  - exact (proj1 (proj1 (pip_command_by_backend Sample.conda_setup) eq_refl)).
  - exact (proj1 (proj2 (pip_command_by_backend Sample.msys_setup))
             eq_refl eq_refl eq_refl).
  - refine (proj2 (proj2 (pip_command_by_backend Sample.venv_setup))
              eq_refl (or_introl _)).
    discriminate.
Defined.

(* ------------------------------------------------------------------ *)
(** ** The manifest gate                                                *)
(* ------------------------------------------------------------------ *)

(** C10: without [requirements.txt] in the repository directory,
    [install_requirements] prints the complaint, launches nothing and
    returns [False]. *)
Theorem missing_manifest_stops_pipeline H W self h :
  fs_is_file W h (path_join H (bagel_repo_dir self) "requirements.txt") = false ->
  let r := install_requirements H W self h in
  res r = Ok false /\
  emitted r
  = [Print (MReqsMissing (path_join H (bagel_repo_dir self) "requirements.txt"))] /\
  launches (emitted r) = [].
Proof.
  intros Hf. unfold install_requirements. cbn. rewrite Hf. cbn. auto.
Qed.

Lemma missing_manifest_stops_pipeline_witness :
  let r := install_requirements (Sample.linux_host 10) Sample.world_without_files
             Sample.venv_setup [] in
  res r = Ok false /\
  emitted r = [Print (MReqsMissing "/work/BAGEL/requirements.txt")] /\
  launches (emitted r) = [].
Proof.
  exact (missing_manifest_stops_pipeline (Sample.linux_host 10)
           Sample.world_without_files Sample.venv_setup [] eq_refl).
Defined.


(* ------------------------------------------------------------------ *)
(** ** The stages of the installation pipeline                          *)
(* ------------------------------------------------------------------ *)

Arguments install_critical_packages_fallback : simpl never.
Arguments _get_pip_executable_cmd_list : simpl never.

Lemma run_command_any W cmd capture_output check shell cwd self h :
  let r := run_command W cmd capture_output check shell cwd self h in
  self_after r = self /\ forallb executor_event (emitted r) = true.
Proof.
  destruct (prepare_command cmd shell) as [ [ [actual log] | ] | e ] eqn:Hp.
  - destruct (run_command_events W cmd capture_output check shell cwd self h
                actual log Hp) as (Hs & _ & He). auto.
  - unfold run_command. cbn. rewrite Hp. cbn. auto.
  - unfold run_command. cbn. rewrite Hp. cbn. auto.
Qed.

Lemma run_command_quiet W cmd capture_output check shell cwd self h :
  milestones (emitted (run_command W cmd capture_output check shell cwd self h)) = [].
Proof. apply executor_quiet, run_command_any. Qed.

Lemma install_package_quiet W package_spec cwd self h :
  milestones (emitted (_install_package_with_pip W package_spec cwd None self h)) = [].
Proof. apply installer_quiet, install_package_run. Qed.

Lemma item_silent l i self h : emitted (item l i self h) = [] /\ self_after (item l i self h) = self.
Proof. unfold item. destruct (nth_error l i); cbn; auto. Qed.

Lemma upgrade_command_silent base pkg self h :
  emitted (upgrade_command base pkg self h) = [] /\
  self_after (upgrade_command base pkg self h) = self.
Proof.
  destruct base as [ [ | a l ] | s | ]; cbn; auto.
Qed.

Lemma verify_command_silent base self h :
  emitted (verify_command base self h) = [] /\
  self_after (verify_command base self h) = self.
Proof.
  destruct base as [ [ | a l ] | s | ]; cbn; auto.
  destruct (String.eqb a "conda"); cbn; auto.
  destruct l as [ | b [ | c [ | d [ | e l ] ] ] ]; cbn; auto.
Qed.

Lemma requirements_command_silent base file self h :
  emitted (requirements_command base file self h) = [] /\
  self_after (requirements_command base file self h) = self.
Proof.
  destruct base as [ [ | a l ] | s | ]; cbn; auto.
Qed.

Lemma upgrade_loop_quiet W base pkgs : forall all_ok self h,
  milestones (emitted (upgrade_loop W base pkgs all_ok self h)) = [].
Proof.
  induction pkgs as [ | pkg pkgs IH]; intros all_ok self h; [ reflexivity | ].
  cbn [upgrade_loop]. rewrite bind_eq.
  destruct (upgrade_command_silent base pkg self h) as [He Hs].
  rewrite He, Hs.
  destruct (res (upgrade_command base pkg self h)) as [ cu | e ]; [ | reflexivity ].
  cbn. rewrite bind_eq.
  pose proof (run_command_quiet W (fst cu) true true (snd cu) None self
                (Print (MUpgrading pkg (snd cu)) :: h)) as Hq.
  destruct (res (run_command W (fst cu) true true (snd cu) None self _))
    as [ [ [ok out] err ] | e ]; cbn.
  - destruct ok; cbn; events; rewrite Hq, IH; reflexivity.
  - events. now rewrite Hq.
Qed.

Arguments upgrade_loop : simpl never.

Lemma upgrade_tooling_quiet W self h :
  milestones (emitted (upgrade_tooling W self h)) = [].
Proof.
  unfold upgrade_tooling. rewrite bind_eq. cbn. rewrite bind_eq.
  pose proof (upgrade_loop_quiet W (_get_pip_executable_cmd_list self)
                ["pip"; "setuptools"; "wheel"] true self
                (Print MUpgradeHeader :: h)) as Hq.
  destruct (res (upgrade_loop W _ _ true self _)) as [ [ | ] | e ]; cbn;
    events; rewrite Hq; reflexivity.
Qed.

Lemma install_each_quiet W specs : forall self h,
  milestones (emitted (install_each_until_failure W specs self h)) = [].
Proof.
  induction specs as [ | spec specs IH]; intros self h; [ reflexivity | ].
  cbn [install_each_until_failure]. rewrite bind_eq. cbn. rewrite bind_eq.
  pose proof (install_package_quiet W spec (Some (bagel_repo_dir self)) self h) as Hq.
  destruct (res (_install_package_with_pip W spec _ None self h))
    as [ [ | ] | e ]; cbn; events; rewrite Hq; try reflexivity.
  apply IH.
Qed.

Arguments install_each_until_failure : simpl never.

Lemma install_pytorch_family_quiet H W self h :
  milestones (emitted (install_pytorch_family H W self h)) = [].
Proof.
  unfold install_pytorch_family.
  destruct (13 <=? sys_version_minor H);
    [ | destruct (sys_version_minor H =? 12) ];
    cbn; events; apply install_each_quiet.
Qed.

Lemma verify_pytorch_run W self h :
  let r := verify_pytorch W self h in
  milestones (emitted r)
  = match res r with Ok false => [MVerifyFailed] | _ => [] end.
Proof.
  unfold verify_pytorch. rewrite bind_eq. cbn. rewrite bind_eq.
  destruct (verify_command_silent (_get_pip_executable_cmd_list self) self
              (Print MVerifying :: h)) as [He Hs].
  rewrite He, Hs.
  destruct (res (verify_command _ self _)) as [ cu | e ]; [ | reflexivity ].
  cbn. rewrite bind_eq.
  pose proof (run_command_quiet W (fst cu) true true (snd cu) None self
                (Print MVerifying :: h)) as Hq.
  destruct (res (run_command W (fst cu) true true (snd cu) None self _))
    as [ [ [ok out] err ] | e ]; cbn.
  - destruct (ok && Py.nonempty out); cbn; events; rewrite Hq; reflexivity.
  - events. now rewrite Hq.
Qed.

Lemma pin_numpy_quiet H W self h :
  milestones (emitted (pin_numpy H W self h)) = [].
Proof.
  unfold pin_numpy. rewrite bind_eq. cbn. rewrite bind_eq.
  pose proof (install_package_quiet W (numpy_spec_to_try H)
                (Some (bagel_repo_dir self)) self (Print MNumpyHeader :: h)) as Hq.
  destruct (res (_install_package_with_pip W _ _ None self _))
    as [ [ | ] | e ]; cbn; events; rewrite Hq; reflexivity.
Qed.

Lemma requirements_hints_quiet stderr_req self h :
  milestones (emitted (requirements_hints stderr_req self h)) = [] /\
  res (requirements_hints stderr_req self h) = Ok tt /\
  install_reports (emitted (requirements_hints stderr_req self h)) = [].
Proof.
  unfold requirements_hints.
  destruct (Py.nonempty stderr_req && Py.str_in _ stderr_req);
    [ cbn; auto | ].
  destruct (Py.nonempty stderr_req && Py.str_in _ stderr_req && Py.str_in _ stderr_req);
    [ cbn; auto | ].
  destruct (Py.nonempty stderr_req && Py.str_in _ stderr_req && Py.str_in _ stderr_req);
    cbn; auto.
Qed.


Arguments upgrade_tooling : simpl never.
Arguments install_pytorch_family : simpl never.
Arguments verify_pytorch : simpl never.
Arguments pin_numpy : simpl never.
Arguments requirements_hints : simpl never.

Lemma install_gradio_milestones W self h :
  milestones (emitted (install_gradio W self h)) = [MEnsuringGradio].
Proof.
  unfold install_gradio. rewrite bind_eq. cbn.
  destruct (_get_pip_executable_cmd_list self) as [ [ | a l ] | s | ]; cbn;
    try reflexivity.
  destruct (String.eqb a "conda"); cbn; rewrite bind_eq;
    match goal with
    | |- context [run_command W ?c ?cap ?chk ?sh ?cwd ?s ?hh] =>
        pose proof (run_command_quiet W c cap chk sh cwd s hh) as Hq;
        destruct (run_command_any W c cap chk sh cwd s hh) as [Hs _];
        destruct (res (run_command W c cap chk sh cwd s hh))
          as [ [ [ [ | ] out ] err ] | e ]
    end; cbn; events; rewrite ?Hq; try reflexivity;
    rewrite Hs; rewrite bind_eq;
    match goal with
    | |- context [_install_package_with_pip W ?p ?cwd None ?s ?hh] =>
        pose proof (install_package_quiet W p cwd s hh) as Hq2;
        destruct (res (_install_package_with_pip W p cwd None s hh))
          as [ [ | ] | e ]
    end; cbn; events; rewrite Hq2; reflexivity.
Qed.

Arguments install_gradio : simpl never.

Lemma pipeline_path_earlier file name minor ms reports r earlier :
  pipeline_path file name minor ms reports r ->
  pipeline_path file name minor ms (earlier ++ reports) r.
Proof.
  intros Hp. destruct Hp; try constructor; auto.
  rewrite app_assoc. now constructor.
Qed.


(* ------------------------------------------------------------------ *)
(** ** The ways through the pipeline                                    *)
(* ------------------------------------------------------------------ *)

Section Paths.

Variables (file name : string) (minor : nat).

(** A stage that prints no milestone leaves the way to what follows. *)
Lemma follows_after_quiet {A} (m : M A) (k : A -> M bool) self h :
  milestones (emitted (m self h)) = [] ->
  (forall a, res (m self h) = Ok a ->
             follows_path file name minor
               (k a (self_after (m self h)) (rev_append (emitted (m self h)) h))) ->
  follows_path file name minor (bind m k self h).
Proof.
  intros Hq Hk. unfold follows_path. rewrite bind_eq.
  destruct (res (m self h)) as [ a | e ].
  - specialize (Hk a eq_refl). unfold follows_path in Hk.
    cbn [res emitted].
    rewrite milestones_app, Hq, install_reports_app. cbn [app].
    now apply pipeline_path_earlier.
  - cbn [res emitted]. rewrite Hq. constructor.
Qed.

Lemma follows_after_print msg (k : M bool) self h :
  is_milestone msg = false ->
  follows_path file name minor (k self (Print msg :: h)) ->
  follows_path file name minor (bind (print msg) (fun _ => k) self h).
Proof.
  intros Hm Hk. apply follows_after_quiet.
  - cbn. unfold milestones. cbn. now rewrite Hm.
  - intros a _. exact Hk.
Qed.

(** The manifest was installed: the Gradio helper follows. *)
Lemma follows_bulk_installed (gradio : M bool) self h :
  (forall s h', milestones (emitted (gradio s h')) = [MEnsuringGradio]) ->
  follows_path file name minor
    (bind (print (MReqsProcessed name))
          (fun _ => bind gradio (fun _ => ret true)) self h).
Proof.
  intros Hg. unfold follows_path. rewrite bind_eq. cbn [print res emitted self_after].
  rewrite bind_eq.
  destruct (res (gradio self _)) as [ b | e ];
    cbn [res emitted ret]; events; rewrite Hg;
    cbn; constructor; discriminate.
Qed.

(** The manifest was not installed: the fallback tier follows. *)
Lemma follows_bulk_failed (hints : M unit) (fallback : M bool) self h :
  (forall s h', milestones (emitted (hints s h')) = [] /\
                res (hints s h') = Ok tt /\
                install_reports (emitted (hints s h')) = []) ->
  (forall s h',
      milestones (emitted (fallback s h')) = [MFallbackStart] /\
      match res (fallback s h') with
      | Ok b =>
          exists outcomes,
            length outcomes = length critical_pkgs /\
            install_reports (emitted (fallback s h')) = combine critical_pkgs outcomes /\
            b = existsb (fun b => b) outcomes
      | Raised _ => True
      end) ->
  follows_path file name minor
    (bind (print (MReqsFailed name))
       (fun _ => bind hints
          (fun _ => bind (print MFallbackAttempt)
             (fun _ => bind fallback
                (fun ok => if ok then bind (print MFallbackDone) (fun _ => ret true)
                           else bind (print MFallbackFailed) (fun _ => ret false)))))
       self h).
Proof.
  intros Hh Hf. unfold follows_path.
  rewrite bind_eq. cbn. rewrite bind_eq.
  destruct (Hh self (Print (MReqsFailed name) :: h)) as (Hhq & Hhr & Hhn).
  rewrite Hhr. cbn. rewrite bind_eq.
  match goal with
  | |- context [fallback ?s ?hh] =>
      destruct (Hf s hh) as (Hfm & Hfr);
      destruct (res (fallback s hh)) as [ b | e ]
  end.
  - destruct Hfr as (outcomes & Hlen & Hrep & Hb).
    destruct b; cbn; events; rewrite Hhq, Hfm, Hhn, Hrep; cbn; rewrite Hb;
      apply (PathFallback _ _ _ [] outcomes Hlen).
  - cbn. events. rewrite Hhq, Hfm. cbn. constructor.
Qed.

End Paths.

Lemma install_from_requirements_path H W file self h :
  follows_path file (path_name H file) (sys_version_minor H)
    (install_from_requirements H W file self h).
Proof.
  unfold install_from_requirements.
  apply follows_after_print; [ reflexivity | ].
  apply follows_after_quiet; [ reflexivity | ]. intros s _. cbv beta.
  apply follows_after_quiet;
    [ now rewrite (proj1 (requirements_command_silent _ _ _ _)) | ].
  intros cu _.
  apply follows_after_quiet; [ apply run_command_quiet | ].
  intros [ [ok out] err ] _. cbv beta iota.
  destruct ok.
  - apply follows_bulk_installed. intros s' h'. apply install_gradio_milestones.
  - apply follows_bulk_failed.
    + intros s' h'. apply requirements_hints_quiet.
    + intros s' h'. destruct (fallback_run W s' h') as (_ & Hm & Hr).
      split; [ exact Hm | ].
      destruct (res (install_critical_packages_fallback W s' h')); [ | trivial ].
      destruct Hr as (_ & outcomes & Hr). now exists outcomes.
Qed.

(** Every run of [install_requirements] goes one of the ways of
    [pipeline_path]. *)
Lemma install_requirements_path H W self h :
  follows_path (path_join H (bagel_repo_dir self) "requirements.txt")
    (path_name H (path_join H (bagel_repo_dir self) "requirements.txt"))
    (sys_version_minor H)
    (install_requirements H W self h).
Proof.
  unfold install_requirements.
  apply follows_after_quiet; [ reflexivity | ].
  intros s Hs. injection Hs as <-. cbv beta zeta.
  apply follows_after_quiet; [ reflexivity | ].
  intros is_file _. destruct is_file; cbv beta iota delta [negb].
  - apply follows_after_print; [ reflexivity | ].
    apply follows_after_quiet; [ apply upgrade_tooling_quiet | ]. intros _ _.
    apply follows_after_quiet; [ apply install_pytorch_family_quiet | ].
    intros ok _. destruct ok; cbv beta iota delta [negb].
    + unfold follows_path. rewrite bind_eq.
      match goal with
      | |- context [verify_pytorch W ?s ?hh] =>
          pose proof (verify_pytorch_run W s hh) as Hv; cbv zeta in Hv;
          destruct (res (verify_pytorch W s hh)) as [ [ | ] | e ]
      end.
      * cbn [res emitted self_after]. cbv beta iota delta [negb].
        rewrite milestones_app, Hv, install_reports_app. cbn [app].
        apply pipeline_path_earlier.
        apply follows_after_quiet; [ apply pin_numpy_quiet | ]. intros _ _.
        apply follows_after_quiet; [ reflexivity | ]. intros s' _. cbv beta.
        apply follows_after_quiet;
          [ destruct (use_conda s'); reflexivity | ]. intros _ _.
        apply install_from_requirements_path.
      * cbn [res emitted self_after ret]. cbv beta iota delta [negb].
        rewrite milestones_app, Hv, install_reports_app, app_nil_r. cbn.
        rewrite app_nil_r. constructor.
      * cbn [res emitted self_after]. rewrite Hv. constructor.
    + unfold follows_path. cbn. constructor.
  - unfold follows_path. cbn. constructor.
Qed.


Arguments install_requirements : simpl never.

Lemma milestone_printed m evs :
  In m (milestones evs) <-> In (Print m) evs /\ is_milestone m = true.
Proof.
  induction evs as [ | e evs IH].
  - rewrite milestones_nil. cbn. tauto.
  - rewrite milestones_cons, in_app_iff, IH. cbn [In].
    destruct e as [ c | p a | m' ]; cbn.
    + split; [ intros [ [] | [? ?] ]; auto | intros [ [ ? | ? ] ? ]; [ discriminate | auto ] ].
    + split; [ intros [ [] | [? ?] ]; auto | intros [ [ ? | ? ] ? ]; [ discriminate | auto ] ].
    + destruct (is_milestone m') eqn:Hm; cbn.
      * split.
        -- intros [ [ -> | [] ] | [? ?] ]; auto.
        -- intros [ [ Heq | ? ] ? ]; [ injection Heq as ->; auto | auto ].
      * split.
        -- intros [ [] | [? ?] ]; auto.
        -- intros [ [ Heq | ? ] Hm2 ]; [ injection Heq as ->; congruence | auto ].
Qed.

Lemma gradio_helper_invoked_milestone evs :
  gradio_helper_invoked evs = true <-> In MEnsuringGradio (milestones evs).
Proof.
  rewrite milestone_printed. unfold gradio_helper_invoked.
  rewrite existsb_exists. split.
  - intros (e & Hin & He). destruct e as [ | | [] ]; try discriminate. auto.
  - intros [Hin _]. exists (Print MEnsuringGradio). auto.
Qed.

Lemma combine_covers {A B} (x : A) (l : list A) : forall (l' : list B),
  In x l -> length l' = length l -> exists b, In (x, b) (combine l l').
Proof.
  induction l as [ | a l IH]; intros l' Hin Hlen; [ contradiction | ].
  destruct l' as [ | b l' ]; [ discriminate | ].
  destruct Hin as [ -> | Hin ].
  - exists b. now left.
  - destruct (IH l' Hin) as [b' Hb]; [ now injection Hlen | ].
    exists b'. now right.
Qed.








(* ------------------------------------------------------------------ *)
(** ** The exit status                                                  *)
(* ------------------------------------------------------------------ *)

Lemma main_try_status H W st args setup h :
  exit_status
    (res (main_try H W (step_print_banner st) (step_check_internet_connection st)
            (step_check_system_requirements st) (step_ensure_conda_installed st)
            (step_check_pip_installation st) (step_clone_repository st)
            (step_create_venv_environment st)
            (step_create_model_download_script st)
            (step_create_usage_guide st) (step_print_next_steps st)
            args setup h)) =
  match res (run_setup_with H W st (negb (args_no_clone args))
               (negb (args_no_deps args))
               (negb (args_no_download_script args)) setup h) with
  | Ok true => Exit 0
  | Ok false => Exit 1
  | Raised KeyboardInterrupt => Exit 130
  | Raised (SystemExit code) => Exit code
  | Raised _ => Exit 2
  end.
Proof.
  unfold run_setup_with, main_try, try_except.
  rewrite bind_eq.
  generalize (run_setup H W (step_print_banner st)
    (step_check_internet_connection st)
    (step_check_system_requirements st) (step_ensure_conda_installed st)
    (step_check_pip_installation st) (step_clone_repository st)
    (step_create_venv_environment st) (step_create_model_download_script st)
    (step_create_usage_guide st) (step_print_next_steps st)
    (negb (args_no_clone args)) (negb (args_no_deps args))
    (negb (args_no_download_script args)) setup h).
  intros r. destruct r as [ [ [ | ] | e ] s evs ]; cbn; try reflexivity.
  destruct e; reflexivity.
Qed.




(* ------------------------------------------------------------------ *)
(** ** The candidate interpreter versions                               *)
(* ------------------------------------------------------------------ *)

Lemma version_key_le_total a b :
  version_key_le a b = true \/ version_key_le b a = true.
Proof.
  unfold version_key_le.
  destruct (a <? 13) eqn:Ha; destruct (b <? 13) eqn:Hb; cbn; auto;
    destruct (Nat.leb_spec b a); auto; right; apply Nat.leb_le; lia.
Qed.

Lemma version_key_le_antisym a b :
  version_key_le a b = true -> version_key_le b a = true -> a = b.
Proof.
  unfold version_key_le.
  destruct (a <? 13) eqn:Ha; destruct (b <? 13) eqn:Hb; cbn;
    try discriminate; rewrite !Nat.leb_le; lia.
Qed.

Lemma version_key_le_trans a b c :
  version_key_le a b = true -> version_key_le b c = true ->
  version_key_le a c = true.
Proof.
  unfold version_key_le.
  destruct (a <? 13) eqn:Ha; destruct (b <? 13) eqn:Hb;
    destruct (c <? 13) eqn:Hc; cbn; try discriminate; auto;
    rewrite !Nat.leb_le; lia.
Qed.

Lemma insert_version_comm x y l :
  insert_version x (insert_version y l) = insert_version y (insert_version x l).
Proof.
  induction l as [ | w l IH]; cbn.
  - destruct (version_key_le x y) eqn:Hxy; destruct (version_key_le y x) eqn:Hyx;
      try reflexivity.
    + now rewrite (version_key_le_antisym x y Hxy Hyx).
    + destruct (version_key_le_total x y); congruence.
  - destruct (version_key_le x w) eqn:Hxw; destruct (version_key_le y w) eqn:Hyw;
      cbn; rewrite ?Hxw, ?Hyw.
    + destruct (version_key_le x y) eqn:Hxy; destruct (version_key_le y x) eqn:Hyx;
        cbn; rewrite ?Hxw, ?Hyw; try reflexivity.
      * now rewrite (version_key_le_antisym x y Hxy Hyx).
      * destruct (version_key_le_total x y); congruence.
    + destruct (version_key_le y x) eqn:Hyx; [ | reflexivity ].
      rewrite (version_key_le_trans y x w Hyx Hxw) in Hyw. discriminate.
    + destruct (version_key_le x y) eqn:Hxy; [ | reflexivity ].
      rewrite (version_key_le_trans x y w Hxy Hyw) in Hxw. discriminate.
    + now rewrite IH.
Qed.

(** The sorted candidates do not depend on the order in which the set
    of line 310 is listed. *)
Lemma sorted_versions_order l l' :
  Permutation l l' -> sorted_versions l = sorted_versions l'.
Proof.
  induction 1 as [ | x l l' _ IH | x y l | l l' l'' _ IH1 _ IH2 ]; cbn.
  - reflexivity.
  - now rewrite IH.
  - apply insert_version_comm.
  - now rewrite IH1.
Qed.

(** The candidates in the order they are tried: newest first, the
    host's own version last when it is older than 3.10. *)
Lemma py_versions_to_try_descending H :
  py_versions_to_try H =
  if sys_version_minor H <=? 9 then [12; 11; 10; sys_version_minor H]
  else [12; 11; 10].
Proof.
  unfold py_versions_to_try.
  destruct (sys_version_minor H)
    as [ | [ | [ | [ | [ | [ | [ | [ | [ | [ | [ | [ | n ] ] ] ] ] ] ] ] ] ] ] ];
    reflexivity.
Qed.


(* ------------------------------------------------------------------ *)
(** ** The Conda environment provisioner                                *)
(* ------------------------------------------------------------------ *)

Arguments create_reports : simpl never.
Arguments create_attempts : simpl never.
Arguments env_found : simpl never.
Arguments undetermined : simpl never.

Lemma create_reports_app a b :
  create_reports (a ++ b) = create_reports a ++ create_reports b.
Proof. apply flat_map_app. Qed.

Lemma create_reports_cons e l :
  create_reports (e :: l) = create_report e ++ create_reports l.
Proof. reflexivity. Qed.

Lemma create_reports_nil : create_reports [] = [].
Proof. reflexivity. Qed.

Lemma create_attempts_app a b :
  create_attempts (a ++ b) = create_attempts a ++ create_attempts b.
Proof. apply flat_map_app. Qed.

Lemma create_attempts_cons e l :
  create_attempts (e :: l)
  = match e with Print (MCreateAttempt _ v) => [v] | _ => [] end
    ++ create_attempts l.
Proof. reflexivity. Qed.

Lemma create_attempts_nil : create_attempts [] = [].
Proof. reflexivity. Qed.

Lemma undetermined_app a b :
  undetermined (a ++ b) = undetermined a || undetermined b.
Proof. apply existsb_app. Qed.

Lemma undetermined_cons e l :
  undetermined (e :: l)
  = match e with Print (MCondaPythonUndetermined _) => true | _ => false end
    || undetermined l.
Proof. reflexivity. Qed.

Lemma undetermined_nil : undetermined [] = false.
Proof. reflexivity. Qed.

Lemma env_found_app a b : env_found (a ++ b) = env_found a || env_found b.
Proof. apply existsb_app. Qed.

Lemma env_found_cons e l :
  env_found (e :: l)
  = match e with Print (MCondaEnvExists _) => true | _ => false end
    || env_found l.
Proof. reflexivity. Qed.

Lemma env_found_nil : env_found [] = false.
Proof. reflexivity. Qed.

#[export] Hint Rewrite create_reports_app create_reports_cons create_reports_nil
  create_attempts_app create_attempts_cons create_attempts_nil
  undetermined_app undetermined_cons undetermined_nil
  env_found_app env_found_cons env_found_nil : events.

Lemma executor_is_registry evs :
  forallb executor_event evs = true -> forallb registry_event evs = true.
Proof.
  induction evs as [ | e evs IH]; cbn; [ trivial | ].
  intros Hx. apply andb_true_iff in Hx as [He Hx].
  unfold registry_event at 1. rewrite He. cbn. auto.
Qed.

(** The events of the environment registry lookup tell nothing about
    creations, attempts or an existing environment. *)
Lemma registry_no_create evs :
  forallb registry_event evs = true ->
  create_reports evs = [] /\ create_attempts evs = [] /\ env_found evs = false.
Proof.
  induction evs as [ | e evs IH]; [ auto | ].
  cbn [forallb]. intros Hx. apply andb_true_iff in Hx as [He Hx].
  destruct (IH Hx) as (H1 & H2 & H3).
  rewrite create_reports_cons, create_attempts_cons, env_found_cons, H1, H2, H3.
  destruct e as [ c | p a | m ]; [ auto | discriminate He | ].
  destruct m; try discriminate He; auto.
Qed.

Lemma executor_not_undetermined evs :
  forallb executor_event evs = true -> undetermined evs = false.
Proof.
  induction evs as [ | e evs IH]; [ auto | ].
  cbn [forallb]. intros Hx. apply andb_true_iff in Hx as [He Hx].
  rewrite undetermined_cons, (IH Hx).
  destruct e as [ c | p a | m ]; [ auto | discriminate He | ].
  destruct m; try discriminate He; auto.
Qed.

(** A command given as a non-empty list is always launched, and
    [run_command] returns unless the operator interrupts. *)
Lemma run_command_list_returns W a args capture_output check cwd self h :
  match res (run_command W (CmdList (a :: args)) capture_output check false
               cwd self h) with
  | Ok _ => True
  | Raised e => e = KeyboardInterrupt /\ ~ no_interrupt W
  end.
Proof.
  rewrite (run_command_prepared W (CmdList (a :: args)) capture_output check
             false cwd self h (CmdList (a :: args))
             (Py.join " " (map log_quote (a :: args))) eq_refl).
  destruct (popen W _ _) as [rc out err | filename text | text | ] eqn:Ho;
    try exact I.
  - destruct (failed_file_reported _ _ _) eqn:Hf; [ exact I | ].
    now apply reported_when_list in Hf.
  - split; [ reflexivity | ]. intros Hni. exact (Hni _ _ Ho).
Qed.

Lemma scan_envs_run H W envs : forall self h,
  let r := scan_envs H W envs self h in
  forallb registry_event (emitted r) = true /\
  undetermined (emitted r) = false /\
  match res r with
  | Ok true => True
  | Ok false => self_after r = self
  | Raised e => is_Exception e = true
  end.
Proof.
  induction envs as [ | env envs IH]; intros self h; [ cbn; auto | ].
  destruct env as [ | b | n | env_path_str | items | members ];
    try (cbn; auto; fail).
  cbn [scan_envs]. rewrite bind_eq. cbn.
  destruct (String.eqb (path_name H env_path_str) (env_name self)).
  - rewrite bind_eq. cbn.
    destruct (fs_exists W h _); cbn; [ auto | ].
    apply IH.
  - apply IH.
Qed.


Arguments scan_envs : simpl never.
Arguments py_version_text : simpl never.

Lemma update_run H W self h :
  let u := _update_python_executable_for_conda_env H W self h in
  forallb registry_event (emitted u) = true /\
  (undetermined (emitted u) = true -> res u = Ok tt /\ self_after u = self) /\
  match res u with
  | Ok _ => True
  | Raised e => (e = KeyboardInterrupt /\ ~ no_interrupt W) \/ is_Exception e = true
  end.
Proof.
  unfold _update_python_executable_for_conda_env. rewrite bind_eq.
  match goal with
  | |- context [run_command W ?c ?cap ?chk ?sh ?cwd ?s ?hh] =>
      destruct (run_command_any W c cap chk sh cwd s hh) as [Hs Hev];
      assert (Hret : match res (run_command W c cap chk sh cwd s hh) with
                     | Ok _ => True
                     | Raised e => e = KeyboardInterrupt /\ ~ no_interrupt W
                     end) by apply run_command_list_returns;
      pose proof (executor_is_registry _ Hev) as Hreg;
      pose proof (executor_not_undetermined _ Hev) as Hnu;
      destruct (res (run_command W c cap chk sh cwd s hh))
        as [ [ [ ok out ] err ] | e ]
  end.
  - cbn. rewrite Hs. rewrite bind_eq.
    destruct ok.
    + destruct (json_loads H out) as [ [ | b | n | s | items | members ] | ];
        try (cbn; events; rewrite Hreg, Hnu; cbn; repeat split; auto;
             discriminate).
      destruct (iterate (dict_get members "envs" (JArray []))) as [ envs | ];
        [ | cbn; events; rewrite Hreg, Hnu; cbn; repeat split; auto;
            discriminate ].
      match goal with
      | |- context [scan_envs H W envs ?s ?hh] =>
          destruct (scan_envs_run H W envs s hh) as (Hsr & Hsu & Hsres);
          destruct (res (scan_envs H W envs s hh)) as [ [ | ] | e ]
      end.
      * cbn. events. rewrite Hreg, Hsr, Hnu, Hsu. cbn.
        repeat split; auto; discriminate.
      * cbn. events. rewrite Hreg, Hsr, Hsres. cbn. repeat split; auto.
      * cbn. events. rewrite Hreg, Hsr, Hnu, Hsu. cbn.
        repeat split; auto; discriminate.
    + cbn. events. rewrite Hreg. cbn. repeat split; auto.
  - cbn. rewrite Hreg, Hnu. repeat split; auto; discriminate.
Qed.

Arguments _update_python_executable_for_conda_env : simpl never.

(** How the creation loop can end: every candidate failed; or the
    candidates before one failed and that one was created; or the operator
    interrupted. *)
Lemma create_loop_run H W candidates : forall self h,
  let r := create_loop H W candidates self h in
  (undetermined (emitted r) = true -> res r = Ok true /\ self_after r = self) /\
  env_found (emitted r) = false /\
  ((create_attempts (emitted r) = map py_version_text candidates /\
    create_reports (emitted r) = map failed (map py_version_text candidates) /\
    res r = Ok false /\ self_after r = self)
   \/ (exists pre v post,
         candidates = pre ++ v :: post /\
         create_attempts (emitted r) = map py_version_text (pre ++ [v]) /\
         create_reports (emitted r)
         = map failed (map py_version_text pre) ++ [(py_version_text v, true)] /\
         (res r = Ok true \/ exists e, res r = Raised e /\ is_Exception e = true))
   \/ (exists e, res r = Raised e /\ ~ no_interrupt W)).
Proof.
  induction candidates as [ | minor candidates IH]; intros self h.
  - cbn. split; [ discriminate | ]. split; [ reflexivity | ]. left. auto.
  - cbn [create_loop]. rewrite bind_eq. cbn. rewrite bind_eq.
    match goal with
    | |- context [run_command W ?c ?cap ?chk ?sh ?cwd ?s ?hh] =>
        destruct (run_command_any W c cap chk sh cwd s hh) as [Hs Hev];
        assert (Hret : match res (run_command W c cap chk sh cwd s hh) with
                       | Ok _ => True
                       | Raised e => e = KeyboardInterrupt /\ ~ no_interrupt W
                       end) by apply run_command_list_returns;
        pose proof (executor_is_registry _ Hev) as Hreg;
        destruct (registry_no_create _ Hreg) as (Hc1 & Hc2 & Hc3);
        pose proof (executor_not_undetermined _ Hev) as Hnu;
        destruct (res (run_command W c cap chk sh cwd s hh))
          as [ [ [ ok out ] err ] | e ]
    end.
    + cbn. rewrite Hs. destruct ok.
      * (* created *)
        cbn. rewrite bind_eq.
        match goal with
        | |- context [_update_python_executable_for_conda_env H W ?s ?hh] =>
            destruct (update_run H W s hh) as (Hur & Huu & Hures);
            destruct (registry_no_create _ Hur) as (Hu1 & Hu2 & Hu3);
            destruct (res (_update_python_executable_for_conda_env H W s hh))
              as [ [] | e ]
        end.
        -- cbn. events. rewrite Hc1, Hc2, Hc3, Hu1, Hu2, Hu3, Hnu. cbn.
           split; [ intros Hu; destruct (Huu Hu) as [_ Hus]; auto | ].
           split; [ reflexivity | ].
           right. left. exists [], minor, candidates. cbn. auto.
        -- cbn. events. rewrite Hc1, Hc2, Hc3, Hu1, Hu2, Hu3, Hnu. cbn.
           split; [ intros Hu; destruct (Huu Hu) as [Hx _]; discriminate Hx | ].
           split; [ reflexivity | ].
           destruct Hures as [ [-> Hni] | Hex ].
           ++ right. right. exists KeyboardInterrupt. auto.
           ++ right. left. exists [], minor, candidates. cbn.
              repeat split; auto. right. exists e. auto.
      * (* failed: next candidate *)
        cbn. rewrite bind_eq.
        match goal with
        | |- context [when ?b ?m ?s ?hh] =>
            assert (Hw : res (when b m s hh) = Ok tt /\
                         self_after (when b m s hh) = s /\
                         create_reports (emitted (when b m s hh)) = [] /\
                         create_attempts (emitted (when b m s hh)) = [] /\
                         env_found (emitted (when b m s hh)) = false /\
                         undetermined (emitted (when b m s hh)) = false)
              by (destruct b; cbn; repeat split; reflexivity);
            destruct Hw as (Hw1 & Hw2 & Hw3 & Hw4 & Hw5 & Hw6); rewrite Hw1
        end.
        cbn. rewrite Hw2.
        match goal with
        | |- context [create_loop H W candidates ?s ?hh] =>
            destruct (IH s hh) as (IHu & IHf & IHr)
        end.
        cbn in IHu, IHf, IHr.
        events. rewrite Hc1, Hc2, Hc3, Hw3, Hw4, Hw5, Hw6, Hnu, IHf. cbn.
        split; [ exact IHu | ]. split; [ reflexivity | ].
        destruct IHr as [ (Ha & Hr & Hres & Hself) | [ (pre & v & post & Hcs & Ha & Hr & Hres) | (e & Hres & Hni) ] ].
        -- left. rewrite Ha, Hr. auto.
        -- right. left. exists (minor :: pre), v, post. rewrite Ha, Hr.
           split; [ cbn; now rewrite Hcs | ]. cbn. auto.
        -- right. right. exists e. auto.
    + cbn. events. rewrite Hnu, Hc3. cbn.
      split; [ discriminate | ]. split; [ reflexivity | ].
      right. right. exists e. destruct Hret as [_ Hni]. auto.
Qed.

Arguments create_loop : simpl never.
Arguments py_versions_to_try : simpl never.

Lemma create_new_run H W self h :
  let r := create_new_conda_environment H W self h in
  let candidates := py_versions_to_try H in
  (undetermined (emitted r) = true -> res r = Ok true /\ self_after r = self) /\
  env_found (emitted r) = false /\
  ((create_attempts (emitted r) = map py_version_text candidates /\
    create_reports (emitted r) = map failed (map py_version_text candidates) /\
    res r = Ok false)
   \/ (exists pre v post,
         candidates = pre ++ v :: post /\
         create_attempts (emitted r) = map py_version_text (pre ++ [v]) /\
         create_reports (emitted r)
         = map failed (map py_version_text pre) ++ [(py_version_text v, true)] /\
         (res r = Ok true \/ exists e, res r = Raised e /\ is_Exception e = true))
   \/ (exists e, res r = Raised e /\ ~ no_interrupt W)).
Proof.
  unfold create_new_conda_environment. rewrite bind_eq. cbn. rewrite bind_eq.
  destruct (create_loop_run H W (py_versions_to_try H) self h)
    as (Hu & Hf & Hr). cbn in Hu, Hf, Hr.
  destruct Hr as [ (Ha & Hr & Hres & Hself)
                 | [ (pre & v & post & Hcs & Ha & Hr & Hres) | (e & Hres & Hni) ] ].
  - rewrite Hres. cbn. events. rewrite Hf, Ha, Hr. cbn.
    split; [ | split; [ reflexivity | left; auto ] ].
    intros Hx. rewrite orb_false_r in Hx. destruct (Hu Hx) as [Hy _].
    rewrite Hres in Hy. discriminate Hy.
  - destruct Hres as [ Hres | (e & Hres & Hex) ]; rewrite Hres in *; cbn;
      events; rewrite ?Hf, ?Ha, ?Hr; cbn.
    + split; [ rewrite orb_false_r; exact Hu | ].
      split; [ reflexivity | ].
      right. left. exists pre, v, post. auto.
    + split; [ intros Hx; destruct (Hu Hx) as [Hy _]; discriminate Hy | ].
      split; [ reflexivity | ].
      right. left. exists pre, v, post. repeat split; auto.
      right. exists e. auto.
  - rewrite Hres in *. cbn. rewrite Hf.
    split; [ intros Hx; destruct (Hu Hx) as [Hy _]; discriminate Hy | ].
    split; [ reflexivity | ].
    right. right. exists e. auto.
Qed.

Arguments create_new_conda_environment : simpl never.

Lemma create_conda_environment_run H W self h :
  let r := create_conda_environment H W self h in
  let candidates := py_versions_to_try H in
  (undetermined (emitted r) = true -> res r = Ok true /\ self_after r = self) /\
  (env_found (emitted r) = false ->
   (create_attempts (emitted r) = map py_version_text candidates /\
    create_reports (emitted r) = map failed (map py_version_text candidates) /\
    res r = Ok false)
   \/ (exists pre v post,
         candidates = pre ++ v :: post /\
         create_attempts (emitted r) = map py_version_text (pre ++ [v]) /\
         create_reports (emitted r)
         = map failed (map py_version_text pre) ++ [(py_version_text v, true)] /\
         (res r = Ok true \/ exists e, res r = Raised e /\ is_Exception e = true))
   \/ (exists e, res r = Raised e /\ ~ no_interrupt W)).
Proof.
  unfold create_conda_environment. rewrite bind_eq. cbn. rewrite bind_eq.
  match goal with
  | |- context [run_command W ?c ?cap ?chk ?sh ?cwd ?s ?hh] =>
      destruct (run_command_any W c cap chk sh cwd s hh) as [Hs Hev];
      assert (Hret : match res (run_command W c cap chk sh cwd s hh) with
                     | Ok _ => True
                     | Raised e => e = KeyboardInterrupt /\ ~ no_interrupt W
                     end) by apply run_command_list_returns;
      pose proof (executor_is_registry _ Hev) as Hreg;
      destruct (registry_no_create _ Hreg) as (Hc1 & Hc2 & Hc3);
      pose proof (executor_not_undetermined _ Hev) as Hnu;
      destruct (res (run_command W c cap chk sh cwd s hh))
        as [ [ [ ok out ] err ] | e ]
  end.
  - cbn. rewrite Hs.
    destruct (ok && env_listed (env_name self) out).
    + (* an environment of that name exists *)
      rewrite bind_eq. cbn. rewrite bind_eq. cbn.
      split; [ | intros Hx; revert Hx; events; rewrite Hc3; cbn; discriminate ].
      destruct (user_input W _ conda_env_prompt) as [ answer | | ].
      * cbn.
        destruct (String.eqb (Py.lower answer) "u").
        -- rewrite bind_eq. cbn. rewrite bind_eq.
           match goal with
           | |- context [_update_python_executable_for_conda_env H W ?s ?hh] =>
               destruct (update_run H W s hh) as (Hur & Huu & Hures);
               destruct (res (_update_python_executable_for_conda_env H W s hh))
                 as [ [] | e ]
           end; cbn; events; rewrite Hnu; cbn;
             intros Hx; destruct (Huu Hx) as [Hy Hz]; auto; discriminate Hy.
        -- destruct (String.eqb (Py.lower answer) "s").
           ++ cbn. events. rewrite Hnu. cbn. discriminate.
           ++ rewrite bind_eq. cbn. rewrite bind_eq.
              match goal with
              | |- context [run_command W (CmdList ("conda" :: "env" :: "remove" :: ?l)) ?cap ?chk ?sh ?cwd ?s ?hh] =>
                  destruct (run_command_any W (CmdList ("conda" :: "env" :: "remove" :: l)) cap chk sh cwd s hh) as [Hs' Hev'];
                  pose proof (executor_not_undetermined _ Hev') as Hnu';
                  destruct (res (run_command W (CmdList ("conda" :: "env" :: "remove" :: l)) cap chk sh cwd s hh))
                    as [ [ [ ok' out' ] err' ] | e ]
              end.
              ** cbn. rewrite Hs'. destruct ok'; cbn.
                 --- match goal with
                     | |- context [create_new_conda_environment H W ?s ?hh] =>
                         destruct (create_new_run H W s hh) as (Hnu2 & _)
                     end.
                     cbn in Hnu2. events. rewrite Hnu, Hnu'. cbn. exact Hnu2.
                 --- events. rewrite Hnu, Hnu'. cbn. discriminate.
              ** cbn. events. rewrite Hnu, Hnu'. cbn. discriminate.
      * cbn. events. rewrite Hnu. cbn. discriminate.
      * cbn. events. rewrite Hnu. cbn. discriminate.
    + (* no environment of that name *)
      match goal with
      | |- context [create_new_conda_environment H W ?s ?hh] =>
          destruct (create_new_run H W s hh) as (Hnu2 & Hf2 & Hr2)
      end.
      cbn in Hnu2, Hf2, Hr2. events. rewrite Hnu, Hc1, Hc2. cbn.
      split; [ exact Hnu2 | intros _; exact Hr2 ].
  - cbn. events. rewrite Hnu. split; [ discriminate | ]. intros _.
    right. right. exists e. destruct Hret as [_ Hni]. auto.
Qed.

Arguments create_conda_environment : simpl never.








(* ------------------------------------------------------------------ *)
(** ** Joining with [list2cmdline] and splitting with [shlex.split]     *)
(* ------------------------------------------------------------------ *)

Lemma char_in_cons c d s :
  Py.char_in c (String d s) = Ascii.eqb c d || Py.char_in c s.
Proof. reflexivity. Qed.

Lemma plain_cons c s : plain (String c s) = plain_char c && plain s.
Proof. reflexivity. Qed.

Lemma list2cmdline_join args :
  Subprocess.list2cmdline args = Py.join " " (map l2c_piece args).
Proof.
  destruct args as [ | a args ]; [ reflexivity | ].
  rewrite list2cmdline_cons. unfold Py.join. revert a.
  induction args as [ | b args IH]; intros a.
  - apply append_nil_r.
  - cbn [l2c_rest map String.concat]. rewrite (IH b). reflexivity.
Qed.

(** An argument that needs quoting is put between double quotes. *)
Lemma l2c_piece_quoted arg :
  Subprocess.needquote arg = true -> exists body, l2c_piece arg = quoted_text body.
Proof.
  intros Hq. unfold l2c_piece, Subprocess.l2c_arg.
  change (Py.nonempty EmptyString) with false. cbv iota. rewrite Hq.
  rewrite l2c_chars_result.
  destruct (Subprocess.l2c_chars arg EmptyString EmptyString) as [x bs]. cbn.
  destruct (Py.nonempty bs).
  - exists (x +++ bs +++ bs). unfold quoted_text. cbn. now rewrite !append_assoc.
  - exists (x +++ bs). unfold quoted_text. cbn. now rewrite !append_assoc.
Qed.

Lemma plain_char_spec c :
  plain_char c = true ->
  Ascii.eqb c Py.backslash = false /\ Ascii.eqb c Py.dquote = false /\
  Ascii.eqb c Py.squote = false /\ Ascii.eqb c Py.cr = false /\
  Ascii.eqb c Py.lf = false.
Proof.
  unfold plain_char. intros Hp. apply negb_true_iff in Hp.
  repeat (apply orb_false_iff in Hp as [Hp ?]). auto.
Qed.

Lemma l2c_chars_plain arg : forall result,
  plain arg = true ->
  Subprocess.l2c_chars arg result EmptyString = (result +++ arg, EmptyString).
Proof.
  induction arg as [ | c arg IH]; intros result Hp; cbn.
  - now rewrite append_nil_r.
  - rewrite plain_cons in Hp. apply andb_true_iff in Hp as [Hc Hp].
    destruct (plain_char_spec c Hc) as (Hb & Hd & _).
    rewrite Hb, Hd, IH by assumption. cbn. now rewrite append_assoc.
Qed.

Lemma l2c_piece_plain arg :
  plain arg = true ->
  l2c_piece arg = if Subprocess.needquote arg then quoted_text arg else arg.
Proof.
  intros Hp. unfold l2c_piece, Subprocess.l2c_arg.
  change (Py.nonempty EmptyString) with false. cbv iota.
  destruct (Subprocess.needquote arg); rewrite l2c_chars_plain by assumption;
    reflexivity.
Qed.

(** The characters of a word: no white space, quote or escape. *)
Lemma word_char c :
  plain_char c = true -> Ascii.eqb c Py.space = false ->
  Ascii.eqb c Py.tab = false ->
  Shlex.is_whitespace c = false /\ Shlex.is_escape c = false /\
  Shlex.is_quote c = false.
Proof.
  intros Hc Hs Ht. destruct (plain_char_spec c Hc) as (Hb & Hd & Hq & Hr & Hl).
  unfold Shlex.is_whitespace, Shlex.is_escape, Shlex.is_quote.
  now rewrite Hs, Ht, Hb, Hd, Hq, Hr, Hl.
Qed.

Lemma lex_word w : forall token quoted rest,
  plain w = true -> Py.char_in Py.space w = false ->
  Py.char_in Py.tab w = false ->
  Shlex.lex Shlex.StWord token quoted (w +++ rest)
  = Shlex.lex Shlex.StWord (token +++ w) quoted rest.
Proof.
  induction w as [ | c w IH]; intros token quoted rest Hp Hs Ht; cbn.
  - now rewrite append_nil_r.
  - rewrite plain_cons in Hp. rewrite char_in_cons in Hs, Ht.
    apply andb_true_iff in Hp as [Hc Hp].
    apply orb_false_iff in Hs as [Hs1 Hs]. apply orb_false_iff in Ht as [Ht1 Ht].
    rewrite Ascii.eqb_sym in Hs1. rewrite Ascii.eqb_sym in Ht1.
    destruct (word_char c Hc Hs1 Ht1) as (Hw & He & Hq).
    rewrite Hw, Hq, He, IH by assumption.
    now rewrite append_assoc.
Qed.

Lemma lex_in_quotes body : forall token quoted rest,
  plain body = true ->
  Shlex.lex (Shlex.StQuote Py.dquote) token quoted
    (body +++ String Py.dquote rest)
  = Shlex.lex Shlex.StWord (token +++ body) true rest.
Proof.
  induction body as [ | c body IH]; intros token quoted rest Hp; cbn.
  - now rewrite append_nil_r.
  - rewrite plain_cons in Hp. apply andb_true_iff in Hp as [Hc Hp].
    destruct (plain_char_spec c Hc) as (Hb & Hd & _).
    unfold Shlex.is_escape. rewrite Hd, Hb. cbn [andb].
    rewrite IH by assumption. now rewrite append_assoc.
Qed.

(** The lexer reads the rendering of a plain argument back as that
    argument. *)
Lemma lex_piece arg rest :
  plain arg = true ->
  Shlex.lex Shlex.StWhite EmptyString false (l2c_piece arg +++ rest)
  = Shlex.lex Shlex.StWord arg (Subprocess.needquote arg) rest.
Proof.
  intros Hp. rewrite (l2c_piece_plain arg Hp).
  destruct (Subprocess.needquote arg) eqn:Hq.
  - unfold quoted_text. cbn. rewrite append_assoc. cbn.
    now rewrite lex_in_quotes.
  - unfold Subprocess.needquote in Hq.
    apply orb_false_iff in Hq as [Hq Hne].
    apply orb_false_iff in Hq as [Hs Ht].
    destruct arg as [ | c w ]; [ discriminate Hne | ].
    rewrite plain_cons in Hp. rewrite char_in_cons in Hs, Ht.
    apply andb_true_iff in Hp as [Hc Hp].
    apply orb_false_iff in Hs as [Hs1 Hs]. apply orb_false_iff in Ht as [Ht1 Ht].
    rewrite Ascii.eqb_sym in Hs1. rewrite Ascii.eqb_sym in Ht1.
    destruct (word_char c Hc Hs1 Ht1) as (Hw & He & Hqq).
    cbn [String.append Shlex.lex]. rewrite Hw, He, Hqq.
    now rewrite lex_word.
Qed.

Lemma needquote_or_nonempty arg :
  Py.nonempty arg || Subprocess.needquote arg = true.
Proof. destruct arg; reflexivity. Qed.

Lemma lex_pieces args : forall arg,
  plain arg = true -> forallb plain args = true ->
  Shlex.lex Shlex.StWhite EmptyString false (l2c_piece arg +++ l2c_rest args)
  = Some (arg :: args).
Proof.
  induction args as [ | b args IH]; intros arg Hp Hps.
  - rewrite lex_piece by assumption. cbn. unfold Shlex.emit.
    pose proof (needquote_or_nonempty arg) as Hn.
    destruct (Subprocess.needquote arg); destruct (Py.nonempty arg);
      try discriminate Hn; reflexivity.
  - cbn in Hps. apply andb_true_iff in Hps as [Hb Hps].
    rewrite lex_piece by assumption. cbn [l2c_rest String.append Shlex.lex].
    change (Shlex.is_whitespace " ") with true. cbv iota.
    rewrite (needquote_or_nonempty arg). unfold Shlex.emit.
    pose proof (needquote_or_nonempty arg) as Hn.
    rewrite (IH b Hb Hps).
    destruct (Subprocess.needquote arg); destruct (Py.nonempty arg);
      try discriminate Hn; reflexivity.
Qed.

(** C4, as the specification has it, fails: the interpreter path has no
    space, is left unquoted, and the lexer drops its backslashes. *)
Lemma backslashes_are_lost_in_round_trip :
  Py.char_in Py.space "my pkg" = true /\
  Subprocess.list2cmdline install_local_package
  = "C:\msys64\mingw64\bin\python.exe -m pip install "
    +++ quoted_text "my pkg" /\
  Shlex.split (Subprocess.list2cmdline install_local_package)
  = Some ["C:msys64mingw64binpython.exe"; "-m"; "pip"; "install"; "my pkg"] /\
  Shlex.split (Subprocess.list2cmdline install_local_package)
  <> Some install_local_package.
Proof.
  repeat split; try reflexivity.
  vm_compute. discriminate.
Qed.

(** C4, amended: [list2cmdline] joins the renderings of the arguments
    with spaces and puts every argument that contains a space between
    double quotes; when no argument contains a backslash, a quote, a
    carriage return or a line feed, [shlex.split] gives the arguments
    back. *)
Theorem list2cmdline_round_trip args :
  Subprocess.list2cmdline args = Py.join " " (map l2c_piece args) /\
  (forall arg, In arg args -> Py.char_in Py.space arg = true ->
               exists body, l2c_piece arg = quoted_text body) /\
  (forallb plain args = true ->
   Shlex.split (Subprocess.list2cmdline args) = Some args).
Proof.
  split; [ apply list2cmdline_join | ]. split.
  - intros arg _ Hs. apply l2c_piece_quoted.
    unfold Subprocess.needquote. now rewrite Hs.
  - intros Hp. destruct args as [ | a args ]; [ reflexivity | ].
    cbn in Hp. apply andb_true_iff in Hp as [Ha Hp].
    rewrite list2cmdline_cons. now apply lex_pieces.
Qed.

Lemma list2cmdline_round_trip_witness :
  Shlex.split (Subprocess.list2cmdline
                 ["conda"; "run"; "-n"; "my env"; "python"; "-m"; "pip";
                  "install"; "-r"; "/home/me/My Repo/requirements.txt"])
  = Some ["conda"; "run"; "-n"; "my env"; "python"; "-m"; "pip";
          "install"; "-r"; "/home/me/My Repo/requirements.txt"]
  /\ exists body, l2c_piece "my env" = quoted_text body.
Proof.
  split.
  - apply (proj2 (proj2 (list2cmdline_round_trip
                           ["conda"; "run"; "-n"; "my env"; "python"; "-m"; "pip";
                            "install"; "-r"; "/home/me/My Repo/requirements.txt"]))).
    reflexivity.
  - apply (proj1 (proj2 (list2cmdline_round_trip
                           ["conda"; "run"; "-n"; "my env"; "python"; "-m"; "pip";
                            "install"; "-r"; "/home/me/My Repo/requirements.txt"]))
             "my env").
    + cbn. auto.
    + reflexivity.
Defined.


(* ================================================================== *)
(** * Further properties                                                *)
(* ================================================================== *)

(* ------------------------------------------------------------------ *)
(** ** The command executor                                             *)
(* ------------------------------------------------------------------ *)

(** X1: [run_command] leaves the setup object as it was and launches at
    most one process: exactly one, with the shell flag and the capture
    setting it was given, in the working directory it was given or, when
    that is missing or empty, in the original directory, for a command it
    could prepare; none for a command of another type or a text that cannot
    be tokenized. *)
Theorem run_command_launches_at_most_once
    W cmd capture_output check shell cwd self h :
  let r := run_command W cmd capture_output check shell cwd self h in
  self_after r = self /\
  launches (emitted r)
  = match prepare_command cmd shell with
    | Ok (Some (actual, _)) =>
        [{| pc_args := actual;
            pc_shell := shell;
            pc_cwd := match cwd with
                      | Some c => if Py.nonempty c then c else original_dir self
                      | None => original_dir self
                      end;
            pc_capture := capture_output |}]
    | _ => []
    end.
Proof.
  intros r. subst r.
  destruct (prepare_command cmd shell) as [ [ [actual log] | ] | e ] eqn:Hp.
  - destruct (run_command_events W cmd capture_output check shell cwd self h
                actual log Hp) as (Hs & Hl & _).
    split; [ exact Hs | ]. rewrite Hl. unfold call_of, cwd_given, or_empty.
    destruct cwd as [ c | ]; reflexivity.
  - unfold run_command. cbn. rewrite Hp. cbn. auto.
  - unfold run_command. cbn. rewrite Hp. cbn. auto.
Qed.




(* ------------------------------------------------------------------ *)
(** ** Quoting for the shell and reading it back                        *)
(* ------------------------------------------------------------------ *)

Lemma safe_char c :
  Shlex.is_safe c = true ->
  Shlex.is_whitespace c = false /\ Shlex.is_escape c = false /\
  Shlex.is_quote c = false.
Proof.
  destruct c as [b0 b1 b2 b3 b4 b5 b6 b7].
  destruct b0, b1, b2, b3, b4, b5, b6, b7; vm_compute; intros Hs;
    (discriminate Hs || auto).
Qed.

Lemma lex_safe w : forall token quoted rest,
  Shlex.all_safe w = true ->
  Shlex.lex Shlex.StWord token quoted (w +++ rest)
  = Shlex.lex Shlex.StWord (token +++ w) quoted rest.
Proof.
  induction w as [ | c w IH]; intros token quoted rest Hs; cbn.
  - now rewrite append_nil_r.
  - cbn in Hs. apply andb_true_iff in Hs as [Hc Hs].
    destruct (safe_char c Hc) as (Hw & He & Hq).
    rewrite Hw, Hq, He, IH by assumption.
    now rewrite append_assoc.
Qed.

(** Between single quotes every character stands for itself, and a
    single quote is written by closing the quotes, quoting it between
    double quotes and opening them again. *)
Lemma lex_single_quoted s : forall token quoted rest,
  Shlex.lex (Shlex.StQuote Py.squote) token quoted
    (Py.replace_char Py.squote
       (String Py.squote (String Py.dquote (String Py.squote
          (String Py.dquote (Py.chr Py.squote))))) s
     +++ String Py.squote rest)
  = Shlex.lex Shlex.StWord (token +++ s) true rest.
Proof.
  induction s as [ | c s IH]; intros token quoted rest.
  - cbn. now rewrite append_nil_r.
  - cbn [Py.replace_char].
    destruct (Ascii.eqb c Py.squote) eqn:Hc.
    + apply Ascii.eqb_eq in Hc. subst c.
      cbn -[Py.replace_char]. rewrite IH.
      now rewrite append_assoc.
    + cbn -[Py.replace_char]. rewrite Hc.
      unfold Shlex.is_escapedquote.
      change (Ascii.eqb Py.squote Py.dquote) with false.
      rewrite andb_false_r. rewrite IH. now rewrite append_assoc.
Qed.

(** [shlex.quote] followed by the lexer gives the text back as one
    word. *)
Lemma lex_quote s rest :
  Shlex.lex Shlex.StWhite EmptyString false (Shlex.quote s +++ rest)
  = Shlex.lex Shlex.StWord s (negb (Py.nonempty s && Shlex.all_safe s)) rest.
Proof.
  unfold Shlex.quote.
  destruct s as [ | c s ]; [ reflexivity | ].
  cbn [Py.nonempty negb andb].
  destruct (Shlex.all_safe (String c s)) eqn:Hs.
  - cbn in Hs. apply andb_true_iff in Hs as [Hc Hs].
    destruct (safe_char c Hc) as (Hw & He & Hq).
    cbn [String.append Shlex.lex]. rewrite Hw, He, Hq.
    now rewrite lex_safe.
  - cbn [String.append Shlex.lex negb].
    change (Shlex.is_whitespace Py.squote) with false.
    change (Shlex.is_escape Py.squote) with false.
    change (Shlex.is_quote Py.squote) with true. cbv iota.
    rewrite append_assoc.
    change (Py.chr Py.squote +++ rest) with (String Py.squote rest).
    now rewrite lex_single_quoted.
Qed.

Lemma quote_emitted s rest :
  Shlex.emit s (negb (Py.nonempty s && Shlex.all_safe s)) rest
  = option_map (cons s) rest.
Proof.
  destruct s; [ reflexivity | ].
  unfold Shlex.emit. cbn [Py.nonempty negb]. now rewrite andb_false_r.
Qed.

Lemma quote_word s :
  Py.nonempty s || negb (Py.nonempty s && Shlex.all_safe s) = true.
Proof. destruct s; reflexivity. Qed.

Lemma option_map_app {A} (a : A) (l : list A) (o : option (list A)) :
  option_map (cons a) (option_map (app l) o) = option_map (app (a :: l)) o.
Proof. destruct o; reflexivity. Qed.

(** Quoted words joined by single spaces, and a space after them. *)
Lemma lex_quoted_words ws : forall rest,
  Shlex.lex Shlex.StWhite EmptyString false
    (Py.join " " (map Shlex.quote ws) +++ String Py.space rest)
  = option_map (app ws) (Shlex.lex Shlex.StWhite EmptyString false rest).
Proof.
  induction ws as [ | a ws IH]; intros rest.
  - cbn. now destruct (Shlex.lex _ _ _ rest).
  - assert (Hstep : forall tail,
      Shlex.lex Shlex.StWhite EmptyString false
        (Shlex.quote a +++ String Py.space tail)
      = option_map (cons a) (Shlex.lex Shlex.StWhite EmptyString false tail)).
    { intros tail. rewrite lex_quote. cbn [Shlex.lex].
      change (Shlex.is_whitespace Py.space) with true. cbv iota.
      rewrite quote_word. apply quote_emitted. }
    destruct ws as [ | b ws ].
    + cbn [map Py.join String.concat]. rewrite Hstep.
      now destruct (Shlex.lex _ _ _ rest).
    + change (Py.join " " (map Shlex.quote (a :: b :: ws)))
        with (Shlex.quote a +++ " " +++ Py.join " " (map Shlex.quote (b :: ws))).
      rewrite append_assoc.
      change (" " +++ Py.join " " (map Shlex.quote (b :: ws)))
        with (String Py.space (Py.join " " (map Shlex.quote (b :: ws)))).
      change (String Py.space (Py.join " " (map Shlex.quote (b :: ws)))
              +++ String Py.space rest)
        with (String Py.space (Py.join " " (map Shlex.quote (b :: ws))
                               +++ String Py.space rest)).
      rewrite Hstep, IH. apply option_map_app.
Qed.

(** Between double quotes. *)
Lemma lex_double_quoted s : forall token quoted rest,
  dquotable s = true ->
  Shlex.lex (Shlex.StQuote Py.dquote) token quoted
    (s +++ String Py.dquote rest)
  = Shlex.lex Shlex.StWord (token +++ s) true rest.
Proof.
  induction s as [ | c s IH]; intros token quoted rest Hd.
  - cbn. now rewrite append_nil_r.
  - cbn [dquotable] in Hd.
    apply andb_true_iff in Hd as [Hd Hs].
    apply andb_true_iff in Hd as [Hq Hb].
    apply negb_true_iff in Hq.
    cbn [String.append Shlex.lex]. rewrite Hq.
    unfold Shlex.is_escape, Shlex.is_escapedquote.
    change (Ascii.eqb Py.dquote Py.dquote) with true. rewrite andb_true_r.
    destruct (Ascii.eqb c Py.backslash) eqn:Hc.
    + apply Ascii.eqb_eq in Hc. subst c.
      destruct s as [ | d s ]; [ discriminate Hb | ].
      apply andb_true_iff in Hb as [Hdb Hdq].
      replace (token +++ String Py.backslash (String d s))
        with ((token +++ Py.chr Py.backslash) +++ String d s)
        by now rewrite append_assoc.
      rewrite <- (IH (token +++ Py.chr Py.backslash) true rest Hs).
      cbn [String.append Shlex.lex].
      rewrite Hdb, Hdq. cbn [andb].
      apply negb_true_iff in Hdb, Hdq. rewrite Hdq.
      unfold Shlex.is_escape, Shlex.is_escapedquote. rewrite Hdb.
      cbn [andb]. now rewrite !append_assoc.
    + rewrite (IH _ true rest Hs). now rewrite append_assoc.
Qed.

(** X3: on the MSYS path the installation command is one text for the
    shell; when the interpreter path can stand between double quotes, that
    text reads back, by the POSIX rules [run_command] itself applies to a
    text, as the interpreter, [-m pip install], the flags and the package,
    whatever characters the flags and the package hold. *)
Theorem msys_install_text_reads_back self base cmd_flags package_spec h :
  _get_pip_executable_cmd_list self = CmdStr base ->
  dquotable (python_executable self) = true ->
  exists text,
    res (pip_install_command (CmdStr base) cmd_flags package_spec self h)
    = Ok (CmdStr text, true) /\
    Shlex.split text
    = Some ([python_executable self; "-m"; "pip"; "install"]
            ++ cmd_flags ++ [package_spec]).
Proof.
  intros Hb Hd. unfold _get_pip_executable_cmd_list in Hb.
  destruct (use_conda self); [ discriminate Hb | ].
  destruct (String.eqb (system self) "windows" && is_msys_python_base self);
    [ | discriminate Hb ].
  injection Hb as <-.
  eexists. split; [ reflexivity | ].
  unfold Shlex.split.
  cbn [String.append Shlex.lex].
  change (Shlex.is_whitespace Py.dquote) with false.
  change (Shlex.is_escape Py.dquote) with false.
  change (Shlex.is_quote Py.dquote) with true. cbv iota.
  rewrite !append_assoc. cbn [Py.chr String.append].
  rewrite lex_double_quoted by assumption.
  cbn -[Py.join Shlex.quote].
  rewrite lex_quoted_words.
  rewrite <- (append_nil_r (Shlex.quote package_spec)), lex_quote.
  cbn [Shlex.lex]. rewrite quote_emitted. cbn.
  now rewrite orb_true_r.
Qed.

Lemma msys_install_text_reads_back_witness :
  exists text,
    res (pip_install_command
           (CmdStr (quoted_text (python_executable Sample.msys_setup)
                    +++ " -m pip"))
           default_install_flags "it's a package" Sample.msys_setup [])
    = Ok (CmdStr text, true) /\
    Shlex.split text
    = Some ([python_executable Sample.msys_setup; "-m"; "pip"; "install"]
            ++ default_install_flags ++ ["it's a package"]).
Proof.
  apply (msys_install_text_reads_back Sample.msys_setup
           (quoted_text (python_executable Sample.msys_setup) +++ " -m pip")
           default_install_flags "it's a package" []);
    reflexivity.
Defined.


(* ------------------------------------------------------------------ *)
(** ** The stages of the pipeline that only warn                        *)
(* ------------------------------------------------------------------ *)

Lemma run_command_returns W cmd capture_output check shell cwd self h actual log :
  no_interrupt W ->
  prepare_command cmd shell = Ok (Some (actual, log)) ->
  (forall filename, failed_file_reported filename actual log <> None) ->
  exists v, res (run_command W cmd capture_output check shell cwd self h) = Ok v.
Proof.
  intros Hni Hp Hrep.
  rewrite (run_command_prepared W cmd capture_output check shell cwd self h
             actual log Hp).
  destruct (popen W _ _) as [rc out err | filename text | text | ] eqn:Ho.
  - eauto.
  - destruct (failed_file_reported filename actual log) eqn:Hf; [ eauto | ].
    now apply Hrep in Hf.
  - eauto.
  - now apply Hni in Ho.
Qed.

Lemma upgrade_command_prepared self pkg :
  exists c sh log,
    (forall h, upgrade_command (_get_pip_executable_cmd_list self) pkg self h
               = Run (Ok (c, sh)) self []) /\
    prepare_command c sh = Ok (Some (c, log)) /\
    forall filename, failed_file_reported filename c log <> None.
Proof.
  unfold _get_pip_executable_cmd_list.
  destruct (use_conda self).
  - cbn -[Subprocess.list2cmdline]. eexists _, _, _.
    split; [ intros h; reflexivity | ]. split; [ reflexivity | ].
    intros filename. rewrite list2cmdline_cons.
    apply reported_when_word. reflexivity.
  - destruct (String.eqb (system self) "windows" && is_msys_python_base self).
    + cbn. eexists _, _, _.
      split; [ intros h; reflexivity | ]. split; [ reflexivity | ].
      intros filename. apply reported_when_word. reflexivity.
    + cbn -[Subprocess.list2cmdline].
      destruct (String.eqb (python_executable self) "conda") eqn:E.
      * eexists _, _, _.
        split; [ intros h; reflexivity | ]. split; [ reflexivity | ].
        intros filename. rewrite list2cmdline_cons.
        apply String.eqb_eq in E. rewrite E.
        apply reported_when_word. reflexivity.
      * eexists _, _, _.
        split; [ intros h; reflexivity | ]. split; [ reflexivity | ].
        intros filename. apply reported_when_list.
Qed.

Lemma upgrade_loop_cons W base pkg pkgs all_ok :
  upgrade_loop W base (pkg :: pkgs) all_ok
  = (cu <- upgrade_command base pkg ;;
     print (MUpgrading pkg (snd cu)) ;;;
     r <- run_command W (fst cu) true true (snd cu) None ;;
     if negb (fst (fst r)) then
       print (MUpgradeFailed pkg) ;;; upgrade_loop W base pkgs false
     else upgrade_loop W base pkgs all_ok).
Proof. reflexivity. Qed.

Lemma upgrade_loop_run W pkgs :
  no_interrupt W ->
  forall all_ok self h,
    let r := upgrade_loop W (_get_pip_executable_cmd_list self) pkgs all_ok
               self h in
    (exists b, res r = Ok b) /\ self_after r = self /\
    launches (emitted r) = flat_map (upgrade_call self) pkgs.
Proof.
  intros Hni.
  induction pkgs as [ | pkg pkgs IH]; intros all_ok self h.
  - cbn. split; [ eexists; reflexivity | split; reflexivity ].
  - rewrite upgrade_loop_cons. cbv zeta.
    destruct (upgrade_command_prepared self pkg) as (c & sh & log & Hc & Hp & Hrep).
    rewrite bind_eq, (Hc h). cbn. rewrite bind_eq.
    set (h' := Print (MUpgrading pkg sh) :: h).
    destruct (run_command_events W c true true sh None self h' c log Hp)
      as (Hs & Hl & _).
    destruct (run_command_returns W c true true sh None self h' c log Hni Hp Hrep)
      as (v & Hv).
    rewrite Hv. cbn. rewrite Hs.
    unfold upgrade_call at 1. rewrite (Hc []). cbn [res].
    destruct (negb (fst (fst v))); cbn.
    + match goal with
      | |- context [upgrade_loop W _ pkgs false self ?hh] =>
          destruct (IH false self hh) as (Hb & Hs' & Hl')
      end.
      events. rewrite Hl, Hl'. auto.
    + match goal with
      | |- context [upgrade_loop W _ pkgs all_ok self ?hh] =>
          destruct (IH all_ok self hh) as (Hb & Hs' & Hl')
      end.
      events. rewrite Hl, Hl'. auto.
Qed.

(** X4: the tooling upgrade only warns.  Unless the operator interrupts,
    it launches the upgrade of [pip], [setuptools] and [wheel], in this order
    and each whatever the one before gave, leaves the setup object as it
    was, and returns. *)
Theorem tooling_upgrade_only_warns W self h :
  no_interrupt W ->
  let r := upgrade_tooling W self h in
  res r = Ok tt /\ self_after r = self /\
  launches (emitted r)
  = flat_map (upgrade_call self) ["pip"; "setuptools"; "wheel"].
Proof.
  intros Hni r. subst r. unfold upgrade_tooling.
  rewrite bind_eq. cbn. rewrite bind_eq.
  destruct (upgrade_loop_run W ["pip"; "setuptools"; "wheel"] Hni true self
              (Print MUpgradeHeader :: h)) as ((b & Hb) & Hs & Hl).
  rewrite Hb. cbn. rewrite Hs.
  destruct b; cbn; events; rewrite Hl; repeat split; cbn;
    now rewrite app_nil_r.
Qed.

Lemma tooling_upgrade_only_warns_witness :
  no_interrupt (Sample.world_exiting 1 "") /\
  let r := upgrade_tooling (Sample.world_exiting 1 "") Sample.venv_setup [] in
  res r = Ok tt /\ self_after r = Sample.venv_setup /\
  launches (emitted r)
  = flat_map (upgrade_call Sample.venv_setup) ["pip"; "setuptools"; "wheel"].
Proof.
  split.
  - intros h call. discriminate.
  - apply (tooling_upgrade_only_warns (Sample.world_exiting 1 "")
             Sample.venv_setup []).
    intros h call. discriminate.
Defined.


Arguments upgrade_call : simpl never.

Lemma install_each_cons W spec specs :
  install_each_until_failure W (spec :: specs)
  = (self <- get_self ;;
     ok <- _install_package_with_pip W spec (Some (bagel_repo_dir self)) None ;;
     if negb ok then ret false else install_each_until_failure W specs).
Proof. reflexivity. Qed.

Lemma install_each_run W specs :
  no_interrupt W ->
  forall self h,
    let r := install_each_until_failure W specs self h in
    self_after r = self /\
    exists done rest,
      specs = done ++ rest /\
      install_reports (emitted r)
      = map installed done ++ map not_installed (firstn 1 rest) /\
      launches (emitted r)
      = flat_map (install_call self (Some (bagel_repo_dir self)))
          (done ++ firstn 1 rest) /\
      res r = Ok (match rest with [] => true | _ => false end).
Proof.
  intros Hni.
  induction specs as [ | spec specs IH]; intros self h.
  - cbn. split; [ reflexivity | ]. exists [], []. auto.
  - rewrite install_each_cons. rewrite bind_eq. cbn. rewrite bind_eq.
    pose proof (install_package_run W spec (Some (bagel_repo_dir self)) self h)
      as (Hs & Hl & _ & Hr).
    destruct (res (_install_package_with_pip W spec _ None self h))
      as [ [ | ] | e ].
    + cbn. rewrite Hs.
      match goal with
      | |- context [install_each_until_failure W specs self ?hh] =>
          destruct (IH self hh) as (Hs' & done & rest & Hd & Hrep & Hl' & Hres)
      end.
      split; [ exact Hs' | ]. exists (spec :: done), rest.
      events. rewrite Hr, Hrep, Hl, Hl', Hres, Hd. cbn. auto.
    + cbn. rewrite Hs. split; [ reflexivity | ].
      exists [], (spec :: specs). events. rewrite Hr, Hl. cbn.
      auto.
    + destruct Hr as [_ Hx]. contradiction.
Qed.



(** X6: pinning the array library only warns.  Unless the operator
    interrupts, the stage launches the one installation of the version
    chosen for the running interpreter, reports it as installed or failed,
    and returns either way, leaving the setup object as it was. *)
Theorem array_library_pin_only_warns H W self h :
  no_interrupt W ->
  let r := pin_numpy H W self h in
  res r = Ok tt /\ self_after r = self /\
  launches (emitted r)
  = install_call self (Some (bagel_repo_dir self)) (numpy_spec_to_try H) /\
  exists b, install_reports (emitted r) = [(numpy_spec_to_try H, b)].
Proof.
  intros Hni r. subst r. unfold pin_numpy.
  rewrite bind_eq. cbn. rewrite bind_eq.
  pose proof (install_package_run W (numpy_spec_to_try H)
                (Some (bagel_repo_dir self)) self (Print MNumpyHeader :: h))
    as (Hs & Hl & _ & Hr).
  destruct (res (_install_package_with_pip W _ _ None self _))
    as [ [ | ] | e ].
  - cbn. rewrite Hs. events. rewrite Hl, Hr. eauto.
  - cbn. rewrite Hs. events. rewrite Hl, Hr. eauto.
  - destruct Hr as [_ Hx]. contradiction.
Qed.

Lemma array_library_pin_only_warns_witness :
  no_interrupt (Sample.world_exiting 1 "") /\
  let r := pin_numpy (Sample.linux_host 11) (Sample.world_exiting 1 "")
             Sample.venv_setup [] in
  res r = Ok tt /\ self_after r = Sample.venv_setup /\
  launches (emitted r)
  = install_call Sample.venv_setup (Some (bagel_repo_dir Sample.venv_setup))
      (numpy_spec_to_try (Sample.linux_host 11)) /\
  exists b,
    install_reports (emitted r)
    = [(numpy_spec_to_try (Sample.linux_host 11), b)].
Proof.
  split.
  - intros h call. discriminate.
  - apply (array_library_pin_only_warns (Sample.linux_host 11)
             (Sample.world_exiting 1 "") Sample.venv_setup []).
    intros h call. discriminate.
Defined.


(* ------------------------------------------------------------------ *)
(** ** The Gradio helper                                                *)
(* ------------------------------------------------------------------ *)

(** X7: with the interpreter of an MSYS2 or MinGW distribution on
    Windows the Gradio helper raises [UnboundLocalError] before it launches
    anything: [check_cmd_list_parts] is read (line 535) although only the
    branch for an argument list binds it. *)
Theorem install_gradio_fails_on_msys W self h :
  use_conda self = false ->
  system self = "windows" ->
  mentions_toolchain (python_executable self) = true ->
  let r := install_gradio W self h in
  res r = Raised (UnboundLocalError "check_cmd_list_parts") /\
  launches (emitted r) = [] /\
  self_after r = self.
Proof.
  intros Hc Hw Hm r. subst r.
  assert (Hbase : exists base, _get_pip_executable_cmd_list self = CmdStr base).
  { unfold _get_pip_executable_cmd_list, is_msys_python_base.
    rewrite Hc, Hw, (mentions_toolchain_nonempty _ Hm).
    unfold mentions_toolchain in Hm. rewrite Hm. cbn. eauto. }
  destruct Hbase as (base & Hbase).
  unfold install_gradio. rewrite bind_eq. cbn. rewrite Hbase. cbn. auto.
Qed.

Lemma install_gradio_fails_on_msys_witness :
  let r := install_gradio (Sample.world_exiting 0 "ok") Sample.msys_setup [] in
  res r = Raised (UnboundLocalError "check_cmd_list_parts") /\
  launches (emitted r) = [] /\
  self_after r = Sample.msys_setup.
Proof.
  apply (install_gradio_fails_on_msys (Sample.world_exiting 0 "ok")
           Sample.msys_setup []); reflexivity.
Defined.

(** X8: the Gradio helper asks [pip show gradio] without strict
    checking, so the return code of that process does not count.  With
    Conda or an interpreter outside MSYS2, when processes start and end the
    helper launches this one process, attempts no installation and says
    that Gradio is installed, whatever the return codes are. *)
Theorem install_gradio_trusts_any_exit W self h :
  always_exits W ->
  (forall base, _get_pip_executable_cmd_list self <> CmdStr base) ->
  let r := install_gradio W self h in
  res r = Ok true /\
  length (launches (emitted r)) = 1 /\
  install_reports (emitted r) = [].
Proof.
  intros Hex Hlist r. subst r.
  assert (Hstep : forall c sh log hh,
             prepare_command c sh = Ok (Some (c, log)) ->
             let x := run_command W c true false sh None self hh in
             (exists out err, res x = Ok (true, out, err)) /\
             self_after x = self /\ length (launches (emitted x)) = 1 /\
             install_reports (emitted x) = []).
  { intros c sh log hh Hp x. subst x.
    destruct (run_command_events W c true false sh None self hh c log Hp)
      as (Hs & Hl & Hev).
    rewrite (run_command_prepared W c true false sh None self hh c log Hp).
    destruct (Hex (seen_at_launch log None self hh)
                (call_of c true sh None self)) as (rc & out & err & Ho).
    rewrite Ho, Hl, Hs, (executor_no_reports _ Hev). cbn.
    split; [ eexists _, _; reflexivity | auto ]. }
  unfold install_gradio. rewrite bind_eq. cbn.
  revert Hlist. unfold _get_pip_executable_cmd_list.
  destruct (use_conda self).
  - intros _. cbn -[Subprocess.list2cmdline]. rewrite bind_eq.
    match goal with
    | |- context [run_command W ?c true false ?sh None self ?hh] =>
        destruct (Hstep c sh _ hh eq_refl) as ((out & err & Hr) & Hs & Hl & Hrep)
    end.
    rewrite Hr. cbn -[Subprocess.list2cmdline].
    repeat (autorewrite with events; cbn -[Subprocess.list2cmdline]).
    rewrite Hrep, Hl. auto.
  - destruct (String.eqb (system self) "windows" && is_msys_python_base self).
    + intros Hlist. now destruct (Hlist _ eq_refl).
    + intros _. cbn -[Subprocess.list2cmdline].
      destruct (String.eqb (python_executable self) "conda");
        cbn -[Subprocess.list2cmdline]; rewrite bind_eq;
        match goal with
        | |- context [run_command W ?c true false ?sh None self ?hh] =>
            destruct (Hstep c sh _ hh eq_refl)
              as ((out & err & Hr) & Hs & Hl & Hrep)
        end;
        rewrite Hr; cbn -[Subprocess.list2cmdline];
        repeat (autorewrite with events; cbn -[Subprocess.list2cmdline]);
        rewrite Hrep, Hl; auto.
Qed.

Lemma install_gradio_trusts_any_exit_witness :
  always_exits (Sample.world_exiting 1 "WARNING: Package(s) not found: gradio") /\
  let r := install_gradio
             (Sample.world_exiting 1 "WARNING: Package(s) not found: gradio")
             Sample.venv_setup [] in
  res r = Ok true /\
  length (launches (emitted r)) = 1 /\
  install_reports (emitted r) = [].
Proof.
  split.
  - intros h call. cbn. eauto.
  - apply (install_gradio_trusts_any_exit
             (Sample.world_exiting 1 "WARNING: Package(s) not found: gradio")
             Sample.venv_setup []).
    + intros h call. cbn. eauto.
    + intros base. discriminate.
Defined.

(* ------------------------------------------------------------------ *)
(** ** When the pipeline fails                                          *)
(* ------------------------------------------------------------------ *)

Lemma combine_none_installed (l : list string) : forall outcomes,
  length outcomes = length l ->
  existsb (fun b => b) outcomes = false ->
  combine l outcomes = map not_installed l.
Proof.
  induction l as [ | p l IH]; intros [ | [ | ] outcomes ] Hlen Hex;
    try discriminate; [ reflexivity | ].
  cbn. f_equal. apply IH; [ now injection Hlen | exact Hex ].
Qed.




(* ------------------------------------------------------------------ *)
(** ** What the steps change of the setup object                        *)
(* ------------------------------------------------------------------ *)

Section Frame.

Variable R : BAGELSetup -> BAGELSetup -> Prop.
Hypothesis R_refl : forall s, R s s.
Hypothesis R_trans : forall a b c, R a b -> R b c -> R a c.

Lemma preserves_unchanged {A} (m : M A) :
  (forall self h, self_after (m self h) = self) -> preserves R m.
Proof. intros Hm self h. rewrite Hm. apply R_refl. Qed.

Lemma preserves_bind {A B} (m : M A) (k : A -> M B) :
  preserves R m -> (forall a, preserves R (k a)) -> preserves R (bind m k).
Proof.
  intros Hm Hk self h. rewrite bind_eq.
  destruct (res (m self h)) as [ a | e ]; cbn; [ | apply Hm ].
  eapply R_trans; [ apply Hm | apply Hk ].
Qed.

Lemma preserves_try_except {A} (body : M A) handler :
  preserves R body ->
  (forall e k, handler e = Some k -> preserves R k) ->
  preserves R (try_except body handler).
Proof.
  intros Hb Hh self h. unfold try_except.
  destruct (res (body self h)) as [ a | e ]; [ apply Hb | ].
  destruct (handler e) as [ k | ] eqn:Hk; [ | apply Hb ].
  cbn. eapply R_trans; [ apply Hb | apply (Hh e k Hk) ].
Qed.

Lemma preserves_except_Exception {A} (body : M A) (k : exn -> M A) :
  preserves R body -> (forall e, preserves R (k e)) ->
  preserves R (try_except body (except_Exception k)).
Proof.
  intros Hb Hk. apply preserves_try_except; [ exact Hb | ].
  intros e k' He. unfold except_Exception in He.
  destruct (is_Exception e); [ | discriminate He ].
  injection He as <-. apply Hk.
Qed.

Lemma preserves_when b (m : M unit) : preserves R m -> preserves R (when b m).
Proof.
  intros Hm. destruct b; [ exact Hm | ].
  apply preserves_unchanged. reflexivity.
Qed.

Lemma preserves_run_command W cmd capture_output check shell cwd :
  preserves R (run_command W cmd capture_output check shell cwd).
Proof. apply preserves_unchanged. intros self h. apply run_command_any. Qed.

Lemma preserves_item l i : preserves R (item l i).
Proof. apply preserves_unchanged. intros self h. apply item_silent. Qed.

Lemma preserves_install_package W package_spec cwd :
  preserves R (_install_package_with_pip W package_spec cwd None).
Proof. apply preserves_unchanged. intros self h. apply install_package_run. Qed.

Lemma preserves_fallback W : preserves R (install_critical_packages_fallback W).
Proof. apply preserves_unchanged. intros self h. apply fallback_run. Qed.

End Frame.

(** One step of a frame argument for relation [R], reflexive by [refl]
    and transitive by [trans]: split a sequence, a handler or a case
    distinction, or close a computation that leaves the object alone. *)
Ltac frame_step refl trans :=
  lazymatch goal with
  | |- preserves _ (bind _ _) =>
      apply (preserves_bind _ trans); [ | intros ? ]
  | |- preserves _ (try_except _ (except_Exception _)) =>
      apply (preserves_except_Exception _ trans); [ | intros ? ]
  | |- preserves _ (when _ _) => apply (preserves_when _ refl)
  | |- preserves _ (run_command _ _ _ _ _ _) =>
      apply (preserves_run_command _ refl)
  | |- preserves _ (item _ _) => apply (preserves_item _ refl)
  | |- preserves _ (_install_package_with_pip _ _ _ None) =>
      apply (preserves_install_package _ refl)
  | |- preserves _ (install_critical_packages_fallback _) =>
      apply (preserves_fallback _ refl)
  | |- preserves _ (if ?b then _ else _) => destruct b
  | |- preserves _ (match ?x with _ => _ end) => destruct x
  | |- preserves _ _ =>
      first [ assumption
            | solve [ auto with frame ]
            | apply (preserves_unchanged _ refl); intros ? ?; reflexivity ]
  end.

Ltac frame refl trans := repeat (frame_step refl trans).

Create HintDb frame.

Lemma eq_trans_setup (a b c : BAGELSetup) : a = b -> b = c -> a = c.
Proof. congruence. Qed.

Ltac keeps := frame (@eq_refl BAGELSetup) eq_trans_setup.

Lemma upgrade_command_keeps base pkg : preserves eq (upgrade_command base pkg).
Proof. unfold upgrade_command. keeps. Qed.

Lemma verify_command_keeps base : preserves eq (verify_command base).
Proof. unfold verify_command. keeps. Qed.

Lemma requirements_command_keeps base file :
  preserves eq (requirements_command base file).
Proof. unfold requirements_command. keeps. Qed.

#[export] Hint Resolve upgrade_command_keeps verify_command_keeps
  requirements_command_keeps : frame.

Lemma upgrade_loop_keeps W base pkgs : forall all_ok,
  preserves eq (upgrade_loop W base pkgs all_ok).
Proof.
  induction pkgs as [ | pkg pkgs IH]; intros all_ok.
  - intros self h. reflexivity.
  - rewrite upgrade_loop_cons. keeps.
Qed.

Lemma install_each_keeps W specs :
  preserves eq (install_each_until_failure W specs).
Proof.
  induction specs as [ | spec specs IH].
  - intros self h. reflexivity.
  - rewrite install_each_cons. keeps.
Qed.

#[export] Hint Resolve upgrade_loop_keeps install_each_keeps : frame.

Lemma upgrade_tooling_keeps W : preserves eq (upgrade_tooling W).
Proof. unfold upgrade_tooling. keeps. Qed.

Lemma install_pytorch_family_keeps H W : preserves eq (install_pytorch_family H W).
Proof. unfold install_pytorch_family. keeps. Qed.

Lemma verify_pytorch_keeps W : preserves eq (verify_pytorch W).
Proof. unfold verify_pytorch. keeps. Qed.

Lemma pin_numpy_keeps H W : preserves eq (pin_numpy H W).
Proof. unfold pin_numpy. keeps. Qed.

Lemma requirements_hints_keeps stderr_req :
  preserves eq (requirements_hints stderr_req).
Proof. unfold requirements_hints. keeps. Qed.

Lemma install_gradio_keeps W : preserves eq (install_gradio W).
Proof. unfold install_gradio. keeps. Qed.

#[export] Hint Resolve upgrade_tooling_keeps install_pytorch_family_keeps
  verify_pytorch_keeps pin_numpy_keeps requirements_hints_keeps
  install_gradio_keeps : frame.

Lemma install_from_requirements_keeps H W file :
  preserves eq (install_from_requirements H W file).
Proof. unfold install_from_requirements. keeps. Qed.

#[export] Hint Resolve install_from_requirements_keeps : frame.

(** X10: the installation pipeline never changes the setup object: the
    backend, the interpreter path and the repository directory are after
    [install_requirements] what they were before, whether it returns or
    raises. *)
Theorem install_requirements_keeps_setup H W self h :
  self_after (install_requirements H W self h) = self.
Proof.
  revert self h.
  change (preserves (fun s s' => s' = s) (install_requirements H W)).
  assert (Hk : preserves eq (install_requirements H W))
    by (unfold install_requirements; keeps).
  intros self h. symmetry. apply Hk.
Qed.


Lemma same_but_python_refl s : same_but_python s s.
Proof. unfold same_but_python. auto 10. Qed.

Lemma same_but_python_trans a b c :
  same_but_python a b -> same_but_python b c -> same_but_python a c.
Proof. unfold same_but_python. intuition congruence. Qed.

Lemma same_but_repo_dir_refl s : same_but_repo_dir s s.
Proof. unfold same_but_repo_dir. auto 10. Qed.

Lemma same_but_repo_dir_trans a b c :
  same_but_repo_dir a b -> same_but_repo_dir b c -> same_but_repo_dir a c.
Proof. unfold same_but_repo_dir. intuition congruence. Qed.

Lemma set_python_executable_frame p :
  preserves same_but_python (set_python_executable p).
Proof. intros self h. cbn. unfold same_but_python. auto 10. Qed.

Lemma set_bagel_repo_dir_frame p :
  preserves same_but_repo_dir (set_bagel_repo_dir p).
Proof. intros self h. cbn. unfold same_but_repo_dir. auto 10. Qed.

#[export] Hint Resolve set_python_executable_frame set_bagel_repo_dir_frame
  : frame.

Ltac frame_python := frame same_but_python_refl same_but_python_trans.
Ltac frame_repo_dir := frame same_but_repo_dir_refl same_but_repo_dir_trans.

Lemma scan_envs_string H W env_path_str envs :
  scan_envs H W (JString env_path_str :: envs)
  = (self <- get_self ;;
     if String.eqb (path_name H env_path_str) (env_name self) then
       let py_exe :=
         path_join H env_path_str
           (if String.eqb (system self) "windows"
            then "python.exe" else "bin/python") in
       present <- path_exists W py_exe ;;
       if present then
         set_python_executable py_exe ;;;
         print (MCondaPython (env_name self) py_exe) ;;;
         ret true
       else scan_envs H W envs
     else scan_envs H W envs).
Proof. reflexivity. Qed.

Lemma scan_envs_frame H W envs : preserves same_but_python (scan_envs H W envs).
Proof.
  induction envs as [ | env envs IH]; [ frame_python | ].
  destruct env; try frame_python.
  rewrite scan_envs_string. cbv zeta. frame_python.
Qed.

#[export] Hint Resolve scan_envs_frame : frame.

Lemma update_conda_frame H W :
  preserves same_but_python (_update_python_executable_for_conda_env H W).
Proof. unfold _update_python_executable_for_conda_env. frame_python. Qed.

#[export] Hint Resolve update_conda_frame : frame.

Lemma create_loop_cons H W minor candidates :
  create_loop H W (minor :: candidates)
  = (self <- get_self ;;
     let py_ver := py_version_text minor in
     print (MCreateAttempt (env_name self) py_ver) ;;;
     r <- run_command W (CmdList (create_cmd_list (env_name self) py_ver))
            true true false None ;;
     let '(success_create, _, stderr_create) := r in
     if success_create then
       print (MCreateOk (env_name self) py_ver) ;;;
       _update_python_executable_for_conda_env H W ;;;
       ret true
     else
       print (MCreateFailed py_ver (Py.strip stderr_create)) ;;;
       when (Py.str_in "UnsatisfiableError" stderr_create)
            (print MUnsatisfiable) ;;;
       create_loop H W candidates).
Proof. reflexivity. Qed.

Lemma create_loop_frame H W candidates :
  preserves same_but_python (create_loop H W candidates).
Proof.
  induction candidates as [ | minor candidates IH]; [ frame_python | ].
  rewrite create_loop_cons. cbv zeta. frame_python.
Qed.

#[export] Hint Resolve create_loop_frame : frame.

Lemma create_new_conda_frame H W :
  preserves same_but_python (create_new_conda_environment H W).
Proof. unfold create_new_conda_environment. frame_python. Qed.

#[export] Hint Resolve create_new_conda_frame : frame.

Lemma create_conda_environment_frame H W :
  preserves same_but_python (create_conda_environment H W).
Proof. unfold create_conda_environment. frame_python. Qed.

Lemma update_venv_frame H env_path :
  preserves same_but_python (_update_python_executable_for_venv H env_path).
Proof. unfold _update_python_executable_for_venv. frame_python. Qed.

#[export] Hint Resolve update_venv_frame : frame.

Lemma create_new_venv_frame H W env_path :
  preserves same_but_python (create_new_venv H W env_path).
Proof. unfold create_new_venv. frame_python. Qed.

#[export] Hint Resolve create_new_venv_frame : frame.

Lemma create_venv_environment_frame H W Mc :
  preserves same_but_python (create_venv_environment H W Mc).
Proof. unfold create_venv_environment. frame_python. Qed.

(** X11: creating or reusing the environment changes nothing of the
    setup object but the interpreter path, with Conda as with [venv] and
    whether the step returns or raises. *)
Theorem provisioning_changes_only_the_interpreter H W Mc self h :
  same_but_python self (self_after (create_conda_environment H W self h)) /\
  same_but_python self (self_after (create_venv_environment H W Mc self h)).
Proof.
  split;
    [ apply create_conda_environment_frame
    | apply create_venv_environment_frame ].
Qed.

Lemma perform_clone_frame W : preserves same_but_repo_dir (_perform_clone W).
Proof. unfold _perform_clone. frame_repo_dir. Qed.

#[export] Hint Resolve perform_clone_frame : frame.

(** X12: fetching the repository changes nothing of the setup object but
    the repository directory. *)
Theorem clone_changes_only_the_repository_directory H W Mc target self h :
  same_but_repo_dir self
    (self_after (clone_repository H W Mc target self h)).
Proof.
  revert self h.
  change (preserves same_but_repo_dir (clone_repository H W Mc target)).
  unfold clone_repository. frame_repo_dir.
Qed.


(* ------------------------------------------------------------------ *)
(** ** The steps before the pipeline                                    *)
(* ------------------------------------------------------------------ *)

(** A command given as a non-empty argument list and run without a
    shell, in full. *)
Lemma run_command_list W a args capture_output check cwd self h :
  let call := call_of (CmdList (a :: args)) capture_output false cwd self in
  let log := Py.join " " (map log_quote (a :: args)) in
  let x := run_command W (CmdList (a :: args)) capture_output check false
             cwd self h in
  self_after x = self /\
  launches (emitted x) = [call] /\
  res x = match popen W (seen_at_launch log cwd self h) call with
          | Exited rc out err =>
              Ok (negb (check && negb (rc =? 0)%Z), or_empty out, or_empty err)
          | NotFound _ text | LaunchError text => Ok (false, EmptyString, text)
          | Interrupted => Raised KeyboardInterrupt
          end.
Proof.
  intros call log x. subst call log x.
  destruct (run_command_events W (CmdList (a :: args)) capture_output check
              false cwd self h (CmdList (a :: args)) _ eq_refl)
    as (Hs & Hl & _).
  split; [ exact Hs | ]. split; [ exact Hl | ].
  rewrite (run_command_prepared W (CmdList (a :: args)) capture_output check
             false cwd self h (CmdList (a :: args)) _ eq_refl).
  destruct (popen W _ _) as [rc out err | filename text | text | ];
    try reflexivity.
  destruct (failed_file_reported _ _ _) eqn:Hf; [ reflexivity | ].
  now apply reported_when_list in Hf.
Qed.

(** One step of a run: a command given as an argument list. *)
Ltac run_list_here W Hs Hl Hr :=
  match goal with
  | |- context [res (run_command W (CmdList (?a :: ?args)) ?cap ?chk false
                       ?cwd ?s ?hh)] =>
      destruct (run_command_list W a args cap chk cwd s hh) as (Hs & Hl & Hr);
      rewrite Hr
  end.

Ltac run_list W Hs Hl Hr :=
  first [ run_list_here W Hs Hl Hr
        | rewrite bind_eq; run_list_here W Hs Hl Hr
        | do 2 rewrite bind_eq; run_list_here W Hs Hl Hr
        | do 3 rewrite bind_eq; run_list_here W Hs Hl Hr ].

(** The case distinction on how the process of that step went. *)
Ltac outcome W Ho :=
  match goal with
  | |- context [match popen W ?hh ?c with _ => _ end] =>
      destruct (popen W hh c) as [ ?rc ?out ?err | ?filename ?text | ?text | ]
        eqn:Ho
  end.




(** X14: fetching the repository launches at most one [git] command, in
    the original directory or, for an update, in the repository: nothing;
    or [git pull] in a target directory that exists and holds a [.git]
    directory; or [git clone] into the target when no such path exists; or
    [git clone] into [<target>_clone_<time>] when the target exists without
    a [.git] directory.  A clone always goes to the directory the setup
    object then names as the repository. *)
Theorem clone_repository_launches_one_git_command H W Mc target self h :
  let dir := path_join H (original_dir self) target in
  let alt := path_join H (original_dir self)
               (alt_dir_name target (time_now Mc h)) in
  let clone_into d :=
    call_of (CmdList ["git"; "clone"; repo_url self; d]) true false None self in
  let r := clone_repository H W Mc target self h in
  launches (emitted r) = [] \/
  (fs_exists W h dir = true /\
   fs_is_dir Mc h (path_join H dir ".git") = true /\
   launches (emitted r)
   = [call_of (CmdList ["git"; "pull"]) true false (Some dir) self]) \/
  (fs_exists W h dir = false /\
   bagel_repo_dir (self_after r) = dir /\
   launches (emitted r) = [clone_into dir]) \/
  (fs_exists W h dir = true /\
   fs_is_dir Mc h (path_join H dir ".git") = false /\
   bagel_repo_dir (self_after r) = alt /\
   launches (emitted r) = [clone_into alt]).
Proof.
  intros dir alt clone_into r. subst dir alt clone_into r.
  unfold clone_repository, _perform_clone, clone_cmd_list.
  cbn -[alt_dir_name alt_clone_prompt].
  destruct (fs_exists W h _) eqn:Hx; cbn -[alt_dir_name alt_clone_prompt].
  - destruct (fs_is_dir Mc h _) eqn:Hd; cbn -[alt_dir_name alt_clone_prompt].
    + (* a repository: update it? *)
      rewrite bind_eq. cbn.
      destruct (user_input W h update_prompt) as [ a | | ];
        cbn; [ | (left; events; reflexivity) | (left; events; reflexivity) ].
      destruct (String.eqb (Py.lower a) "y"); cbn; [ | (left; events; reflexivity) ].
      right. left. split; [ reflexivity | ]. split; [ reflexivity | ].
      run_list W Hs Hl Hr.
      destruct (popen W _ _); cbn; try destruct (negb _); cbn; events;
        rewrite Hl; reflexivity.
    + (* not a repository: clone elsewhere? *)
      rewrite bind_eq. cbn -[alt_dir_name].
      destruct (user_input W h _) as [ a | | ];
        cbn -[alt_dir_name]; [ | (left; events; reflexivity) | (left; events; reflexivity) ].
      destruct (String.eqb (Py.lower a) "y"); cbn -[alt_dir_name];
        [ | (left; events; reflexivity) ].
      right. right. right. split; [ reflexivity | ]. split; [ reflexivity | ].
      run_list W Hs Hl Hr.
      destruct (popen W _ _); cbn -[alt_dir_name];
        try destruct (negb _); cbn -[alt_dir_name]; rewrite Hs; events;
        rewrite Hl; split; reflexivity.
  - right. right. left. split; [ reflexivity | ].
    run_list W Hs Hl Hr.
    destruct (popen W _ _); cbn; try destruct (negb _); cbn; rewrite Hs;
      events; rewrite Hl; split; reflexivity.
Qed.

(** X15: an existing target directory is left alone unless the operator
    answers [y]: with any other answer nothing is launched, and the result
    says whether the directory holds a [.git] directory, in which case it is
    used as it is. *)
Theorem clone_repository_asks_before_acting H W Mc target self h answer :
  let dir := path_join H (original_dir self) target in
  fs_exists W h dir = true ->
  (forall prompt, user_input W h prompt = Answer answer) ->
  Py.lower answer <> "y" ->
  let r := clone_repository H W Mc target self h in
  launches (emitted r) = [] /\
  res r = Ok (fs_is_dir Mc h (path_join H dir ".git")) /\
  bagel_repo_dir (self_after r) = dir.
Proof.
  intros dir Hx Ha Hn r. subst dir r.
  apply String.eqb_neq in Hn.
  unfold clone_repository.
  cbn -[alt_dir_name alt_clone_prompt]. rewrite Hx.
  cbn -[alt_dir_name alt_clone_prompt].
  destruct (fs_is_dir Mc h _); cbn -[alt_dir_name alt_clone_prompt];
    rewrite bind_eq; cbn -[alt_dir_name alt_clone_prompt];
    rewrite Ha; cbn -[alt_dir_name alt_clone_prompt]; rewrite Hn;
    cbn -[alt_dir_name alt_clone_prompt]; events; auto.
Qed.

Lemma clone_repository_asks_before_acting_witness :
  let H := Sample.linux_host 11 in
  let W := Sample.world_with_operator (Answer "n") in
  let Mc := sample_machine false (Ok tt) in
  let r := clone_repository H W Mc "BAGEL" Sample.venv_setup [] in
  launches (emitted r) = [] /\
  res r = Ok false /\
  bagel_repo_dir (self_after r) = "/work/BAGEL".
Proof.
  intros H W Mc.
  refine (clone_repository_asks_before_acting H W Mc "BAGEL"
            Sample.venv_setup [] "n" eq_refl (fun _ => eq_refl) _).
  discriminate.
Defined.

(* ------------------------------------------------------------------ *)
(** ** The virtual environment                                          *)
(* ------------------------------------------------------------------ *)

Lemma removal_step Mc env_path self h :
  try_except
    (ask (fun h => rmtree Mc h env_path) ;;; ret true)
    (except_Exception (fun e => say (NVenvRemoveFailed e) ;;; ret false))
    self h
  = match rmtree Mc h env_path with
    | Ok _ => Run (Ok true) self []
    | Raised e =>
        if is_Exception e then Run (Ok false) self []
        else Run (Raised e) self []
    end.
Proof.
  unfold try_except. rewrite bind_eq. cbn.
  destruct (rmtree Mc h env_path) as [ [] | e ]; cbn; [ reflexivity | ].
  unfold except_Exception. destruct (is_Exception e); reflexivity.
Qed.

(** X16: whenever [create_venv_environment] gives [True], the
    interpreter of the setup object is the one inside the environment
    directory, [Scripts\python.exe] on Windows and [bin/python] elsewhere,
    for a reused environment as for a new one. *)
Theorem venv_success_sets_the_interpreter H W Mc self h :
  let env_path := path_join H (original_dir self) (env_name self) in
  let r := create_venv_environment H W Mc self h in
  res r = Ok true ->
  python_executable (self_after r)
  = if String.eqb (system self) "windows"
    then path_join H (path_join H env_path "Scripts") "python.exe"
    else path_join H (path_join H env_path "bin") "python".
Proof.
  intros env_path r. subst env_path r.
  assert (Hnew : forall hh,
    let x := create_new_venv H W
               (path_join H (original_dir self) (env_name self)) self hh in
    res x = Ok true ->
    python_executable (self_after x)
    = venv_python H (system self)
        (path_join H (original_dir self) (env_name self))).
  { intros hh x. subst x. unfold create_new_venv, venv_command_list.
    run_list W Hs Hl Hr.
    outcome W Ho; cbn; try discriminate.
    - match goal with
      | |- context [(?z =? 0)%Z] => destruct (z =? 0)%Z
      end; cbn.
      + rewrite Hs. reflexivity.
      + destruct (Py.str_in _ _ && _); discriminate.
    - destruct (Py.str_in _ _ && _); discriminate.
    - destruct (Py.str_in _ _ && _); discriminate. }
  unfold create_venv_environment. cbn.
  destruct (fs_exists W h _); cbn; [ | apply Hnew ].
  rewrite bind_eq. cbn.
  destruct (user_input W h venv_prompt) as [ a | | ]; cbn; try discriminate.
  destruct (String.eqb (Py.lower a) "u"); cbn; [ reflexivity | ].
  destruct (String.eqb (Py.lower a) "s"); cbn; [ discriminate | ].
  rewrite bind_eq, removal_step.
  destruct (rmtree Mc _ _) as [ [] | e ]; cbn.
  - apply Hnew.
  - destruct (is_Exception e); cbn; discriminate.
Qed.

Lemma venv_success_sets_the_interpreter_witness :
  let H := Sample.linux_host 11 in
  let W := Sample.world_without_files in
  let Mc := sample_machine false (Ok tt) in
  let r := create_venv_environment H W Mc Sample.venv_setup [] in
  res r = Ok true /\
  python_executable (self_after r) = "/work/bagel_env/bin/python".
Proof.
  intros H W Mc.
  split; [ reflexivity | ].
  exact (venv_success_sets_the_interpreter H W Mc Sample.venv_setup []
           eq_refl).
Defined.

(** X17: over an existing environment directory [python -m venv] is run
    only after a removal that worked: when the operator chooses to use or
    to skip the directory, or when the removal raises, no process is
    launched, and the result is [True] for the choice to use it and [False]
    otherwise. *)
Theorem venv_existing_directory_not_recreated H W Mc self h answer :
  let env_path := path_join H (original_dir self) (env_name self) in
  fs_exists W h env_path = true ->
  user_input W h venv_prompt = Answer answer ->
  Py.lower answer = "u" \/ Py.lower answer = "s" \/
  (exists e, rmtree Mc (Asked venv_prompt (Answer answer) :: h) env_path
             = Raised e /\ is_Exception e = true) ->
  let r := create_venv_environment H W Mc self h in
  launches (emitted r) = [] /\
  res r = Ok (String.eqb (Py.lower answer) "u").
Proof.
  intros env_path Hx Ha Hc r. subst env_path r.
  unfold create_venv_environment. cbn. rewrite Hx. cbn.
  rewrite bind_eq. cbn. rewrite Ha. cbn.
  destruct (String.eqb (Py.lower answer) "u") eqn:Hu; cbn;
    [ events; auto | ].
  destruct (String.eqb (Py.lower answer) "s") eqn:Hs; cbn;
    [ events; auto | ].
  destruct Hc as [ Hc | [ Hc | (e & He & Hex) ] ].
  - rewrite Hc in Hu. discriminate Hu.
  - rewrite Hc in Hs. discriminate Hs.
  - rewrite bind_eq, removal_step, He, Hex. cbn. events. auto.
Qed.

Lemma venv_existing_directory_not_recreated_witness :
  let H := Sample.linux_host 11 in
  let W := Sample.world_with_operator (Answer "") in
  let Mc := sample_machine true (Raised (OtherException "Permission denied")) in
  let r := create_venv_environment H W Mc Sample.venv_setup [] in
  launches (emitted r) = [] /\ res r = Ok false.
Proof.
  intros H W Mc.
  refine (venv_existing_directory_not_recreated H W Mc Sample.venv_setup []
            "" eq_refl eq_refl _).
  right. right. eexists. split; reflexivity.
Defined.


(* ------------------------------------------------------------------ *)
(** ** Finding and offering Conda                                       *)
(* ------------------------------------------------------------------ *)

Lemma check_conda_installation_run W silent self h :
  let call := call_of (CmdList ["conda"; "--version"]) true false None self in
  let x := check_conda_installation W silent self h in
  self_after x = self /\
  launches (emitted x) = [call] /\
  res x = match popen W (seen_at_launch "conda --version" None self h) call with
          | Exited _ out _ => Ok (Py.str_in "conda" (or_empty out))
          | NotFound _ _ | LaunchError _ => Ok false
          | Interrupted => Raised KeyboardInterrupt
          end.
Proof.
  intros call x. subst call x. unfold check_conda_installation.
  run_list W Hs Hl Hr.
  change (Py.join " " (map log_quote ["conda"; "--version"]))
    with "conda --version".
  outcome W Ho; cbn -[Py.str_in]; rewrite ?Hs.
  - destruct (Py.str_in "conda" (or_empty out)); destruct silent;
      cbn -[Py.str_in]; try destruct (Py.nonempty _ && _);
      cbn -[Py.str_in]; events; rewrite Hl; auto.
  - destruct silent; cbn -[Py.str_in]; try destruct (Py.nonempty _ && _);
      cbn -[Py.str_in]; events; rewrite Hl; auto.
  - destruct silent; cbn -[Py.str_in]; try destruct (Py.nonempty _ && _);
      cbn -[Py.str_in]; events; rewrite Hl; auto.
  - events. rewrite Hl. auto.
Qed.

(** X18: Conda counts as found exactly when [conda --version] started
    and ended with the word [conda] in its output; the return code and the
    error stream do not count.  The detection launches this one process
    and leaves the setup object as it was. *)
Theorem conda_detection_reads_the_output_only W silent self h :
  let call := call_of (CmdList ["conda"; "--version"]) true false None self in
  let x := check_conda_installation W silent self h in
  (res x = Ok true <->
   exists rc out err,
     popen W (seen_at_launch "conda --version" None self h) call
     = Exited rc out err /\
     Py.str_in "conda" (or_empty out) = true) /\
  launches (emitted x) = [call] /\
  self_after x = self.
Proof.
  intros call x.
  destruct (check_conda_installation_run W silent self h) as (Hs & Hl & Hr).
  fold call x in Hs, Hl, Hr.
  split; [ | auto ]. rewrite Hr.
  destruct (popen W _ call) as [rc out err | f t | t | ].
  - split.
    + intros [= Hc]. eauto.
    + intros (rc' & out' & err' & [= <- <- <-] & Hc). now rewrite Hc.
  - split; [ discriminate | intros (? & ? & ? & Hx & _); discriminate Hx ].
  - split; [ discriminate | intros (? & ? & ? & Hx & _); discriminate Hx ].
  - split; [ discriminate | intros (? & ? & ? & Hx & _); discriminate Hx ].
Qed.

Arguments check_conda_installation : simpl never.

(** X19: when Conda is not found and the operator declines its
    installation (any answer but [y] to the question, or choice 3 of the
    menu on Windows), [ensure_conda_installed] gives [True] with the
    backend of the setup object switched to [venv]; nothing is installed and
    no process other than the detection is launched. *)
Theorem declining_conda_switches_to_venv W install_conda self h answer :
  res (check_conda_installation W false self h) = Ok false ->
  (forall hh prompt, user_input W hh prompt = Answer answer) ->
  (if String.eqb (system self) "windows" then Py.strip answer = "3"
   else Py.lower answer <> "y") ->
  let r := ensure_conda_installed W install_conda self h in
  res r = Ok true /\
  use_conda (self_after r) = false /\
  launches (emitted r)
  = [call_of (CmdList ["conda"; "--version"]) true false None self].
Proof.
  intros Hc Ha Hn r. subst r. unfold ensure_conda_installed.
  destruct (check_conda_installation_run W false self h) as (Hs & Hl & _).
  rewrite bind_eq, Hc. cbn. rewrite Hs.
  destruct (String.eqb (system self) "windows"); cbn;
    rewrite bind_eq; cbn; rewrite Ha; cbn.
  - rewrite Hn. cbn. events. rewrite Hl. auto.
  - apply String.eqb_neq in Hn. rewrite Hn. cbn. events. rewrite Hl. auto.
Qed.

Lemma declining_conda_switches_to_venv_witness :
  let r := ensure_conda_installed Sample.world_without_tools (ret true)
             Sample.conda_setup [] in
  res r = Ok true /\
  use_conda (self_after r) = false /\
  launches (emitted r)
  = [call_of (CmdList ["conda"; "--version"]) true false None
       Sample.conda_setup].
Proof.
  refine (declining_conda_switches_to_venv Sample.world_without_tools
            (ret true) Sample.conda_setup [] "" eq_refl (fun _ _ => eq_refl) _).
  discriminate.
Defined.

Arguments install_conda_manual_windows : simpl never.

(** X20: choice 2 of the Windows menu, the manual installation, never
    makes [ensure_conda_installed] give [True]: the result of the manual
    route is dropped (line 234), also when Conda is found after it, and
    the backend stays Conda. *)
Theorem manual_conda_route_never_succeeds W install_conda self h :
  system self = "windows" ->
  res (check_conda_installation W false self h) = Ok false ->
  (forall hh, exists a,
      user_input W hh choice_prompt = Answer a /\ Py.strip a = "2") ->
  let r := ensure_conda_installed W install_conda self h in
  res r <> Ok true /\ use_conda (self_after r) = use_conda self.
Proof.
  intros Hw Hc Ha r. subst r. unfold ensure_conda_installed.
  destruct (check_conda_installation_run W false self h) as (Hs & _ & _).
  rewrite bind_eq, Hc. cbn. rewrite Hs, Hw. cbn.
  rewrite bind_eq. cbn.
  match goal with
  | |- context [user_input W ?hh choice_prompt] =>
      destruct (Ha hh) as (a & Hin & Hch)
  end.
  rewrite Hin. cbn. rewrite Hch. cbn.
  rewrite bind_eq.
  assert (Hm : forall hh,
             self_after (install_conda_manual_windows W self hh) = self).
  { intros hh. unfold install_conda_manual_windows.
    unfold install_conda_alternative_windows. cbn.
    rewrite bind_eq. cbn.
    destruct (user_input W hh manual_prompt) as [ b | | ]; cbn; try reflexivity.
    destruct (String.eqb (Py.lower b) "y"); cbn; [ | reflexivity ].
    rewrite bind_eq.
    match goal with
    | |- context [check_conda_installation W false self ?h2] =>
        destruct (check_conda_installation_run W false self h2)
          as (Hs2 & _ & _);
        destruct (res (check_conda_installation W false self h2))
          as [ [ | ] | e ]
    end; cbn; exact Hs2. }
  match goal with
  | |- context [install_conda_manual_windows W self ?h2] =>
      specialize (Hm h2);
      destruct (res (install_conda_manual_windows W self h2))
  end; cbn; rewrite Hm; split; (discriminate || reflexivity).
Qed.

Lemma manual_conda_route_never_succeeds_witness :
  let r := ensure_conda_installed world_installing_conda_by_hand (ret true)
             windows_conda_setup [] in
  res (check_conda_installation world_installing_conda_by_hand false
         windows_conda_setup
         (rev (emitted r))) = Ok true /\
  res r <> Ok true /\
  use_conda (self_after r) = use_conda windows_conda_setup.
Proof.
  split; [ reflexivity | ].
  refine (manual_conda_route_never_succeeds world_installing_conda_by_hand
            (ret true) windows_conda_setup [] eq_refl eq_refl _).
  intros hh. exists "2". split; reflexivity.
Defined.


(* ------------------------------------------------------------------ *)
(** ** The probes of the network and of the system                      *)
(* ------------------------------------------------------------------ *)

Lemma context_step Mc self h :
  try_except (ask (create_default_context Mc) ;;; ret true)
    (except_AttributeError (say NDefaultSsl ;;; ret false)) self h
  = match create_default_context Mc h with
    | Ok _ => Run (Ok true) self []
    | Raised (AttributeError _) => Run (Ok false) self []
    | Raised e => Run (Raised e) self []
    end.
Proof.
  unfold try_except. rewrite bind_eq. cbn.
  destruct (create_default_context Mc h) as [ [] | e ]; cbn; [ reflexivity | ].
  destruct e; reflexivity.
Qed.

Lemma configure_step Mc self h :
  try_except (ask (configure_context Mc))
    (except_AttributeError (say NDefaultSsl)) self h
  = match configure_context Mc h with
    | Ok _ => Run (Ok tt) self []
    | Raised (AttributeError _) => Run (Ok tt) self []
    | Raised e => Run (Raised e) self []
    end.
Proof.
  unfold try_except, ask. cbn.
  destruct (configure_context Mc h) as [ [] | e ]; cbn; [ reflexivity | ].
  destruct e; reflexivity.
Qed.

(** X21: the connectivity probe launches nothing, asks nothing and
    leaves the setup object as it was.  It gives [True] only when the probe
    address opened, and no [Exception] of the request leaves it: what it
    raises is either not an [Exception] or was raised while the TLS context
    was made or configured. *)
Theorem connectivity_probe_contains_request_errors Mc self h :
  let r := check_internet_connection Mc self h in
  emitted r = [] /\ self_after r = self /\
  (res r = Ok true ->
   exists with_context, urlopen Mc h probe_url with_context = Opened) /\
  (forall e, res r = Raised e ->
             is_Exception e = false \/
             create_default_context Mc h = Raised e \/
             configure_context Mc h = Raised e).
Proof.
  intros r. subst r.
  assert (Hrequest : forall with_context,
    let x :=
      (outcome <- ask (fun h => Ok (urlopen Mc h probe_url with_context)) ;;
       match outcome with
       | Opened => say NInternetAvailable ;;; ret true
       | URLError reason => say (NNoInternetURLError reason) ;;; ret false
       | SocketTimeout => say NInternetTimedOut ;;; ret false
       | UrlRaised e =>
           if is_Exception e then say (NNoInternet e) ;;; ret false
           else raise e
       end) self h in
    emitted x = [] /\ self_after x = self /\
    (res x = Ok true ->
     exists with_context, urlopen Mc h probe_url with_context = Opened) /\
    (forall e, res x = Raised e -> is_Exception e = false)).
  { intros with_context x. subst x. cbn.
    destruct (urlopen Mc h probe_url with_context) eqn:Hu; cbn;
      try (repeat split; discriminate).
    - repeat split; [ eauto | discriminate ].
    - destruct (is_Exception e) eqn:He; cbn; repeat split; try discriminate.
      now intros e' [= <-]. }
  unfold check_internet_connection.
  cbn. rewrite bind_eq, context_step.
  destruct (create_default_context Mc h) as [ [] | e ] eqn:Hc; cbn.
  - rewrite bind_eq, configure_step.
    destruct (configure_context Mc h) as [ [] | e ] eqn:Hg; cbn.
    + destruct (Hrequest true) as (He & Hs & Ht & Hr). cbv zeta in *.
      split; [ exact He | ]. split; [ exact Hs | ]. split; [ exact Ht | ].
      intros e' Hx. left. exact (Hr e' Hx).
    + destruct e; cbn;
        try (repeat split; [ discriminate | intros e' [= <-]; auto ]).
      destruct (Hrequest true) as (He & Hs & Ht & Hr). cbv zeta in *.
      split; [ exact He | ]. split; [ exact Hs | ]. split; [ exact Ht | ].
      intros e' Hx. left. exact (Hr e' Hx).
  - destruct e; cbn;
      try (repeat split; [ discriminate | intros e' [= <-]; auto ]).
    destruct (Hrequest false) as (He & Hs & Ht & Hr). cbv zeta in *.
    split; [ exact He | ]. split; [ exact Hs | ]. split; [ exact Ht | ].
    intros e' Hx. left. exact (Hr e' Hx).
Qed.

Lemma disk_step Mc path self h :
  (forall e, disk_usage_free Mc h path = Raised e -> is_Exception e = true) ->
  try_except
    (free <- ask (fun h => disk_usage_free Mc h path) ;;
     if enough_disk free then say (NDiskSpace free)
     else say (NLowDiskSpace free))
    (except_Exception (fun e => say (NDiskUnchecked e)))
    self h
  = Run (Ok tt) self [].
Proof.
  intros Hd. unfold try_except. rewrite bind_eq. cbn.
  destruct (disk_usage_free Mc h path) as [ free | e ] eqn:Hf; cbn.
  - destruct (enough_disk free); reflexivity.
  - unfold except_Exception. now rewrite (Hd e eq_refl).
Qed.

Lemma gpu_step W self h :
  no_interrupt W ->
  let x :=
    try_except
      (g <- run_command W (CmdList ["nvidia-smi"]) true false false None ;;
       let '(success, smi_out, _) := g in
       if success && Py.str_in "CUDA Version" smi_out then
         say NGpuDetected ;;;
         match find is_gpu_line (Py.splitlines smi_out) with
         | Some line => say (NGpuLine (gpu_line_text line))
         | None => ret tt
         end
       else say NNoGpu)
      (except_Exception (fun _ => say NGpuUnchecked))
      self h in
  res x = Ok tt /\ self_after x = self /\
  launches (emitted x)
  = [call_of (CmdList ["nvidia-smi"]) true false None self].
Proof.
  intros Hni x. subst x. unfold try_except.
  run_list W Hs Hl Hr.
  outcome W Ho; cbn -[Py.str_in Py.splitlines is_gpu_line gpu_line_text];
    [ | | | now apply Hni in Ho ].
  - destruct (Py.str_in "CUDA Version" (or_empty out));
      cbn -[Py.str_in Py.splitlines is_gpu_line gpu_line_text];
      try destruct (find is_gpu_line _);
      cbn -[Py.str_in Py.splitlines is_gpu_line gpu_line_text];
      rewrite Hs; events; rewrite Hl; auto.
  - rewrite Hs. events. rewrite Hl. auto.
  - rewrite Hs. events. rewrite Hl. auto.
Qed.

(** X22: the system check passes exactly when the running interpreter
    is Python 3.10 or later and [git --version] could be started; its
    return code, the free disk space and the graphics card do not count.
    Unless the operator interrupts, the check returns, having launched
    [git --version] and [nvidia-smi], and leaves the setup object as it
    was. *)
Theorem system_check_needs_python_and_git_only H W Mc self h :
  no_interrupt W ->
  first_word (sys_version Mc) <> None ->
  (forall hh path e,
      disk_usage_free Mc hh path = Raised e -> is_Exception e = true) ->
  let git := call_of (CmdList ["git"; "--version"]) true false None self in
  let smi := call_of (CmdList ["nvidia-smi"]) true false None self in
  let r := check_system_requirements H W Mc self h in
  res r
  = Ok ((sys_version_major Mc =? 3) && (10 <=? sys_version_minor H) &&
        match popen W (seen_at_launch "git --version" None self h) git with
        | Exited _ _ _ => true
        | _ => false
        end) /\
  launches (emitted r) = [git; smi] /\
  self_after r = self.
Proof.
  intros Hni Hv Hd git smi r. subst git smi r.
  unfold check_system_requirements, python_version_word.
  destruct (first_word (sys_version Mc)) as [ v | ]; [ clear Hv | now destruct Hv ].
  assert (Hrest : forall python_ok : bool,
    let k :=
      (r <- run_command W (CmdList ["git"; "--version"]) true false false None ;;
       let '(success, git_version, _) := r in
       (if success then say (NGitAvailable (Py.strip git_version))
        else say NGitMissing) ;;;
       let all_ok := python_ok && success in
       self <- get_self ;;
       try_except
         (free <- ask (fun h => disk_usage_free Mc h (original_dir self)) ;;
          if enough_disk free then say (NDiskSpace free)
          else say (NLowDiskSpace free))
         (except_Exception (fun e => say (NDiskUnchecked e))) ;;;
       try_except
         (g <- run_command W (CmdList ["nvidia-smi"]) true false false None ;;
          let '(success, smi_out, _) := g in
          if success && Py.str_in "CUDA Version" smi_out then
            say NGpuDetected ;;;
            match find is_gpu_line (Py.splitlines smi_out) with
            | Some line => say (NGpuLine (gpu_line_text line))
            | None => ret tt
            end
          else say NNoGpu)
         (except_Exception (fun _ => say NGpuUnchecked)) ;;;
       when (negb all_ok) (say NSysReqsNotMet) ;;;
       ret all_ok) self h in
    res k
    = Ok (python_ok &&
          match popen W (seen_at_launch "git --version" None self h)
                  (call_of (CmdList ["git"; "--version"]) true false None self)
          with
          | Exited _ _ _ => true
          | _ => false
          end) /\
    launches (emitted k)
    = [call_of (CmdList ["git"; "--version"]) true false None self;
       call_of (CmdList ["nvidia-smi"]) true false None self] /\
    self_after k = self).
  { intros python_ok k. subst k.
    run_list W Hs Hl Hr.
    change (Py.join " " (map log_quote ["git"; "--version"]))
      with "git --version".
    outcome W Ho; [ | | | now apply Hni in Ho ];
      cbn -[Py.str_in Py.splitlines is_gpu_line gpu_line_text];
      rewrite Hs;
      rewrite bind_eq, disk_step by (intros e; apply Hd);
      cbn -[Py.str_in Py.splitlines is_gpu_line gpu_line_text];
      rewrite bind_eq;
      match goal with
      | |- context [try_except ?body ?handler self ?hh] =>
          destruct (gpu_step W self hh Hni) as (Hg & Hgs & Hgl);
          cbv zeta in Hg, Hgs, Hgl; rewrite Hg
      end;
      cbn -[Py.str_in Py.splitlines is_gpu_line gpu_line_text];
      rewrite Hgs;
      destruct python_ok;
      cbn -[Py.str_in Py.splitlines is_gpu_line gpu_line_text];
      events; rewrite Hl, Hgl; auto. }
  destruct ((sys_version_major Mc =? 3) && (10 <=? sys_version_minor H)).
  - destruct (12 <? sys_version_minor H); exact (Hrest true).
  - exact (Hrest false).
Qed.

Lemma system_check_needs_python_and_git_only_witness :
  let H := Sample.linux_host 11 in
  let W := Sample.world_exiting 1 "" in
  let Mc := sample_machine true (Ok tt) in
  no_interrupt W /\
  let r := check_system_requirements H W Mc Sample.venv_setup [] in
  res r = Ok true /\
  launches (emitted r)
  = [call_of (CmdList ["git"; "--version"]) true false None Sample.venv_setup;
     call_of (CmdList ["nvidia-smi"]) true false None Sample.venv_setup] /\
  self_after r = Sample.venv_setup.
Proof.
  intros H W Mc.
  assert (Hni : no_interrupt W) by (intros h call; discriminate).
  split; [ exact Hni | ].
  refine (system_check_needs_python_and_git_only H W Mc Sample.venv_setup []
            Hni _ _).
  - discriminate.
  - intros hh path e. discriminate.
Defined.


(* ------------------------------------------------------------------ *)
(** ** An environment that is already there                             *)
(* ------------------------------------------------------------------ *)

Lemma scan_envs_launches H W envs : forall self h,
  launches (emitted (scan_envs H W envs self h)) = [].
Proof.
  induction envs as [ | env envs IH]; intros self h; [ reflexivity | ].
  destruct env; try reflexivity.
  rewrite scan_envs_string. cbv zeta. rewrite bind_eq. cbn.
  destruct (String.eqb (path_name H s) (env_name self)); [ | apply IH ].
  rewrite bind_eq. cbn.
  destruct (fs_exists W h _); cbn; [ reflexivity | apply IH ].
Qed.

Lemma update_launches H W self h :
  launches (emitted (_update_python_executable_for_conda_env H W self h))
  = [call_of (CmdList ["conda"; "env"; "list"; "--json"]) true false None self].
Proof.
  unfold _update_python_executable_for_conda_env.
  run_list W Hs Hl Hr.
  outcome W Ho; cbn; rewrite ?Hs; events; rewrite ?Hl; try reflexivity.
  rewrite bind_eq.
  destruct (json_loads H (or_empty out)) as [ [ | | | | | members ] | ];
    cbn; events; rewrite ?Hl; try reflexivity.
  destruct (iterate (dict_get members "envs" (JArray []))) as [ envs | ];
    cbn; events; rewrite ?Hl; try reflexivity.
  pose proof (scan_envs_launches H W envs self
                (rev_append
                   (emitted
                      (run_command W
                         (CmdList ["conda"; "env"; "list"; "--json"])
                         true false false None self h)) h)) as Hsc.
  destruct (res (scan_envs H W envs self _)) as [ [ | ] | e ];
    cbn; events; rewrite ?Hl, Hsc; reflexivity.
Qed.

(** The listing and what follows when no environment of that name is
    listed or the listing could not be run. *)
Lemma listing_events W self h :
  let x := run_command W (CmdList ["conda"; "env"; "list"]) true false false
             None self h in
  env_found (emitted x) = false /\ create_attempts (emitted x) = [].
Proof.
  intros x. subst x.
  destruct (run_command_any W (CmdList ["conda"; "env"; "list"]) true false
              false None self h) as [_ Hev].
  destruct (registry_no_create _ (executor_is_registry _ Hev))
    as (_ & Hc & Hf).
  auto.
Qed.





(* ------------------------------------------------------------------ *)
(** ** The interpreter of a Conda environment                           *)
(* ------------------------------------------------------------------ *)

Lemma scan_envs_first_match H W self pre : forall h p post,
  path_name H p = env_name self ->
  (forall hh, fs_exists W hh
                (path_join H p (if String.eqb (system self) "windows"
                                then "python.exe" else "bin/python")) = true) ->
  (forall q, In q pre -> path_name H q = env_name self ->
             forall hh,
               fs_exists W hh
                 (path_join H q (if String.eqb (system self) "windows"
                                 then "python.exe" else "bin/python"))
               = false) ->
  let x := scan_envs H W (map JString (pre ++ p :: post)) self h in
  res x = Ok true /\
  python_executable (self_after x)
  = path_join H p (if String.eqb (system self) "windows"
                   then "python.exe" else "bin/python") /\
  undetermined (emitted x) = false.
Proof.
  induction pre as [ | q pre IH]; intros h p post Hn Hp Hq x; subst x.
  - cbn [app map]. rewrite scan_envs_string. cbv zeta.
    rewrite bind_eq. cbn.
    apply String.eqb_eq in Hn. rewrite Hn.
    rewrite bind_eq. cbn. rewrite Hp. cbn. auto.
  - cbn [app map]. rewrite scan_envs_string. cbv zeta.
    rewrite bind_eq. cbn.
    destruct (String.eqb (path_name H q) (env_name self)) eqn:Hqn.
    + rewrite bind_eq. cbn.
      apply String.eqb_eq in Hqn.
      rewrite (Hq q (or_introl eq_refl) Hqn). cbn.
      apply IH; auto. intros q' Hin. apply Hq. now right.
    + apply IH; auto. intros q' Hin. apply Hq. now right.
Qed.

(** X25: the registry lookup takes the first entry whose last component
    is the environment name and whose interpreter exists.  When
    [conda env list --json] starts and ends, whatever its return code, and
    its output is an object whose [envs] holds such an entry, the
    interpreter of the setup object becomes that entry's [bin/python]
    ([python.exe] on Windows), and no warning about an undetermined
    interpreter is printed. *)
Theorem registry_lookup_takes_the_first_match
    H W self h members pre p post :
  always_exits W ->
  (forall hh call out,
      (exists rc err, popen W hh call = Exited rc out err) ->
      json_loads H (or_empty out) = Some (JObject members)) ->
  dict_get members "envs" (JArray []) = JArray (map JString (pre ++ p :: post)) ->
  path_name H p = env_name self ->
  (forall hh, fs_exists W hh
                (path_join H p (if String.eqb (system self) "windows"
                                then "python.exe" else "bin/python")) = true) ->
  (forall q, In q pre -> path_name H q = env_name self ->
             forall hh,
               fs_exists W hh
                 (path_join H q (if String.eqb (system self) "windows"
                                 then "python.exe" else "bin/python"))
               = false) ->
  let u := _update_python_executable_for_conda_env H W self h in
  res u = Ok tt /\
  python_executable (self_after u)
  = path_join H p (if String.eqb (system self) "windows"
                   then "python.exe" else "bin/python") /\
  undetermined (emitted u) = false.
Proof.
  intros Hex Hjson Henvs Hn Hp Hq u. subst u.
  unfold _update_python_executable_for_conda_env.
  run_list W Hs Hl Hr.
  match goal with
  | |- context [run_command W ?c true false false None self h] =>
      destruct (run_command_any W c true false false None self h)
        as [_ Hev];
      pose proof (executor_not_undetermined _ Hev) as Hnu
  end.
  match goal with
  | |- context [match popen W ?hh ?c with _ => _ end] =>
      destruct (Hex hh c) as (rc & out & err & Ho);
      pose proof (Hjson hh c out (ex_intro _ rc (ex_intro _ err Ho))) as Hj;
      rewrite Ho
  end.
  cbn. rewrite Hs. rewrite bind_eq. rewrite Hj, Henvs. cbn [iterate].
  match goal with
  | |- context [scan_envs H W _ self ?hh] =>
      destruct (scan_envs_first_match H W self pre hh p post Hn Hp Hq)
        as (Hres & Hpy & Hund)
  end.
  rewrite Hres. cbn. events. rewrite Hnu, Hund. auto.
Qed.

Lemma registry_lookup_takes_the_first_match_witness :
  let H := host_reading_registry in
  let W := Sample.world_exiting 1 registry_text in
  let u := _update_python_executable_for_conda_env H W Sample.conda_setup [] in
  always_exits W /\
  res u = Ok tt /\
  python_executable (self_after u) = "/opt/conda/envs/bagel_env/bin/python" /\
  undetermined (emitted u) = false.
Proof.
  intros H W u.
  assert (Hex : always_exits W) by (intros h call; cbn; eauto).
  split; [ exact Hex | ].
  refine (registry_lookup_takes_the_first_match H W Sample.conda_setup []
            [("envs", JArray [JString "/opt/conda";
                              JString "/opt/conda/envs/bagel_env"])]
            ["/opt/conda"] "/opt/conda/envs/bagel_env" [] Hex _ eq_refl
            eq_refl (fun _ => eq_refl) _).
  - intros hh call out (rc & err & Ho). injection Ho as _ <- _. reflexivity.
  - intros q [ <- | [] ] Hq. discriminate Hq.
Defined.


(* ------------------------------------------------------------------ *)
(** ** The orchestrator                                                 *)
(* ------------------------------------------------------------------ *)

Lemma res_bind_ok {A B} (m : M A) (k : A -> M B) self h a :
  res (m self h) = Ok a ->
  res (bind m k self h)
  = res (k a (self_after (m self h)) (rev_append (emitted (m self h)) h)).
Proof. intros Hm. rewrite bind_eq, Hm. reflexivity. Qed.

(** X26: a failed dependency installation does not fail the setup.  Once
    the environment is there, the part of [run_setup] from the environment
    on gives [True] whether [install_requirements] gave [True] or [False],
    provided the helper steps return. *)
Theorem failed_dependencies_do_not_fail_setup
    H W venv script guide next create_download_script self h :
  returns (if use_conda self then create_conda_environment H W else venv)
    true ->
  returns_some (install_requirements H W) ->
  returns_some script ->
  returns guide tt ->
  returns next tt ->
  let r := provision_and_install H W venv script guide next true
             create_download_script self h in
  res r = Ok true.
Proof.
  intros Henv Hdeps Hscript Hguide Hnext r. subst r.
  unfold provision_and_install.
  rewrite bind_eq. cbn. rewrite bind_eq. cbn.
  rewrite Henv. cbn.
  rewrite bind_eq. rewrite bind_eq.
  match goal with
  | |- context [install_requirements H W ?s ?hh] =>
      destruct (Hdeps s hh) as (ok & Hok); rewrite Hok
  end.
  assert (Htail : forall s hh,
    res ((self <- get_self ;;
          print (MHelpers (bagel_repo_dir self)) ;;;
          (if create_download_script then script ;;; ret tt
           else print MNoDownloadScript) ;;;
          guide ;;; next ;;; ret true) s hh) = Ok true).
  { intros s hh.
    assert (Hs : forall s' hh',
               res ((if create_download_script then script ;;; ret tt
                     else print MNoDownloadScript) s' hh') = Ok tt).
    { intros s' hh'. destruct create_download_script; [ | reflexivity ].
      destruct (Hscript s' hh') as (b & Hb).
      now rewrite (res_bind_ok _ _ _ _ b Hb). }
    cbn.
    rewrite (res_bind_ok _ _ _ _ tt (Hs _ _)).
    rewrite (res_bind_ok _ _ _ _ tt (Hguide _ _)).
    rewrite (res_bind_ok _ _ _ _ tt (Hnext _ _)).
    reflexivity. }
  destruct ok; cbn; rewrite bind_eq; cbn; apply Htail.
Qed.

Lemma failed_dependencies_do_not_fail_setup_witness :
  let H := Sample.linux_host 11 in
  let W := Sample.world_without_files in
  res (install_requirements H W Sample.venv_setup []) = Ok false /\
  res (provision_and_install H W (ret true) (ret true) (ret tt) (ret tt) true
         true Sample.venv_setup []) = Ok true.
Proof.
  intros H W. split; [ reflexivity | ].
  refine (failed_dependencies_do_not_fail_setup H W (ret true) (ret true)
            (ret tt) (ret tt) true Sample.venv_setup []
            (fun _ _ => eq_refl) _ _ (fun _ _ => eq_refl) (fun _ _ => eq_refl)).
  - intros s hh. exists false. reflexivity.
  - intros s hh. exists true. reflexivity.
Defined.

(** X27: without a connection and with work that needs one, any answer
    but [y] to the question whether to go on ends [run_setup] with [False]
    at once, whatever the later steps would do. *)
Theorem offline_refusal_stops_setup
    H W banner internet system_check conda pip clone venv script guide next
    clone_repo install_deps create_download_script self h answer :
  returns banner tt ->
  returns internet false ->
  (forall hh prompt, user_input W hh prompt = Answer answer) ->
  Py.lower answer <> "y" ->
  clone_repo || install_deps || create_download_script = true ->
  let r := run_setup H W banner internet system_check conda pip clone venv
             script guide next clone_repo install_deps create_download_script
             self h in
  res r = Ok false /\
  In (Asked offline_prompt (Answer answer)) (emitted r).
Proof.
  intros Hb Hi Ha Hn Hwork r. subst r. unfold run_setup.
  apply String.eqb_neq in Hn.
  rewrite bind_eq, Hb. cbn. rewrite bind_eq, Hi. cbn.
  rewrite Hwork. rewrite bind_eq. cbn. rewrite bind_eq. cbn.
  rewrite Ha. cbn. rewrite Hn. cbn.
  split; [ reflexivity | ].
  apply in_or_app. right. apply in_or_app. right. now left.
Qed.

Lemma offline_refusal_stops_setup_witness :
  let r := run_setup_with (Sample.linux_host 11)
             (Sample.world_with_operator (Answer "n"))
             (Sample.steps false true) true true true Sample.venv_setup [] in
  res r = Ok false /\
  In (Asked offline_prompt (Answer "n")) (emitted r).
Proof.
  pose (st := Sample.steps false true).
  refine (offline_refusal_stops_setup (Sample.linux_host 11)
            (Sample.world_with_operator (Answer "n"))
            (step_print_banner st) (step_check_internet_connection st)
            (step_check_system_requirements st)
            (step_ensure_conda_installed st)
            (step_check_pip_installation st) (step_clone_repository st)
            (step_create_venv_environment st)
            (step_create_model_download_script st)
            (step_create_usage_guide st) (step_print_next_steps st)
            true true true Sample.venv_setup [] "n"
            (fun _ _ => eq_refl) (fun _ _ => eq_refl) (fun _ _ => eq_refl)
            _ eq_refl).
  discriminate.
Defined.


(* ------------------------------------------------------------------ *)
(** ** The order of the candidate versions                              *)
(* ------------------------------------------------------------------ *)

(** X28: the order in which the candidate interpreter versions are tried
    does not depend on the order in which the set of line 310 lists its
    elements: the sort key tells any two distinct versions apart, so every
    listing of the set is sorted into the same list. *)
Theorem candidate_order_ignores_the_set_order H elements :
  Permutation elements
    (distinct_versions
       ((if sys_version_minor H <=? 11 then [sys_version_minor H] else [])
        ++ [11; 10; 12])) ->
  sorted_versions elements = py_versions_to_try H.
Proof.
  intros Hp. unfold py_versions_to_try. cbv zeta.
  now apply sorted_versions_order.
Qed.

Lemma candidate_order_ignores_the_set_order_witness :
  sorted_versions [12; 9; 10; 11] = py_versions_to_try (Sample.linux_host 9).
Proof.
  apply (candidate_order_ignores_the_set_order (Sample.linux_host 9)
           [12; 9; 10; 11]).
  change (Permutation [12; 9; 10; 11] ([9; 11; 10] ++ [12])).
  apply Permutation_cons_app. cbn.
  apply perm_skip. apply perm_swap.
Defined.


(* ------------------------------------------------------------------ *)
(** ** Reading the listing of environments                              *)
(* ------------------------------------------------------------------ *)

Lemma rstrip_keeps_prefix s : forall tail,
  Py.nonempty s = true -> spaceless s = true ->
  String.prefix s (Py.rstrip (s +++ tail)) = true.
Proof.
  induction s as [ | c s IH]; intros tail Hn Hs; [ discriminate Hn | ].
  cbn [spaceless] in Hs. apply andb_true_iff in Hs as [Hc Hs].
  apply negb_true_iff in Hc.
  cbn [String.append Py.rstrip].
  destruct s as [ | d s ].
  - destruct (Py.rstrip (EmptyString +++ tail)); [ rewrite Hc | ]; cbn;
      destruct (ascii_dec c c); congruence.
  - specialize (IH tail eq_refl Hs).
    destruct (Py.rstrip (String d s +++ tail)) as [ | e r ];
      [ discriminate IH | ].
    cbn [String.prefix] in *. destruct (ascii_dec c c); congruence.
Qed.

(** X29: the listing is read by prefix (lines 297-299): any line of the
    output of [conda env list] that begins with the environment name makes
    the environment count as existing, whatever follows the name on that
    line; so a longer name such as [bagel_env_old] stands for
    [bagel_env]. *)
Theorem listing_matches_by_prefix env tail line stdout_list :
  In line (Py.splitlines stdout_list) ->
  line = env +++ tail ->
  Py.nonempty env = true ->
  spaceless env = true ->
  env_listed env stdout_list = true.
Proof.
  intros Hin -> Hn Hs. unfold env_listed.
  apply existsb_exists. exists (env +++ tail). split; [ exact Hin | ].
  unfold Py.startswith, Py.strip.
  destruct env as [ | c env ]; [ discriminate Hn | ].
  cbn [spaceless] in Hs.
  assert (Hc : Py.isspace c = false).
  { apply andb_true_iff in Hs as [Hc _]. now apply negb_true_iff in Hc. }
  cbn [String.append Py.lstrip]. rewrite Hc.
  change (String c (env +++ tail)) with (String c env +++ tail).
  now apply rstrip_keeps_prefix.
Qed.

Lemma listing_matches_by_prefix_witness :
  env_listed "bagel_env" listing_with_longer_name = true.
Proof.
  apply (listing_matches_by_prefix "bagel_env"
           "_old          /opt/conda/envs/bagel_env_old"
           "bagel_env_old          /opt/conda/envs/bagel_env_old"
           listing_with_longer_name).
  - vm_compute. auto.
  - reflexivity.
  - reflexivity.
  - reflexivity.
Defined.
